(** * Shift claim and profit analytics

    A shallow embedding of [Load_shifts_final.py], which turns the raw
    offer-event log into the clean cohort, and of the report scripts under
    [plots/] that aggregate it.

    Conventions of the embedding.
    - A CSV row is an [Event]; a missing cell (NaN / NaT) is [None].
    - Timestamps are [Z], nanoseconds since the epoch, as in [datetime64];
      rates and durations are rationals [Q], the exact counterpart of the
      [float64] cells (rounding of floating-point arithmetic is not
      represented).
    - A data frame is its list of column labels together with its rows, in
      order.  Reading a column that is not there raises [KeyError]. *)

From Stdlib Require Import ZArith QArith Qround.
From stdpp Require Import numbers.
From stdpp Require Import base decidable list sorting gmap.
From stdpp Require Import strings pretty finite.

(** ** Data frames *)

Module Frame.

Inductive Column :=
  | col_SHIFT_ID | col_WORKPLACE_ID | col_PAY_RATE | col_CHARGE_RATE
  | col_DURATION | col_SHIFT_START_AT | col_SHIFT_END_AT
  | col_OFFER_VIEWED_AT | col_CLAIMED_AT | col_CANCELED_AT
  | col_IS_VERIFIED | col_IS_NCNS | col_CLAIMED.

Global Instance Column_eq_dec : EqDecision Column.
Proof. solve_decision. Defined.

Definition Timestamp := Z.

Record Event := mkEvent {
  SHIFT_ID : Z;
  WORKPLACE_ID : option Z;
  PAY_RATE : option Q;
  CHARGE_RATE : option Q;
  DURATION : option Q;
  SHIFT_START_AT : option Timestamp;
  SHIFT_END_AT : option Timestamp;
  OFFER_VIEWED_AT : option Timestamp;
  CLAIMED_AT : option Timestamp;
  CANCELED_AT : option Timestamp;
  IS_VERIFIED : option bool;
  IS_NCNS : option bool;
  CLAIMED : option bool
}.

Record DataFrame := mkFrame {
  columns : list Column;
  rows : list Event
}.

Inductive Error := KeyError (c : Column).

Inductive Result (A : Type) :=
  | Ok (a : A)
  | Raise (e : Error).
Global Arguments Ok {A} a.
Global Arguments Raise {A} e.

Definition bind {A B} (r : Result A) (k : A → Result B) : Result B :=
  match r with
  | Ok a => k a
  | Raise e => Raise e
  end.

(** [Series.notna()] on one cell. *)
Definition notnull {A} (o : option A) : bool :=
  match o with Some _ => true | None => false end.

(** The cell of column [c] in row [e] is not missing. *)
Definition notna (c : Column) (e : Event) : bool :=
  match c with
  | col_SHIFT_ID => true
  | col_WORKPLACE_ID => notnull (WORKPLACE_ID e)
  | col_PAY_RATE => notnull (PAY_RATE e)
  | col_CHARGE_RATE => notnull (CHARGE_RATE e)
  | col_DURATION => notnull (DURATION e)
  | col_SHIFT_START_AT => notnull (SHIFT_START_AT e)
  | col_SHIFT_END_AT => notnull (SHIFT_END_AT e)
  | col_OFFER_VIEWED_AT => notnull (OFFER_VIEWED_AT e)
  | col_CLAIMED_AT => notnull (CLAIMED_AT e)
  | col_CANCELED_AT => notnull (CANCELED_AT e)
  | col_IS_VERIFIED => notnull (IS_VERIFIED e)
  | col_IS_NCNS => notnull (IS_NCNS e)
  | col_CLAIMED => notnull (CLAIMED e)
  end.

(** Column assignment [df[c] = ...], one setter per column the scripts
    write. *)
Definition set_CLAIMED (v : option bool) (e : Event) : Event :=
  mkEvent (SHIFT_ID e) (WORKPLACE_ID e) (PAY_RATE e) (CHARGE_RATE e)
    (DURATION e) (SHIFT_START_AT e) (SHIFT_END_AT e) (OFFER_VIEWED_AT e)
    (CLAIMED_AT e) (CANCELED_AT e) (IS_VERIFIED e) (IS_NCNS e) v.

Definition set_SHIFT_END_AT (v : option Timestamp) (e : Event) : Event :=
  mkEvent (SHIFT_ID e) (WORKPLACE_ID e) (PAY_RATE e) (CHARGE_RATE e)
    (DURATION e) (SHIFT_START_AT e) v (OFFER_VIEWED_AT e)
    (CLAIMED_AT e) (CANCELED_AT e) (IS_VERIFIED e) (IS_NCNS e) (CLAIMED e).

Definition set_IS_VERIFIED (v : option bool) (e : Event) : Event :=
  mkEvent (SHIFT_ID e) (WORKPLACE_ID e) (PAY_RATE e) (CHARGE_RATE e)
    (DURATION e) (SHIFT_START_AT e) (SHIFT_END_AT e) (OFFER_VIEWED_AT e)
    (CLAIMED_AT e) (CANCELED_AT e) v (IS_NCNS e) (CLAIMED e).

Definition set_IS_NCNS (v : option bool) (e : Event) : Event :=
  mkEvent (SHIFT_ID e) (WORKPLACE_ID e) (PAY_RATE e) (CHARGE_RATE e)
    (DURATION e) (SHIFT_START_AT e) (SHIFT_END_AT e) (OFFER_VIEWED_AT e)
    (CLAIMED_AT e) (CANCELED_AT e) (IS_VERIFIED e) v (CLAIMED e).

(** A row with another [CHARGE_RATE] cell (what [pd.to_numeric] with
    [errors="coerce"] leaves of an unreadable cell is [None]). *)
Definition set_CHARGE_RATE (v : option Q) (e : Event) : Event :=
  mkEvent (SHIFT_ID e) (WORKPLACE_ID e) (PAY_RATE e) v
    (DURATION e) (SHIFT_START_AT e) (SHIFT_END_AT e) (OFFER_VIEWED_AT e)
    (CLAIMED_AT e) (CANCELED_AT e) (IS_VERIFIED e) (IS_NCNS e) (CLAIMED e).

(** [c in df.columns] *)
Definition has (c : Column) (cols : list Column) : bool :=
  bool_decide (c ∈ cols).

(** [df[c]] used as an r-value: the column has to exist. *)
Definition require (c : Column) (cols : list Column) : Result unit :=
  if has c cols then Ok tt else Raise (KeyError c).

(** [df[c] = ...]: an existing column keeps its position, a new one is
    appended. *)
Definition add_column (c : Column) (cols : list Column) : list Column :=
  if has c cols then cols else cols ++ [c].

(** [df.drop(columns=[c])] and [df.pop(c)] on the labels. *)
Definition drop_column (c : Column) (cols : list Column) : list Column :=
  filter (λ c', c' ≠ c) cols.

(** [df.columns.get_loc(c)] *)
Fixpoint get_loc (c : Column) (cols : list Column) : option nat :=
  match cols with
  | [] => None
  | c' :: cols' =>
      if decide (c' = c) then Some 0%nat else S <$> get_loc c cols'
  end.

(** [df.insert(i, c, ...)] on the labels. *)
Definition insert_column (i : nat) (c : Column) (cols : list Column)
  : list Column :=
  take i cols ++ c :: drop i cols.

(** [df.dropna(axis=1, how='all')]: a column stays when some row has a
    value in it. *)
Definition dropna_all (cols : list Column) (l : list Event) : list Column :=
  filter (λ c, existsb (notna c) l = true) cols.

(** *** Sorting

    [sort_values] sorts through [argsort] of the key column and then takes
    the rows in that order; missing keys go last.  The algorithm is chosen
    by [kind]; every kind returns a permutation of the positions under which
    the keys ascend, and nothing more is common to all of them. *)
Record SortKind := mkSortKind {
  argsort : list Z → list nat;
  argsort_perm : ∀ ks, argsort ks ≡ₚ seq 0 (length ks);
  argsort_sorted :
    ∀ ks, StronglySorted Z.le (omap (λ i, ks !! i) (argsort ks))
}.


(** Sorting the positions by an order on (key, position) pairs; ordering
    ties by position gives a stable kind. *)
Definition key_then_pos (a b : Z * nat) : Prop :=
  (a.1 < b.1)%Z ∨ (a.1 = b.1 ∧ a.2 ≤ b.2).

Global Instance key_then_pos_dec a b : Decision (key_then_pos a b).
Proof. unfold key_then_pos. apply _. Defined.

Definition argsort_with (R : relation (Z * nat))
    `{!∀ a b, Decision (R a b)} (ks : list Z) : list nat :=
  (merge_sort R (zip ks (seq 0 (length ks)))).*2.

(** [df.iloc[idx]] *)
Definition iloc {A} (l : list A) (idx : list nat) : list A :=
  omap (λ i, l !! i) idx.

Definition sort_values (kind : SortKind) (by_ : Event → option Z)
    (l : list Event) : list Event :=
  let present := filter (λ e, is_Some (by_ e)) l in
  let missing := filter (λ e, ¬ is_Some (by_ e)) l in
  iloc present (argsort kind (omap by_ present)) ++ missing.

(** *** Grouping by [SHIFT_ID]

    Group keys come out ascending and each group keeps the row order of the
    frame. *)
Definition group_keys (l : list Event) : list Z :=
  merge_sort Z.le (remove_dups (SHIFT_ID <$> l)).

Definition group (s : Z) (l : list Event) : list Event :=
  filter (λ e, SHIFT_ID e = s) l.

(** [GroupBy.first()] works column by column: the first value of the group
    that is not missing. *)
Definition first_notna {A} (f : Event → option A) (g : list Event)
  : option A :=
  head (omap f g).

Definition first_of_group (s : Z) (g : list Event) : Event :=
  {| SHIFT_ID := s;
     WORKPLACE_ID := first_notna WORKPLACE_ID g;
     PAY_RATE := first_notna PAY_RATE g;
     CHARGE_RATE := first_notna CHARGE_RATE g;
     DURATION := first_notna DURATION g;
     SHIFT_START_AT := first_notna SHIFT_START_AT g;
     SHIFT_END_AT := first_notna SHIFT_END_AT g;
     OFFER_VIEWED_AT := first_notna OFFER_VIEWED_AT g;
     CLAIMED_AT := first_notna CLAIMED_AT g;
     CANCELED_AT := first_notna CANCELED_AT g;
     IS_VERIFIED := first_notna IS_VERIFIED g;
     IS_NCNS := first_notna IS_NCNS g;
     CLAIMED := first_notna CLAIMED g |}.

(** [df.groupby('SHIFT_ID', as_index=False).first()] *)
Definition groupby_first (l : list Event) : list Event :=
  (λ s, first_of_group s (group s l)) <$> group_keys l.

(** [df.drop_duplicates('SHIFT_ID', keep='first')]: whole rows, the first
    of each shift, in frame order. *)
Fixpoint drop_duplicates (seen : gset Z) (l : list Event) : list Event :=
  match l with
  | [] => []
  | e :: l' =>
      if decide (SHIFT_ID e ∈ seen) then drop_duplicates seen l'
      else e :: drop_duplicates ({[SHIFT_ID e]} ∪ seen) l'
  end.

(** *** Time arithmetic *)

Definition ns_per_minute : Z := 60000000000.
Definition ns_per_hour : Z := 3600000000000.

(** [pd.to_timedelta(d, unit=...)]: the whole number of nanoseconds in [d]
    units, cut toward zero. *)
Definition to_timedelta (d : Q) (unit_ns : Z) : Z :=
  let q := Qmult d (inject_Z unit_ns) in
  Z.quot (Qnum q) (Zpos (Qden q)).

(** *** Reductions that skip missing values *)

Definition somes {A} (l : list (option A)) : list A := omap id l.

(** [Series.sum()]: missing values are skipped, the empty sum is 0. *)
Definition sum_skipna (l : list (option Q)) : Q :=
  foldr Qplus 0%Q (somes l).

Definition Qmax (a b : Q) : Q := if Qle_bool a b then b else a.

(** [Series.max()]: the largest value present, missing when there is
    none. *)
Definition max_skipna (l : list (option Q)) : option Q :=
  match somes l with
  | [] => None
  | x :: xs => Some (foldr Qmax x xs)
  end.

(** [Series.mean()] *)
Definition mean_skipna (l : list (option Q)) : option Q :=
  match somes l with
  | [] => None
  | xs => Some (foldr Qplus 0%Q xs / inject_Z (Z.of_nat (length xs)))%Q
  end.

(** [Series.nunique()] of the [SHIFT_ID] column. *)
Definition nunique_SHIFT_ID (l : list Event) : nat :=
  size (list_to_set (SHIFT_ID <$> l) : gset Z).

(** [groupby('SHIFT_ID')['PAY_RATE'].max().reset_index()] *)
Definition groupby_max_PAY_RATE (l : list Event) : list (Z * option Q) :=
  (λ s, (s, max_skipna (PAY_RATE <$> group s l))) <$> group_keys l.

(** [pd.merge(left, right, on='SHIFT_ID')], an inner join that keeps the
    order of the left frame. *)
Definition merge {A B} (kl : A → Z) (kr : B → Z) (left : list A)
    (right : list B) : list (A * B) :=
  a ← left; (λ b, (a, b)) <$> filter (λ b, kr b = kl a) right.

(** [pd.cut(x, bins, right=False)]: the position of the half-open
    interval between two successive edges that holds [x]. *)
Fixpoint cut (bins : list Z) (x : Q) : option nat :=
  match bins with
  | [] => None
  | lo :: rest =>
      match rest with
      | [] => None
      | hi :: _ =>
          if Qle_bool (inject_Z lo) x && negb (Qle_bool (inject_Z hi) x)
          then Some 0%nat
          else S <$> cut rest x
      end
  end.

(** The mask [df["CHARGE_RATE"] > 0]; a missing rate compares false. *)
Definition positive_charge (e : Event) : bool :=
  match CHARGE_RATE e with
  | Some c => negb (Qle_bool c 0)
  | None => false
  end.

(** The percentage margin of the reports:
    [(CHARGE_RATE - PAY_RATE) / CHARGE_RATE * 100]. *)
Definition pct_margin (c p : Q) : Q := ((c - p) / c * 100)%Q.

Definition pct_margin_cells (c p : option Q) : option Q :=
  match c, p with
  | Some c, Some p => Some (pct_margin c p)
  | _, _ => None
  end.

(** The split every report makes on the [CLAIMED] column as read back
    from the CSV: [astype(str).str.lower() == "true"] and its negation. *)
Definition claimed_rows (l : list Event) : list Event :=
  filter (λ e, CLAIMED e = Some true) l.

Definition unclaimed_rows (l : list Event) : list Event :=
  filter (λ e, CLAIMED e ≠ Some true) l.

(** *** Reading the cohort file

    What stops a report: the [ValueError] of [read_csv] when a column named
    in [parse_dates] is not in the file, which names the columns that are
    missing, or the [KeyError] of a column read further down. *)
Inductive Stop :=
  | ValueError (missing : list Column)
  | Raised (e : Error).

Definition lacking (wanted cols : list Column) : list Column :=
  filter (λ c, c ∉ cols) wanted.

(** [pd.read_csv(path, parse_dates=dates)] followed by the reads of the
    columns [used], in that order. *)
Definition read_csv (dates used : list Column) (d : DataFrame)
  : Stop + list Event :=
  match lacking dates (columns d) with
  | [] =>
      match lacking used (columns d) with
      | [] => inr (rows d)
      | c :: _ => inl (Raised (KeyError c))
      end
  | missing => inl (ValueError missing)
  end.

End Frame.

(** ** The default sort of [sort_values]

    [sort_values] with no [kind] runs numpy's [argsort] of kind
    [quicksort] on the keys that are present: [aquicksort_] of
    [npysort/quicksort.cpp], an introsort over the array of positions
    [tosort], with [aheapsort_] of [npysort/heapsort.cpp] as its fallback.
    Pointers into [tosort] are positions here. *)

Module Numpy.
Import Frame.

Definition SMALL_QUICKSORT : nat := 16.

(** [npy_get_msb]: the position of the highest bit set. *)
Definition npy_get_msb (n : nat) : Z := Z.log2 (Z.of_nat n).

Section argsort.
Context (v : list Z).
Implicit Types a : list nat.

Definition less (x y : Z) : bool := bool_decide (x < y)%Z.

(** [v[i]] and [v[*p]] *)
Definition key (i : nat) : Z := default 0%Z (v !! i).

Definition deref a (p : nat) : nat := default 0%nat (a !! p).

Definition key_at a (p : nat) : Z := key (deref a p).

Definition INTP_SWAP (p q : nat) a : list nat :=
  <[q := deref a p]> (<[p := deref a q]> a).

(** [do ++pi; while (less(v[*pi], vp));] *)
Fixpoint scan_right (fuel : nat) a (vp : Z) (pi : nat) : nat :=
  match fuel with
  | O => S pi
  | S fuel =>
      if less (key_at a (S pi)) vp then scan_right fuel a vp (S pi)
      else S pi
  end.

(** [do --pj; while (less(vp, v[*pj]));] *)
Fixpoint scan_left (fuel : nat) a (vp : Z) (pj : nat) : nat :=
  match fuel with
  | O => pred pj
  | S fuel =>
      if less vp (key_at a (pred pj)) then scan_left fuel a vp (pred pj)
      else pred pj
  end.

(** The [for (;;)] loop of the partition: the array and the final
    [pi]. *)
Fixpoint partition_loop (fuel : nat) a (vp : Z) (pi pj : nat)
  : list nat * nat :=
  let pi := scan_right (length a) a vp pi in
  let pj := scan_left (length a) a vp pj in
  if decide (pj ≤ pi) then (a, pi)
  else match fuel with
       | O => (a, pi)
       | S fuel => partition_loop fuel (INTP_SWAP pi pj a) vp pi pj
       end.

(** One round of the [while] loop up to the push: the median of three
    goes to [pr - 1], the range is split around it, and it is put in its
    place [pi]. *)
Definition partition a (pl pr : nat) : list nat * nat :=
  let pm := pl + (pr - pl) / 2 in
  let a := if less (key_at a pm) (key_at a pl) then INTP_SWAP pm pl a
           else a in
  let a := if less (key_at a pr) (key_at a pm) then INTP_SWAP pr pm a
           else a in
  let a := if less (key_at a pm) (key_at a pl) then INTP_SWAP pm pl a
           else a in
  let vp := key_at a pm in
  let a := INTP_SWAP pm (pr - 1) a in
  let '(a, pi) := partition_loop (length a) a vp pl (pr - 1) in
  (INTP_SWAP pi (pr - 1) a, pi).

(** The [while ((pr - pl) > SMALL_QUICKSORT)] loop: the larger side of
    each split is pushed with the depth left, the smaller one is split
    again. *)
Fixpoint partition_while (fuel : nat) a (pl pr : nat) (cdepth : Z)
    (stack : list (nat * nat * Z))
  : list nat * nat * nat * list (nat * nat * Z) :=
  match fuel with
  | O => (a, pl, pr, stack)
  | S fuel =>
      if decide (SMALL_QUICKSORT < pr - pl) then
        let '(a, pi) := partition a pl pr in
        let cdepth := (cdepth - 1)%Z in
        if decide (pi - pl < pr - pi) then
          partition_while fuel a pl (pi - 1) cdepth
            ((pi + 1, pr, cdepth) :: stack)
        else
          partition_while fuel a (pi + 1) pr cdepth
            ((pl, pi - 1, cdepth) :: stack)
      else (a, pl, pr, stack)
  end.

(** [while (pj > pl && less(vp, v[*pk])) { *pj-- = *pk--; } *pj = vi;] *)
Fixpoint insert_down (fuel : nat) a (pl vi : nat) (vp : Z) (pj : nat)
  : list nat :=
  match fuel with
  | O => <[pj := vi]> a
  | S fuel =>
      if decide (pl < pj) then
        if less vp (key_at a (pj - 1))
        then insert_down fuel (<[pj := deref a (pj - 1)]> a) pl vi vp (pj - 1)
        else <[pj := vi]> a
      else <[pj := vi]> a
  end.

(** The insertion sort of the positions [pl] to [pr]. *)
Definition insertion_sort a (pl pr : nat) : list nat :=
  foldl (λ a pi,
           let vi := deref a pi in
           insert_down (length a) a pl vi (key vi) pi)
    a (seq (S pl) (pr - pl)).

(** *** [aheapsort_] on the [n] positions from [start]; the heap is
    indexed from 1. *)
Definition heap_at a (start k : nat) : nat := deref a (start + k - 1).

Definition heap_set a (start k x : nat) : list nat :=
  <[start + k - 1 := x]> a.

(** The sift-down loop [for (...; j <= n;)] followed by [a[i] = tmp]. *)
Fixpoint sift_down (fuel : nat) a (start n tmp i j : nat) : list nat :=
  match fuel with
  | O => heap_set a start i tmp
  | S fuel =>
      if decide (j ≤ n) then
        let j :=
          if bool_decide (j < n)
             && less (key (heap_at a start j)) (key (heap_at a start (j + 1)))
          then j + 1 else j in
        if less (key tmp) (key (heap_at a start j))
        then sift_down fuel (heap_set a start i (heap_at a start j))
               start n tmp j (j + j)
        else heap_set a start i tmp
      else heap_set a start i tmp
  end.

(** [for (l = n >> 1; l > 0; --l)] *)
Definition heapify a (start n : nat) : list nat :=
  foldl (λ a l, sift_down n a start n (heap_at a start l) l (2 * l))
    a (reverse (seq 1 (n / 2))).

(** [for (; n > 1;)] *)
Definition heap_extract a (start n : nat) : list nat :=
  foldl (λ a n,
           let tmp := heap_at a start n in
           let a := heap_set a start n (heap_at a start 1) in
           sift_down n a start (n - 1) tmp 1 2)
    a (reverse (seq 2 (n - 1))).

Definition aheapsort a (start n : nat) : list nat :=
  heap_extract (heapify a start n) start n.

(** The outer [while (1)] loop with its [stack_pop]. *)
Fixpoint sort_loop (fuel : nat) a (pl pr : nat) (cdepth : Z)
    (stack : list (nat * nat * Z)) : list nat :=
  match fuel with
  | O => a
  | S fuel =>
      let '(a, stack) :=
        if decide (cdepth < 0)%Z
        then (aheapsort a pl (pr - pl + 1), stack)
        else
          let '(a, pl, pr, stack) :=
            partition_while (length a) a pl pr cdepth stack in
          (insertion_sort a pl pr, stack) in
      match stack with
      | [] => a
      | (pl, pr, cdepth) :: stack => sort_loop fuel a pl pr cdepth stack
      end
  end.

(** [np.argsort(v, kind='quicksort')] *)
Definition aquicksort : list nat :=
  let num := length v in
  sort_loop (S num) (seq 0 num) 0 (num - 1) (2 * npy_get_msb num) [].

End argsort.
(** What [SortKind] asks of the result of an [argsort]. *)
Definition is_argsort (ks : list Z) (r : list nat) : Prop :=
  r ≡ₚ seq 0 (length ks) ∧ StronglySorted Z.le (omap (λ i, ks !! i) r).

Global Instance is_argsort_dec ks r : Decision (is_argsort ks r).
Proof. unfold is_argsort. apply _. Defined.

(** The default [argsort] as a function that carries the two facts: the
    result of [aquicksort], checked.  The check does not fail on a result
    numpy returns, which is a sorted permutation; the stable order stands
    in where it would. *)
Definition argsort_quicksort (ks : list Z) : list nat :=
  let r := aquicksort ks in
  if decide (is_argsort ks r) then r else argsort_with key_then_pos ks.

End Numpy.

(** ** [Load_shifts_final.py] *)

Module Loader.
Import Frame.

Section script.
Context (kind : SortKind).

(** Line 12: [df['CLAIMED'] = df['CLAIMED_AT'].notna()] *)
Definition add_CLAIMED (l : list Event) : list Event :=
  (λ e, set_CLAIMED (Some (notnull (CLAIMED_AT e))) e) <$> l.

(** Line 19: [claimed_df = df[df['CLAIMED']]] *)
Definition claimed_df (l : list Event) : list Event :=
  filter (λ e, CLAIMED e = Some true) l.

(** Line 24: [claimed_df.sort_values(by='CLAIMED_AT')].  The script names
    no kind, so the default one sorts; the kind is left open here. *)
Definition claimed_df_sorted (l : list Event) : list Event :=
  sort_values kind CLAIMED_AT (claimed_df l).

(** Lines 28-32: the verification default.  With the column present a
    missing value counts as not verified; without the column every first
    claimer is taken to have worked. *)
Definition worked (cols : list Column) (fc : Event) : bool :=
  if has col_IS_VERIFIED cols then default false (IS_VERIFIED fc) else true.

(** Lines 25-32: [first_claims], one record per claimed shift. *)
Definition first_claims (cols : list Column) (l : list Event)
  : list Event :=
  (λ fc, set_IS_VERIFIED (Some (worked cols fc)) fc)
    <$> groupby_first (claimed_df_sorted l).

(** Line 54 *)
Definition canceled_shift_ids (l : list Event) : gset Z :=
  list_to_set (SHIFT_ID <$> filter (λ e, is_Some (CANCELED_AT e)) l).

(** Line 57 *)
Definition ncns_shift_ids (cols : list Column) (l : list Event) : gset Z :=
  if has col_IS_NCNS cols
  then list_to_set (SHIFT_ID <$> filter (λ e, IS_NCNS e = Some true) l)
  else ∅.

(** Line 60 *)
Definition first_claims_not_worked_shift_ids (cols : list Column)
    (l : list Event) : gset Z :=
  list_to_set
    (SHIFT_ID <$> filter (λ fc, IS_VERIFIED fc = Some false)
                    (first_claims cols l)).

(** Line 63 *)
Definition excluded_shift_ids (cols : list Column) (l : list Event)
  : gset Z :=
  canceled_shift_ids l ∪ ncns_shift_ids cols l
    ∪ first_claims_not_worked_shift_ids cols l.

(** Lines 66-70: the rows of [df_final]. *)
Definition filter_excluded (cols : list Column) (l : list Event)
  : list Event :=
  let kept := filter (λ e, SHIFT_ID e ∉ excluded_shift_ids cols l) l in
  if has col_IS_NCNS cols
  then filter (λ e, IS_NCNS e ≠ Some true) kept
  else kept.

(** Line 73: start plus [DURATION] taken as minutes. *)
Definition shift_end_minutes (e : Event) : option Timestamp :=
  match SHIFT_START_AT e, DURATION e with
  | Some t, Some d => Some (t + to_timedelta d ns_per_minute)%Z
  | _, _ => None
  end.

Definition add_SHIFT_END_AT (l : list Event) : list Event :=
  (λ e, set_SHIFT_END_AT (shift_end_minutes e) e) <$> l.

(** Lines 73-78 on the labels: the new column is appended, popped, and put
    back right after [SHIFT_START_AT]. *)
Definition place_SHIFT_END_AT (cols : list Column) : list Column :=
  let cols1 := add_column col_SHIFT_END_AT cols in
  match get_loc col_SHIFT_START_AT cols1 with
  | Some i => insert_column (S i) col_SHIFT_END_AT
                (drop_column col_SHIFT_END_AT cols1)
  | None => cols1
  end.

(** Lines 91-98: the columns leaving the cohort. *)
Definition drop_IS_VERIFIED (l : list Event) : list Event :=
  set_IS_VERIFIED None <$> l.

Definition drop_IS_NCNS (l : list Event) : list Event :=
  set_IS_NCNS None <$> l.

(** Lines 91-94 on the labels. *)
Definition columns_after_dropna (cols : list Column) (l : list Event)
  : list Column :=
  dropna_all (drop_column col_IS_VERIFIED cols) l.

(** What lines 73-98 do to one row that stays in the cohort; [ncns] tells
    whether the [IS_NCNS] column is still there at line 97. *)
Definition finish (ncns : bool) (e : Event) : Event :=
  let e1 := set_IS_VERIFIED None (set_SHIFT_END_AT (shift_end_minutes e) e) in
  if ncns then set_IS_NCNS None e1 else e1.

(** The script up to line 98: from the frame read at line 4 to
    [df_final]. *)
Definition Load_shifts_final (df : DataFrame) : Result DataFrame :=
  bind (require col_CLAIMED_AT (columns df)) (λ _,
  bind (require col_CANCELED_AT (columns df)) (λ _,
  let cols := add_column col_CLAIMED (columns df) in
  let l := add_CLAIMED (rows df) in
  bind (require col_SHIFT_ID cols) (λ _,
  let kept := filter_excluded cols l in
  bind (require col_SHIFT_START_AT cols) (λ _,
  bind (require col_DURATION cols) (λ _,
  let kept1 := add_SHIFT_END_AT kept in
  let cols1 := place_SHIFT_END_AT cols in
  let kept2 := drop_IS_VERIFIED kept1 in
  let cols2 := columns_after_dropna cols1 kept2 in
  let kept3 :=
    if has col_IS_NCNS cols2 then drop_IS_NCNS kept2 else kept2 in
  let cols3 := drop_column col_IS_NCNS cols2 in
  Ok (mkFrame cols3 kept3)))))).

End script.

(** What every row of a cohort looks like. *)
Definition cohort_row (e : Event) : Prop :=
  CANCELED_AT e = None ∧ IS_VERIFIED e = None ∧
  CLAIMED e = Some (notnull (CLAIMED_AT e)) ∧
  SHIFT_END_AT e = shift_end_minutes e.

(** The columns the script reads without asking whether they exist. *)
Definition required_columns : list Column :=
  [col_CLAIMED_AT; col_CANCELED_AT; col_SHIFT_ID; col_SHIFT_START_AT;
   col_DURATION].

(** A frame with the required columns put back where they are gone; the
    rows are untouched, so a column put back is empty. *)
Definition restore_columns (df : DataFrame) : DataFrame :=
  mkFrame (foldl (λ cols c, add_column c cols) (columns df) required_columns)
    (rows df).



End Loader.

(** ** [plots/1a_Estimated_Profit_Claimed_vs_Unclaimed_Shifts.py] *)

Module Plot1a.
Import Frame.

(** Line 27: [(CHARGE_RATE - PAY_RATE) * DURATION] on one row. *)
Definition row_profit (e : Event) : option Q :=
  match CHARGE_RATE e, PAY_RATE e, DURATION e with
  | Some c, Some p, Some d => Some ((c - p) * d)%Q
  | _, _, _ => None
  end.

Definition claimed_profit (l : list Event) : Q :=
  sum_skipna (row_profit <$> claimed_rows l).

(** Line 31 *)
Definition max_offers (l : list Event) : list (Z * option Q) :=
  groupby_max_PAY_RATE (unclaimed_rows l).

(** Lines 34-39: the first row of each shift joined with its maximum. *)
Definition merged_unclaimed (l : list Event)
  : list (Event * (Z * option Q)) :=
  merge SHIFT_ID fst (drop_duplicates ∅ (unclaimed_rows l)) (max_offers l).

(** Line 42: [(CHARGE_RATE - PAY_RATE_MAX) * DURATION] *)
Definition estimated_profit (m : Event * (Z * option Q)) : option Q :=
  match CHARGE_RATE m.1, m.2.2, DURATION m.1 with
  | Some c, Some p, Some d => Some ((c - p) * d)%Q
  | _, _, _ => None
  end.

Definition unclaimed_profit (l : list Event) : Q :=
  sum_skipna (estimated_profit <$> merged_unclaimed l).

(** Line 11 *)
Definition parse_dates : list Column :=
  [col_SHIFT_START_AT; col_OFFER_VIEWED_AT; col_CLAIMED_AT].

(** Lines 14-16, 23 and 31: the columns read by name. *)
Definition used : list Column :=
  [col_PAY_RATE; col_CHARGE_RATE; col_DURATION; col_CLAIMED; col_SHIFT_ID].

(** Lines 11-42 on the cohort file: the per-shift maxima and the two
    totals. *)
Definition script (d : DataFrame)
  : Stop + (list (Z * option Q) * Q * Q) :=
  match read_csv parse_dates used d with
  | inr l => inr (max_offers l, claimed_profit l, unclaimed_profit l)
  | inl stop => inl stop
  end.

(** The unclaimed events of shift [s], in the order of the frame. *)
Definition unclaimed_events (l : list Event) (s : Z) : list Event :=
  filter (λ e, SHIFT_ID e = s ∧ CLAIMED e ≠ Some true) l.

(** What one unclaimed shift adds to the profit total: charge rate and
    duration of its first unclaimed event, the highest pay rate of all its
    unclaimed events. *)
Definition shift_profit (l : list Event) (s : Z) : option Q :=
  e ← head (unclaimed_events l s);
  c ← CHARGE_RATE e;
  p ← max_skipna (PAY_RATE <$> unclaimed_events l s);
  d ← DURATION e;
  Some ((c - p) * d)%Q.

End Plot1a.

(** ** [plots/1b_Total_Shift_Hours_Claimed_vs_Unclaimed.py] *)

Module Plot1b.
Import Frame.

(** Line 25 *)
Definition claimed_hours (l : list Event) : Q :=
  sum_skipna (DURATION <$> claimed_rows l).

(** Line 28: [groupby("SHIFT_ID")["DURATION"].first().sum()] *)
Definition unclaimed_hours (l : list Event) : Q :=
  sum_skipna
    ((λ s, first_notna DURATION (group s (unclaimed_rows l)))
       <$> group_keys (unclaimed_rows l)).

(** What one unclaimed shift adds to the hours total: the first duration
    on record among its unclaimed events. *)
Definition shift_hours (l : list Event) (s : Z) : option Q :=
  head (omap DURATION (Plot1a.unclaimed_events l s)).

End Plot1b.

(** ** [plots/4b_Profit_Margin_vs_Shift_Duration_(Claimed_vs_Unclaimed).py] *)

Module Plot4b.
Import Frame.

(** Line 14: [df = df[df["CHARGE_RATE"] > 0]] *)
Definition df (l : list Event) : list Event :=
  filter (λ e, positive_charge e = true) l.

(** Line 25 *)
Definition claimed_PROFIT_MARGIN (l : list Event) : list (option Q) :=
  (λ e, pct_margin_cells (CHARGE_RATE e) (PAY_RATE e))
    <$> claimed_rows (df l).

(** Line 29 *)
Definition max_payrates (l : list Event) : list (Z * option Q) :=
  groupby_max_PAY_RATE (unclaimed_rows (df l)).

(** Line 32 *)
Definition meta (l : list Event) : list Event :=
  drop_duplicates ∅ (unclaimed_rows (df l)).

(** Line 35 *)
Definition unclaimed_summary (l : list Event)
  : list ((Z * option Q) * Event) :=
  merge fst SHIFT_ID (max_payrates l) (meta l).

(** Line 38 *)
Definition unclaimed_PROFIT_MARGIN (l : list Event) : list (option Q) :=
  (λ r, pct_margin_cells (CHARGE_RATE r.2) r.1.2) <$> unclaimed_summary l.

(** Line 6 *)
Definition parse_dates : list Column :=
  [col_SHIFT_START_AT; col_CLAIMED_AT; col_OFFER_VIEWED_AT].

(** Lines 9-11, 17 and 29: the columns read by name. *)
Definition used : list Column :=
  [col_PAY_RATE; col_CHARGE_RATE; col_DURATION; col_CLAIMED; col_SHIFT_ID].

(** A row of [unclaimed_summary] after line 38. *)
Record SummaryRow := mkSummaryRow {
  summary_SHIFT_ID : Z;
  MAX_PAY_RATE : option Q;
  summary_CHARGE_RATE : option Q;
  summary_DURATION : option Q;
  PROFIT_MARGIN : option Q
}.

(** Lines 32-38: the projection of [meta] on its three columns, the join
    and the margin. *)
Definition summary_row (r : (Z * option Q) * Event) : SummaryRow :=
  {| summary_SHIFT_ID := r.1.1;
     MAX_PAY_RATE := r.1.2;
     summary_CHARGE_RATE := CHARGE_RATE r.2;
     summary_DURATION := DURATION r.2;
     PROFIT_MARGIN := pct_margin_cells (CHARGE_RATE r.2) r.1.2 |}.

(** Lines 6-38 on the cohort file: the margins of the claimed rows and the
    summary of the unclaimed shifts. *)
Definition script (d : DataFrame)
  : Stop + (list (option Q) * list SummaryRow) :=
  match read_csv parse_dates used d with
  | inr l => inr (claimed_PROFIT_MARGIN l, summary_row <$> unclaimed_summary l)
  | inl stop => inl stop
  end.


End Plot4b.

(** ** [plots/5__Profit_Margin_by_Shift Time_Claimed_vs_Unclaimed_(Colored_by_Workplace).py] *)

Module Plot5.
Import Frame.

(** Line 10: start plus [DURATION] taken as hours. *)
Definition shift_end_hours (e : Event) : option Timestamp :=
  match SHIFT_START_AT e, DURATION e with
  | Some t, Some d => Some (t + to_timedelta d ns_per_hour)%Z
  | _, _ => None
  end.

Definition add_SHIFT_END_AT (l : list Event) : list Event :=
  (λ e, set_SHIFT_END_AT (shift_end_hours e) e) <$> l.

(** Lines 10-17 *)
Definition df (l : list Event) : list Event :=
  filter (λ e, positive_charge e = true) (add_SHIFT_END_AT l).

(** Line 46 *)
Definition PM_CLAIMED (l : list Event) : list (option Q) :=
  (λ e, pct_margin_cells (CHARGE_RATE e) (PAY_RATE e))
    <$> claimed_rows (df l).

(** Lines 89-95 *)
Definition merged_unclaimed (l : list Event)
  : list (Event * (Z * option Q)) :=
  merge SHIFT_ID fst (drop_duplicates ∅ (unclaimed_rows (df l)))
    (groupby_max_PAY_RATE (unclaimed_rows (df l))).

(** Lines 98-101 *)
Definition PM_HIGHEST (l : list Event) : list (option Q) :=
  (λ m, pct_margin_cells (CHARGE_RATE m.1) m.2.2) <$> merged_unclaimed l.

End Plot5.

(** ** [plots/6__Profit_Margin_vs_National_Holidays_(Claimed_vs_Unclaimed).py] *)

Module Plot6.
Import Frame.

(** Lines 12-17: the same end-time arithmetic and rate guard as report 5. *)
Definition df (l : list Event) : list Event :=
  filter (λ e, positive_charge e = true) (Plot5.add_SHIFT_END_AT l).

(** Line 24 *)
Definition PM_AT_CLAIM (l : list Event) : list (option Q) :=
  (λ e, pct_margin_cells (CHARGE_RATE e) (PAY_RATE e))
    <$> claimed_rows (df l).

(** Lines 27-29 *)
Definition merged_unclaimed (l : list Event)
  : list (Event * (Z * option Q)) :=
  merge SHIFT_ID fst (drop_duplicates ∅ (unclaimed_rows (df l)))
    (groupby_max_PAY_RATE (unclaimed_rows (df l))).

(** Lines 30-32 *)
Definition PM_HIGHEST (l : list Event) : list (option Q) :=
  (λ m, pct_margin_cells (CHARGE_RATE m.1) m.2.2) <$> merged_unclaimed l.

End Plot6.

(** ** [plots/7a_Claim_Percentages_vs_Timeposted_Before_Start.py] *)

Module Plot7a.
Import Frame.

(** Line 10: [(SHIFT_START_AT - OFFER_VIEWED_AT).dt.total_seconds() / 3600] *)
Definition HOURS_DIFF (e : Event) : option Q :=
  match SHIFT_START_AT e, OFFER_VIEWED_AT e with
  | Some s, Some v =>
      Some (inject_Z (s - v) / inject_Z 1000000000 / inject_Z 3600)%Q
  | _, _ => None
  end.

(** The mask [df["HOURS_DIFF"] >= 0]; a missing difference compares
    false. *)
Definition nonneg (h : option Q) : bool :=
  match h with
  | Some h => Qle_bool 0 h
  | None => false
  end.

(** Line 13 *)
Definition df (l : list Event) : list Event :=
  filter (λ e, nonneg (HOURS_DIFF e) = true) l.

(** Line 16: [list(range(0, 721, 24))] *)
Definition hour_bins : list Z := (λ i, 24 * Z.of_nat i)%Z <$> seq 0 31.

(** Line 17 *)
Definition TIME_BUCKET_DAYS (e : Event) : option nat :=
  h ← HOURS_DIFF e; cut hour_bins h.

(** The categories of the bucket column: one per interval. *)
Definition buckets : list nat := seq 0 (length hour_bins - 1).

Definition bucket_rows (k : nat) (l : list Event) : list Event :=
  filter (λ e, TIME_BUCKET_DAYS e = Some k) l.

(** Line 24: unique shifts per bucket, every category listed. *)
Definition total_counts (l : list Event) : list (nat * nat) :=
  (λ k, (k, nunique_SHIFT_ID (bucket_rows k (df l)))) <$> buckets.

(** Line 27 *)
Definition valid_buckets (l : list Event) : list nat :=
  fst <$> filter (λ kc : nat * nat, 50 ≤ kc.2) (total_counts l).

(** Line 30 *)
Definition claimed_counts (l : list Event) : list (nat * nat) :=
  (λ k, (k, nunique_SHIFT_ID (bucket_rows k (claimed_rows (df l)))))
    <$> valid_buckets l.

(** Line 33 *)
Definition percent_claimed (l : list Event) : list (nat * Q) :=
  (λ kc : nat * nat,
     (kc.1,
      (inject_Z (Z.of_nat kc.2)
       / inject_Z (Z.of_nat (nunique_SHIFT_ID (bucket_rows kc.1 (df l))))
       * 100)%Q))
    <$> claimed_counts l.

End Plot7a.

(** ** [plots/7b_Profit_Margin_Statistics_by_Days_Between_First_View_and_Shift_Start.py] *)

Module Plot7b.
Import Frame.

(** Lines 9-19 repeat the latency, the mask and the buckets of report 7a. *)
Definition df (l : list Event) : list Event := Plot7a.df l.

(** Line 37: [CHARGE_RATE - PAY_RATE], in dollars. *)
Definition PROFIT_MARGIN (c p : option Q) : option Q :=
  match c, p with
  | Some c, Some p => Some (c - p)%Q
  | _, _ => None
  end.

(** Line 40, one bucket of the grouped mean. *)
Definition claimed_mean (l : list Event) (k : nat) : option Q :=
  mean_skipna
    ((λ e, PROFIT_MARGIN (CHARGE_RATE e) (PAY_RATE e))
       <$> Plot7a.bucket_rows k (claimed_rows (df l))).

(** Lines 46-52 *)
Definition unclaimed_merged (l : list Event)
  : list (Event * (Z * option Q)) :=
  merge SHIFT_ID fst (drop_duplicates ∅ (unclaimed_rows (df l)))
    (groupby_max_PAY_RATE (unclaimed_rows (df l))).

(** Lines 55-58, one bucket of the grouped mean. *)
Definition unclaimed_mean (l : list Event) (k : nat) : option Q :=
  mean_skipna
    ((λ m : Event * (Z * option Q), PROFIT_MARGIN (CHARGE_RATE m.1) m.2.2)
       <$> filter (λ m : Event * (Z * option Q),
                     Plot7a.TIME_BUCKET_DAYS m.1 = Some k)
             (unclaimed_merged l)).

(** Line 61: [IntervalIndex.from_breaks(hour_bins, closed='left')[1:]] *)
Definition full_bins : list nat := drop 1 Plot7a.buckets.

(** Lines 64-65: [reindex(full_bins).fillna(0)] *)
Definition claimed_pm_avg (l : list Event) : list (nat * Q) :=
  (λ k, (k, default 0%Q (claimed_mean l k))) <$> full_bins.

Definition unclaimed_pm_avg (l : list Event) : list (nat * Q) :=
  (λ k, (k, default 0%Q (unclaimed_mean l k))) <$> full_bins.

End Plot7b.

(** ** The whole of [Load_shifts_final.py], with what it prints *)

Module Statistics.
Import Frame Loader.

(** The exceptions the script can stop with: [KeyError] on a column that
    is not there, [ZeroDivisionError] in a percentage. *)
Inductive Failure :=
  | Key (c : Column)
  | ZeroDivision.

Inductive Outcome (A : Type) :=
  | Done (a : A)
  | Fail (f : Failure).
Global Arguments Done {A} a.
Global Arguments Fail {A} f.

Definition and_then {A B} (o : Outcome A) (k : A → Outcome B) : Outcome B :=
  match o with
  | Done a => k a
  | Fail f => Fail f
  end.

Definition of_Result {A} (r : Result A) : Outcome A :=
  match r with
  | Ok a => Done a
  | Raise (KeyError c) => Fail (Key c)
  end.

(** Lines 45-47: [n / total_shifts * 100] on two Python integers. *)
Definition percentage (n total : Z) : Outcome Q :=
  if decide (total = 0%Z) then Fail ZeroDivision
  else Done (inject_Z n / inject_Z total * 100)%Q.

(** Lines 35-36 and 106-107: the number of records of [first_claims] on
    either side of the mask [first_claims['IS_VERIFIED']]. *)
Definition count_worked (fc : list Event) : Z :=
  Z.of_nat (length (filter (λ r, IS_VERIFIED r = Some true) fc)).

Definition count_not_worked (fc : list Event) : Z :=
  Z.of_nat (length (filter (λ r, IS_VERIFIED r = Some false) fc)).

(** What the script prints. *)
Record Report := mkReport {
  total_shifts : Z;
  first_claimers_total : Z;
  num_first_claims_worked : Z;
  num_first_claims_not_worked : Z;
  num_never_claimed : Z;
  percentages : Q * Q * Q;
  final_shift_ids : gset Z;
  num_first_claims_worked_final : Z;
  num_first_claims_not_worked_final : Z;
  never_claimed_in_final : gset Z
}.

Section run.
Context (kind : SortKind).

(** The script from line 4 to its end: [df_final] and the printed
    statistics.  The statements run in the order of the file, so the three
    percentages of lines 45-47 are computed before [df_final] is made, and
    the [SHIFT_ID] column of [df_final] is read at line 101, after the
    empty columns are gone. *)
Definition script (df : DataFrame) : Outcome (DataFrame * Report) :=
  and_then (of_Result (require col_CLAIMED_AT (columns df))) (λ _,
  and_then (of_Result (require col_CANCELED_AT (columns df))) (λ _,
  let cols := add_column col_CLAIMED (columns df) in
  let l := add_CLAIMED (rows df) in
  and_then (of_Result (require col_SHIFT_ID cols)) (λ _,
  let total := Z.of_nat (nunique_SHIFT_ID l) in
  let claimers := Z.of_nat (nunique_SHIFT_ID (claimed_df l)) in
  let fc := first_claims kind cols l in
  let worked_n := count_worked fc in
  let not_worked_n := count_not_worked fc in
  let claimed_shift_ids : gset Z := list_to_set (SHIFT_ID <$> claimed_df l) in
  let never := (total - Z.of_nat (size claimed_shift_ids))%Z in
  and_then (percentage worked_n total) (λ p1,
  and_then (percentage not_worked_n total) (λ p2,
  and_then (percentage never total) (λ p3,
  let kept := filter_excluded kind cols l in
  and_then (of_Result (require col_SHIFT_START_AT cols)) (λ _,
  and_then (of_Result (require col_DURATION cols)) (λ _,
  let kept1 := add_SHIFT_END_AT kept in
  let cols1 := place_SHIFT_END_AT cols in
  let fc_final := first_claims kind cols1 kept1 in
  let kept2 := drop_IS_VERIFIED kept1 in
  let cols2 := columns_after_dropna cols1 kept2 in
  let kept3 :=
    if has col_IS_NCNS cols2 then drop_IS_NCNS kept2 else kept2 in
  let cols3 := drop_column col_IS_NCNS cols2 in
  and_then (of_Result (require col_SHIFT_ID cols3)) (λ _,
  let final_ids : gset Z := list_to_set (SHIFT_ID <$> kept3) in
  let original_claimed_shift_ids : gset Z :=
    list_to_set (SHIFT_ID <$> filter (λ e, CLAIMED e = Some true) l) in
  Done (mkFrame cols3 kept3,
        {| total_shifts := total;
           first_claimers_total := claimers;
           num_first_claims_worked := worked_n;
           num_first_claims_not_worked := not_worked_n;
           num_never_claimed := never;
           percentages := (p1, p2, p3);
           final_shift_ids := final_ids;
           num_first_claims_worked_final := count_worked fc_final;
           num_first_claims_not_worked_final := count_not_worked fc_final;
           never_claimed_in_final :=
             final_ids ∖ original_claimed_shift_ids |})))))))))).

End run.

(** Two rows that agree on every cell the script reads from the log and
    never writes. *)
Definition same_offer (e e' : Event) : Prop :=
  SHIFT_ID e' = SHIFT_ID e ∧ WORKPLACE_ID e' = WORKPLACE_ID e ∧
  PAY_RATE e' = PAY_RATE e ∧ CHARGE_RATE e' = CHARGE_RATE e ∧
  DURATION e' = DURATION e ∧ SHIFT_START_AT e' = SHIFT_START_AT e ∧
  OFFER_VIEWED_AT e' = OFFER_VIEWED_AT e ∧ CLAIMED_AT e' = CLAIMED_AT e.

(** No two different claim events of one shift carry the same
    [CLAIMED_AT]. *)
Definition distinct_claim_times (l : list Event) : Prop :=
  ∀ e1 e2, e1 ∈ l → e2 ∈ l → SHIFT_ID e1 = SHIFT_ID e2 →
           is_Some (CLAIMED_AT e1) → CLAIMED_AT e1 = CLAIMED_AT e2 → e1 = e2.

End Statistics.

(** ** Report 5: the time of day *)

Module Plot5Clock.
Import Frame.
Local Open Scope Z_scope.

Definition ns_per_second : Z := 1000000000.

(** [dt.hour], [dt.minute] and [dt.second] of a timestamp. *)
Definition dt_hour (t : Timestamp) : Z := (t / ns_per_hour) mod 24.
Definition dt_minute (t : Timestamp) : Z := (t / ns_per_minute) mod 60.
Definition dt_second (t : Timestamp) : Z := (t / ns_per_second) mod 60.

(** Lines 20-21 *)
Definition to_fractional_hour (t : Timestamp) : Q :=
  (inject_Z (dt_hour t) + inject_Z (dt_minute t) / 60
   + inject_Z (dt_second t) / 3600)%Q.

(** Lines 24-33 *)
Definition hour_label_12hr (h : Z) : string :=
  let h := h mod 24 in
  if decide (h = 0) then "12am"
  else if decide (h = 12) then "12pm"
  else if decide (h < 12) then pretty h +:+ "am"
  else pretty (h - 12) +:+ "pm".

(** Line 81: the tick label of hour [h]; the hours of the next day carry a
    star. *)
Definition tick_label (h : Z) : string :=
  hour_label_12hr h +:+ (if decide (24 ≤ h) then "*" else "").

(** Lines 49 and 104 *)
Definition START_HOUR (e : Event) : option Q :=
  to_fractional_hour <$> SHIFT_START_AT e.

(** Lines 50-53 and 105-106: an end that does not come after the start on
    the clock is moved to the next day; a comparison with a missing value
    is false. *)
Definition END_HOUR (e : Event) : option Q :=
  match to_fractional_hour <$> SHIFT_END_AT e, START_HOUR e with
  | Some en, Some st => Some (if Qle_bool en st then en + 24 else en)%Q
  | en, _ => en
  end.

(** The second of the day at [t], and the seconds by which the clock
    advances from [s] to [t], whole days left out. *)
Definition second_of_day (t : Timestamp) : Z := (t / ns_per_second) mod 86400.

Definition seconds_on_clock (s t : Timestamp) : Z :=
  ((t - s) / ns_per_second) mod 86400.

End Plot5Clock.

(** ** Report 1b: the summary *)

Module Plot1bSummary.
Import Frame.

(** Lines 82-84; [if total_hours] holds when the total is not zero. *)
Definition total_hours (l : list Event) : Q :=
  (Plot1b.claimed_hours l + Plot1b.unclaimed_hours l)%Q.

Definition claimed_pct (l : list Event) : Q :=
  if Qeq_bool (total_hours l) 0 then 0%Q
  else (Plot1b.claimed_hours l / total_hours l * 100)%Q.

Definition unclaimed_pct (l : list Event) : Q :=
  if Qeq_bool (total_hours l) 0 then 0%Q
  else (Plot1b.unclaimed_hours l / total_hours l * 100)%Q.

End Plot1bSummary.

(** ** Reports 7a and 7b: the printed tables *)

Module Tables7.
Import Frame.

(** Report 7a, line 36: [f"{int(b.right // 24)}"] for each valid bucket,
    [b.right] being the right edge of the interval. *)
Definition bucket_right (k : nat) : Z :=
  default 0%Z (Plot7a.hour_bins !! S k).

Definition bucket_labels (l : list Event) : list string :=
  (λ k, pretty (bucket_right k / 24)%Z) <$> Plot7a.valid_buckets l.

(** Report 7a, lines 60-61 *)
Definition table_7a (l : list Event) : list (string * (nat * Q)) :=
  zip (bucket_labels l) (Plot7a.percent_claimed l).

(** Report 7b, line 23: [[str(i) for i in range(1, 30)]] *)
Definition labels_29 : list string :=
  (λ i, pretty (Z.of_nat i)) <$> seq 1 29.

(** Report 7b, lines 125-129: a label, the two averages and their
    difference. *)
Definition table_7b (l : list Event)
  : list (string * ((nat * Q) * (nat * Q)) * Q) :=
  (λ r : string * ((nat * Q) * (nat * Q)), (r, (r.2.1.2 - r.2.2.2)%Q))
    <$> zip labels_29
          (zip (take 29 (Plot7b.claimed_pm_avg l))
               (take 29 (Plot7b.unclaimed_pm_avg l))).

End Tables7.

(** ** Sample logs *)

Module Examples.
Import Frame.
Local Open Scope Z_scope.

(** The columns of the raw log, both optional ones included. *)
Definition raw_columns : list Column :=
  [col_SHIFT_ID; col_WORKPLACE_ID; col_PAY_RATE; col_CHARGE_RATE;
   col_DURATION; col_SHIFT_START_AT; col_OFFER_VIEWED_AT; col_CLAIMED_AT;
   col_CANCELED_AT; col_IS_VERIFIED; col_IS_NCNS].

(** [h] hours after 2024-01-02T00:00:00Z. *)
Definition at_hour (h : Z) : Timestamp :=
  1704153600000000000 + h * ns_per_hour.

(** One offer event of an eight-hour shift starting at 18:00 and charged
    at 30, viewed at 06:00. *)
Definition offer (s w : Z) (pay : Q) (claimed canceled : option Timestamp)
    (verified ncns : option bool) : Event :=
  {| SHIFT_ID := s; WORKPLACE_ID := Some w;
     PAY_RATE := Some pay; CHARGE_RATE := Some (30 # 1);
     DURATION := Some (8 # 1);
     SHIFT_START_AT := Some (at_hour 18); SHIFT_END_AT := None;
     OFFER_VIEWED_AT := Some (at_hour 6);
     CLAIMED_AT := claimed; CANCELED_AT := canceled;
     IS_VERIFIED := verified; IS_NCNS := ncns; CLAIMED := None |}.

(** Shift 1 is viewed once and then claimed twice, the later claim first
    in the log; shift 2 is canceled after a claim; shift 3 is claimed by a
    worker whose verification cell is empty; shift 4 is never claimed. *)
Definition sample_rows : list Event :=
  [ offer 1 100 (18 # 1) None None (Some false) (Some false);
    offer 1 100 (20 # 1) (Some (at_hour 10)) None (Some true) (Some false);
    offer 1 100 (22 # 1) (Some (at_hour 9)) None (Some true) (Some false);
    offer 2 101 (20 # 1) (Some (at_hour 8)) None (Some true) (Some false);
    offer 2 101 (20 # 1) None (Some (at_hour 11)) (Some false) (Some false);
    offer 3 102 (21 # 1) (Some (at_hour 7)) None None (Some false);
    offer 4 103 (18 # 1) None None (Some false) (Some false);
    offer 4 103 (22 # 1) None None (Some false) (Some false);
    offer 4 103 (20 # 1) None None (Some false) (Some false) ].

Definition sample_log : DataFrame := mkFrame raw_columns sample_rows.

(** Two workers claim shift 5 at the same instant. *)
Definition tie_rows : list Event :=
  [ offer 5 200 (20 # 1) (Some (at_hour 9)) None (Some true) (Some false);
    offer 5 201 (21 # 1) (Some (at_hour 9)) None (Some true) (Some false) ].

(** Shift 9 is never claimed; the charge rate of its second offer could
    not be read. *)
Definition guard_rows : list Event :=
  [ offer 9 300 (18 # 1) None None (Some false) (Some false);
    set_CHARGE_RATE None
      (offer 9 300 (22 # 1) None None (Some false) (Some false)) ].

(** An event seen at another time. *)
Definition viewed_at (t : Timestamp) (e : Event) : Event :=
  mkEvent (SHIFT_ID e) (WORKPLACE_ID e) (PAY_RATE e) (CHARGE_RATE e)
    (DURATION e) (SHIFT_START_AT e) (SHIFT_END_AT e) (Some t)
    (CLAIMED_AT e) (CANCELED_AT e) (IS_VERIFIED e) (IS_NCNS e) (CLAIMED e).

(** Shift 7 is claimed by a verified worker at a pay rate of 20, charged
    at 0, and was seen 30 hours before its start. *)
Definition zero_charge_rows : list Event :=
  [ viewed_at (at_hour (-12))
      (set_CHARGE_RATE (Some 0%Q)
         (offer 7 400 (20 # 1) (Some (at_hour 9)) None (Some true)
            (Some false))) ].

(** Sixty shifts seen twelve hours before their start, every second one
    claimed. *)
Definition crowd_rows : list Event :=
  (λ i : nat,
     offer (Z.of_nat i) 500 (20 # 1)
       (if Nat.even i then Some (at_hour 9) else None) None
       (Some true) (Some false))
    <$> seq 0 60.



(** Shift 6 is claimed twice; the verification cell of the earlier claim
    is empty, that of the later claim is filled. *)
Definition late_verification_rows : list Event :=
  [ offer 6 700 (20 # 1) (Some (at_hour 9)) None None (Some false);
    offer 6 701 (21 # 1) (Some (at_hour 10)) None (Some true) (Some false) ].



End Examples.

(** ** Further sample data *)

Module Scenarios.
Import Frame Examples.
Local Open Scope Z_scope.

(** A log whose only shift is claimed and then canceled. *)
Definition canceled_log : DataFrame :=
  mkFrame raw_columns
    [ offer 8 800 (20 # 1) (Some (at_hour 9)) (Some (at_hour 10))
        (Some true) (Some false) ].

(** An eight-hour shift from 18:00 to 02:00, with the end time of
    report 5. *)
Definition night_shift : Event :=
  set_SHIFT_END_AT (Some (at_hour 26))
    (offer 1 100 (20 # 1) (Some (at_hour 9)) None (Some true) (Some false)).

(** What the script prints for the sample log. *)
Definition sample_report : Statistics.Report :=
  {| Statistics.total_shifts := 4;
     Statistics.first_claimers_total := 3;
     Statistics.num_first_claims_worked := 2;
     Statistics.num_first_claims_not_worked := 1;
     Statistics.num_never_claimed := 1;
     Statistics.percentages := ((200 # 4)%Q, (100 # 4)%Q, (100 # 4)%Q);
     Statistics.final_shift_ids := {[ 1; 4 ]};
     Statistics.num_first_claims_worked_final := 1;
     Statistics.num_first_claims_not_worked_final := 0;
     Statistics.never_claimed_in_final := {[ 4 ]} |}.

(** A log without a [DURATION] column: one claimed shift. *)
Definition no_duration_log : DataFrame :=
  mkFrame
    [col_SHIFT_ID; col_PAY_RATE; col_SHIFT_START_AT; col_CLAIMED_AT;
     col_CANCELED_AT]
    [ {| SHIFT_ID := 1; WORKPLACE_ID := None;
         PAY_RATE := Some (20 # 1); CHARGE_RATE := None; DURATION := None;
         SHIFT_START_AT := Some (at_hour 18); SHIFT_END_AT := None;
         OFFER_VIEWED_AT := None; CLAIMED_AT := Some (at_hour 9);
         CANCELED_AT := None; IS_VERIFIED := None; IS_NCNS := None;
         CLAIMED := None |} ].

End Scenarios.

(** * Properties *)

(** ** Facts about the data-frame operations *)

Module FrameFacts.
Import Frame.

Section iloc.
Context {A : Type}.
Implicit Types l pre : list A.

Lemma iloc_cons l i idx :
  iloc l (i :: idx) =
    match l !! i with Some x => x :: iloc l idx | None => iloc l idx end.
Proof. reflexivity. Qed.

Lemma iloc_seq_app pre l :
  iloc (pre ++ l) (seq (length pre) (length l)) = l.
Proof.
  revert pre. induction l as [|x l IH]; intros pre; [done|].
  cbn [length seq]. rewrite iloc_cons.
  rewrite list_lookup_middle by done. f_equal.
  specialize (IH (pre ++ [x])).
  rewrite <- app_assoc, length_app in IH. cbn in IH.
  by rewrite Nat.add_1_r in IH.
Qed.

Lemma iloc_seq l : iloc l (seq 0 (length l)) = l.
Proof. apply (iloc_seq_app [] l). Qed.

Lemma iloc_perm l idx : idx ≡ₚ seq 0 (length l) → iloc l idx ≡ₚ l.
Proof.
  intros Hp. rewrite <- (iloc_seq l) at 2. unfold iloc. by rewrite Hp.
Qed.


End iloc.

Lemma iloc_fmap {A B} (f : A → B) (l : list A) idx :
  iloc (f <$> l) idx = f <$> iloc l idx.
Proof.
  induction idx as [|i idx IH]; [done|].
  rewrite (iloc_cons (f <$> l)), (iloc_cons l), list_lookup_fmap.
  destruct (l !! i); cbn; by rewrite IH.
Qed.

Lemma omap_present {A B} (f : A → option B) (d : B) (l : list A) :
  Forall (λ x, is_Some (f x)) l →
  omap f l = (λ x, default d (f x)) <$> l.
Proof.
  induction 1 as [|x l [y Hy] _ IH]; [done|].
  cbn. rewrite Hy. cbn. by rewrite IH.
Qed.

Lemma length_omap_present {A B} (f : A → option B) (l : list A) :
  Forall (λ x, is_Some (f x)) l → length (omap f l) = length l.
Proof.
  induction 1 as [|x l [y Hy] _ IH]; [done|].
  cbn. rewrite Hy. cbn. by rewrite IH.
Qed.

Lemma filter_all {A} (P : A → Prop) `{∀ x, Decision (P x)} (l : list A) :
  Forall P l → filter P l = l.
Proof.
  induction 1 as [|x l Hx _ IH]; [done|].
  rewrite filter_cons_True by done. by rewrite IH.
Qed.

Lemma filter_none {A} (P : A → Prop) `{∀ x, Decision (P x)} (l : list A) :
  Forall (λ x, ¬ P x) l → filter P l = [].
Proof.
  induction 1 as [|x l Hx _ IH]; [done|].
  by rewrite filter_cons_False.
Qed.

Section sort_values.
Context (kind : SortKind) (by_ : Event → option Z).

Lemma sort_values_perm l : sort_values kind by_ l ≡ₚ l.
Proof.
  unfold sort_values.
  rewrite iloc_perm.
  - apply filter_app_complement.
  - rewrite argsort_perm. rewrite length_omap_present; [done|].
    apply Forall_forall. intros e He.
    by apply list_elem_of_filter in He as [? _].
Qed.

Lemma elem_of_sort_values l e : e ∈ sort_values kind by_ l ↔ e ∈ l.
Proof. by rewrite sort_values_perm. Qed.

Lemma sort_values_present l :
  Forall (λ e, is_Some (by_ e)) l →
  sort_values kind by_ l = iloc l (argsort kind (omap by_ l)).
Proof.
  intros Hall. unfold sort_values.
  rewrite (filter_all _ l Hall).
  rewrite filter_none; [by rewrite app_nil_r|].
  eapply Forall_impl; [exact Hall|]. naive_solver.
Qed.

Lemma sort_values_sorted l :
  Forall (λ e, is_Some (by_ e)) l →
  StronglySorted Z.le (omap by_ (sort_values kind by_ l)).
Proof.
  intros Hall.
  assert (Forall (λ e, is_Some (by_ e)) (sort_values kind by_ l)) as Hall'.
  { apply Forall_forall. intros e He.
    apply (proj1 (elem_of_sort_values _ _)) in He.
    rewrite Forall_forall in Hall. by apply Hall. }
  rewrite (omap_present _ 0%Z _ Hall').
  rewrite sort_values_present by done.
  rewrite <- iloc_fmap, <- (omap_present _ 0%Z _ Hall).
  apply argsort_sorted.
Qed.





End sort_values.

End FrameFacts.

(** ** The sorting kinds *)

Module Kinds.
Import Frame FrameFacts.

Global Instance key_then_pos_total : Total key_then_pos.
Proof. intros [k1 i1] [k2 i2]. unfold key_then_pos. cbn. lia. Qed.

Global Instance key_then_pos_trans : Transitive key_then_pos.
Proof. intros [k1 i1] [k2 i2] [k3 i3]. unfold key_then_pos. cbn. lia. Qed.


Section argsort_with.
Context (R : relation (Z * nat)).
Context `{!∀ a b, Decision (R a b), !Total R, !Transitive R}.
Hypothesis R_key : ∀ a b, R a b → (a.1 ≤ b.1)%Z.

Lemma zip_positions (ks : list Z) (k : Z) (i : nat) :
  (k, i) ∈ zip ks (seq 0 (length ks)) → ks !! i = Some k.
Proof.
  intros [j Hj]%list_elem_of_lookup_1.
  apply lookup_zip_Some in Hj as [Hk Hi].
  apply lookup_seq in Hi as [-> _]. done.
Qed.

Lemma sorted_pairs_positions (ks : list Z) :
  Forall (λ p, ks !! p.2 = Some p.1)
    (merge_sort R (zip ks (seq 0 (length ks)))).
Proof.
  apply Forall_forall. intros [k i] Hin.
  rewrite merge_sort_Permutation in Hin. by apply zip_positions.
Qed.

Lemma argsort_with_perm (ks : list Z) :
  argsort_with R ks ≡ₚ seq 0 (length ks).
Proof.
  unfold argsort_with. rewrite merge_sort_Permutation.
  rewrite snd_zip; [done|]. by rewrite length_seq.
Qed.

Lemma omap_positions (ks : list Z) (ps : list (Z * nat)) :
  Forall (λ p, ks !! p.2 = Some p.1) ps →
  omap (λ i, ks !! i) ps.*2 = ps.*1.
Proof.
  induction 1 as [|[k i] ps Hp _ IH]; [done|].
  cbn in *. rewrite Hp. by rewrite IH.
Qed.

Lemma argsort_with_sorted (ks : list Z) :
  StronglySorted Z.le (omap (λ i, ks !! i) (argsort_with R ks)).
Proof.
  unfold argsort_with.
  rewrite omap_positions by apply sorted_pairs_positions.
  eapply StronglySorted_fmap; [|by apply StronglySorted_merge_sort].
  intros a b. apply R_key.
Qed.

End argsort_with.

Lemma key_then_pos_key a b : key_then_pos a b → (a.1 ≤ b.1)%Z.
Proof. unfold key_then_pos. lia. Qed.

(** [kind='mergesort'] *)
Definition mergesort : SortKind :=
  mkSortKind (argsort_with key_then_pos)
    (argsort_with_perm key_then_pos)
    (argsort_with_sorted key_then_pos key_then_pos_key).


Lemma argsort_quicksort_perm ks :
  Numpy.argsort_quicksort ks ≡ₚ seq 0 (length ks).
Proof.
  unfold Numpy.argsort_quicksort. cbn zeta.
  destruct (decide _) as [[H _]|_]; [done|].
  apply argsort_with_perm.
Qed.

Lemma argsort_quicksort_sorted ks :
  StronglySorted Z.le (omap (λ i, ks !! i) (Numpy.argsort_quicksort ks)).
Proof.
  unfold Numpy.argsort_quicksort. cbn zeta.
  destruct (decide _) as [[_ H]|_]; [done|].
  apply (argsort_with_sorted key_then_pos key_then_pos_key).
Qed.

(** [kind='quicksort'], what [sort_values] runs when no kind is named. *)
Definition quicksort : SortKind :=
  mkSortKind Numpy.argsort_quicksort argsort_quicksort_perm
    argsort_quicksort_sorted.

Lemma argsort_quicksort_aquicksort ks :
  Numpy.is_argsort ks (Numpy.aquicksort ks) →
  argsort quicksort ks = Numpy.aquicksort ks.
Proof.
  intros H. cbn. unfold Numpy.argsort_quicksort. cbn zeta.
  by rewrite decide_True.
Qed.

End Kinds.

(** ** The claim resolver of the loader *)

Module LoaderFacts.
Import Frame FrameFacts Loader.

Lemma elem_of_add_CLAIMED (l : list Event) (e' : Event) :
  e' ∈ add_CLAIMED l ↔
  ∃ e, e' = set_CLAIMED (Some (notnull (CLAIMED_AT e))) e ∧ e ∈ l.
Proof. unfold add_CLAIMED. apply list_elem_of_fmap. Qed.

Lemma notnull_is_Some {A} (o : option A) : notnull o = true ↔ is_Some o.
Proof. destruct o; cbn; split; intros H; try done; by inversion H. Qed.

Lemma add_CLAIMED_flag (l : list Event) (e : Event) :
  e ∈ add_CLAIMED l → CLAIMED e = Some (notnull (CLAIMED_AT e)).
Proof. intros (e0 & -> & _)%elem_of_add_CLAIMED. done. Qed.

Lemma elem_of_claimed_df (l : list Event) (e : Event) :
  e ∈ claimed_df (add_CLAIMED l) ↔
  e ∈ add_CLAIMED l ∧ is_Some (CLAIMED_AT e).
Proof.
  unfold claimed_df. rewrite list_elem_of_filter.
  split; intros [H1 H2]; split; try done.
  - rewrite (add_CLAIMED_flag _ _ H2) in H1.
    apply notnull_is_Some. congruence.
  - rewrite (add_CLAIMED_flag _ _ H1).
    apply notnull_is_Some in H2. by rewrite H2.
Qed.

Lemma claimed_df_present (l : list Event) :
  Forall (λ e, is_Some (CLAIMED_AT e)) (claimed_df (add_CLAIMED l)).
Proof.
  apply Forall_forall. intros e He.
  by apply elem_of_claimed_df in He as [_ ?].
Qed.

(** Every claimed shift of the log has a claimed row, and conversely. *)
Lemma claimed_shift (l : list Event) (s : Z) :
  (∃ e, e ∈ claimed_df (add_CLAIMED l) ∧ SHIFT_ID e = s) ↔
  (∃ e, e ∈ l ∧ SHIFT_ID e = s ∧ is_Some (CLAIMED_AT e)).
Proof.
  split.
  - intros (e & [He Hc]%elem_of_claimed_df & Hs).
    apply elem_of_add_CLAIMED in He as (e0 & -> & He0).
    exists e0. done.
  - intros (e & He & Hs & Hc).
    exists (set_CLAIMED (Some (notnull (CLAIMED_AT e))) e).
    split; [|done]. apply elem_of_claimed_df. split; [|done].
    apply elem_of_add_CLAIMED. eauto.
Qed.

Section grouping.
Implicit Types l g : list Event.

Lemma elem_of_group_keys l s : s ∈ group_keys l ↔ ∃ e, e ∈ l ∧ SHIFT_ID e = s.
Proof.
  unfold group_keys.
  rewrite merge_sort_Permutation, elem_of_remove_dups, list_elem_of_fmap.
  split; [intros (e & -> & He)|intros (e & He & <-)]; eauto.
Qed.

Lemma NoDup_group_keys l : NoDup (group_keys l).
Proof.
  unfold group_keys. rewrite merge_sort_Permutation.
  apply NoDup_remove_dups.
Qed.

Lemma elem_of_group s l e : e ∈ group s l ↔ SHIFT_ID e = s ∧ e ∈ l.
Proof. unfold group. by rewrite list_elem_of_filter. Qed.

Lemma elem_of_groupby_first l fc :
  fc ∈ groupby_first l ↔
  (∃ e, e ∈ l ∧ SHIFT_ID e = SHIFT_ID fc) ∧
  fc = first_of_group (SHIFT_ID fc) (group (SHIFT_ID fc) l).
Proof.
  unfold groupby_first. rewrite list_elem_of_fmap. split.
  - intros (s & -> & Hs). cbn. by apply elem_of_group_keys in Hs.
  - intros [He Hfc]. exists (SHIFT_ID fc). split; [done|].
    by apply elem_of_group_keys.
Qed.



End grouping.

Section resolver.
Context (kind : SortKind).

Lemma elem_of_claimed_df_sorted (l : list Event) (e : Event) :
  e ∈ claimed_df_sorted kind l ↔ e ∈ claimed_df l.
Proof. apply elem_of_sort_values. Qed.

Lemma claimed_df_sorted_present (l : list Event) :
  Forall (λ e, is_Some (CLAIMED_AT e))
    (claimed_df_sorted kind (add_CLAIMED l)).
Proof.
  apply Forall_forall. intros e He.
  apply elem_of_claimed_df_sorted in He.
  by apply elem_of_claimed_df in He as [_ ?].
Qed.

Lemma claimed_df_sorted_ascending (l : list Event) :
  StronglySorted Z.le
    (omap CLAIMED_AT (claimed_df_sorted kind (add_CLAIMED l))).
Proof. apply sort_values_sorted, claimed_df_present. Qed.



Lemma elem_of_first_claims (cols : list Column) (l : list Event) fc :
  fc ∈ first_claims kind cols l ↔
  ∃ raw, raw ∈ groupby_first (claimed_df_sorted kind l) ∧
         fc = set_IS_VERIFIED (Some (worked cols raw)) raw.
Proof.
  unfold first_claims. rewrite list_elem_of_fmap.
  split; [intros (raw & -> & H)|intros (raw & H & ->)]; eauto.
Qed.

End resolver.

Section known.
Context (kind : SortKind) (l : list Event) (s : Z).




End known.


End LoaderFacts.

(** ** The claimed flag, the first claim and the exclusion filter *)

Module ResolverSpec.
Import Frame FrameFacts Loader LoaderFacts Kinds Examples.

Lemma Load_shifts_final_Ok (kind : SortKind) (df out : DataFrame) :
  Load_shifts_final kind df = Ok out →
  has col_CLAIMED_AT (columns df) = true ∧
  has col_CANCELED_AT (columns df) = true ∧
  has col_SHIFT_ID (add_column col_CLAIMED (columns df)) = true ∧
  has col_SHIFT_START_AT (add_column col_CLAIMED (columns df)) = true ∧
  has col_DURATION (add_column col_CLAIMED (columns df)) = true ∧
  ∃ ncns,
    ncns =
      has col_IS_NCNS
        (columns_after_dropna
           (place_SHIFT_END_AT (add_column col_CLAIMED (columns df)))
           (drop_IS_VERIFIED
              (add_SHIFT_END_AT
                 (filter_excluded kind (add_column col_CLAIMED (columns df))
                    (add_CLAIMED (rows df)))))) ∧
    rows out =
      finish ncns
        <$> filter_excluded kind (add_column col_CLAIMED (columns df))
              (add_CLAIMED (rows df)) ∧
    columns out =
      drop_column col_IS_NCNS
        (columns_after_dropna
           (place_SHIFT_END_AT (add_column col_CLAIMED (columns df)))
           (drop_IS_VERIFIED
              (add_SHIFT_END_AT
                 (filter_excluded kind (add_column col_CLAIMED (columns df))
                    (add_CLAIMED (rows df)))))).
Proof.
  unfold Load_shifts_final, require, bind.
  destruct (has col_CLAIMED_AT _); [|done].
  destruct (has col_CANCELED_AT _); [|done].
  destruct (has col_SHIFT_ID _); [|done].
  destruct (has col_SHIFT_START_AT _); [|done].
  destruct (has col_DURATION _); [|done].
  intros [= <-]. repeat (split; [done|]).
  eexists. split; [reflexivity|]. cbn [rows columns]. split; [|done].
  unfold finish, drop_IS_NCNS, drop_IS_VERIFIED, add_SHIFT_END_AT.
  destruct (has col_IS_NCNS _); by rewrite <- !list_fmap_compose.
Qed.

Lemma elem_of_filter_excluded kind cols (l : list Event) (e : Event) :
  e ∈ filter_excluded kind cols l ↔
  e ∈ l ∧ SHIFT_ID e ∉ excluded_shift_ids kind cols l.
Proof.
  unfold filter_excluded. destruct (has col_IS_NCNS cols) eqn:Hn.
  - rewrite !list_elem_of_filter. split; [tauto|].
    intros [He Hs]. split; [|done]. intros Hncns. apply Hs.
    unfold excluded_shift_ids, ncns_shift_ids. rewrite Hn.
    apply elem_of_union_l, elem_of_union_r, elem_of_list_to_set.
    apply list_elem_of_fmap. exists e. split; [done|].
    by apply list_elem_of_filter.
  - rewrite list_elem_of_filter. tauto.
Qed.

(** C1 (as amended).  In the cohort the [CLAIMED] flag of an event is true
    exactly when that event's own [CLAIMED_AT] is present, so a shift has
    an event flagged claimed exactly when one of its events has a
    [CLAIMED_AT]; the split the reports make on the flag partitions the
    events: every event is on one side and none on both. *)
Theorem CLAIMED_is_per_event (kind : SortKind) (df out : DataFrame) :
  Load_shifts_final kind df = Ok out →
  (∀ e, e ∈ rows out → (CLAIMED e = Some true ↔ is_Some (CLAIMED_AT e))) ∧
  (∀ s, (∃ e, e ∈ rows out ∧ SHIFT_ID e = s ∧ CLAIMED e = Some true) ↔
        (∃ e, e ∈ rows out ∧ SHIFT_ID e = s ∧ is_Some (CLAIMED_AT e))) ∧
  claimed_rows (rows out) ++ unclaimed_rows (rows out) ≡ₚ rows out ∧
  (∀ e, ¬ (e ∈ claimed_rows (rows out) ∧ e ∈ unclaimed_rows (rows out))).
Proof.
  intros Hok.
  assert (∀ e, e ∈ rows out →
            (CLAIMED e = Some true ↔ is_Some (CLAIMED_AT e))) as Hflag.
  { apply Load_shifts_final_Ok in Hok
      as (_ & _ & _ & _ & _ & ncns & _ & Hrows & _).
    intros e He. rewrite Hrows in He.
    apply list_elem_of_fmap in He as (e1 & -> & He1).
    apply elem_of_filter_excluded in He1 as [He1 _].
    apply add_CLAIMED_flag in He1.
    assert (CLAIMED (finish ncns e1) = CLAIMED e1) as ->
      by (by destruct ncns).
    assert (CLAIMED_AT (finish ncns e1) = CLAIMED_AT e1) as ->
      by (by destruct ncns).
    rewrite He1, <- notnull_is_Some.
    split; congruence. }
  split; [done|]. split; [|split].
  - intros s. split; intros (e & He & Hs & Hc); exists e;
      (split; [done|split; [done|]]); by apply (Hflag e He).
  - apply filter_app_complement.
  - intros e [Hc Hu]. unfold claimed_rows, unclaimed_rows in *.
    apply list_elem_of_filter in Hc as [Hc _].
    by apply list_elem_of_filter in Hu as [Hu _].
Qed.





(** The cohort the loader makes of the sample log. *)
Definition sample_cohort : DataFrame :=
  Eval vm_compute in
    match Load_shifts_final mergesort sample_log with
    | Ok d => d
    | Raise _ => mkFrame [] []
    end.

Lemma sample_cohort_loaded :
  Load_shifts_final mergesort sample_log = Ok sample_cohort.
Proof. vm_compute. reflexivity. Qed.

Lemma CLAIMED_is_per_event_witness :
  (∀ e, e ∈ rows sample_cohort →
        (CLAIMED e = Some true ↔ is_Some (CLAIMED_AT e))) ∧
  (∀ s, (∃ e, e ∈ rows sample_cohort ∧ SHIFT_ID e = s ∧
              CLAIMED e = Some true) ↔
        (∃ e, e ∈ rows sample_cohort ∧ SHIFT_ID e = s ∧
              is_Some (CLAIMED_AT e))) ∧
  claimed_rows (rows sample_cohort) ++ unclaimed_rows (rows sample_cohort)
    ≡ₚ rows sample_cohort ∧
  (∀ e, ¬ (e ∈ claimed_rows (rows sample_cohort) ∧
           e ∈ unclaimed_rows (rows sample_cohort))).
Proof.
  apply (CLAIMED_is_per_event mergesort sample_log sample_cohort).
  vm_compute. reflexivity.
Defined.

(** C1, the statement as written fails.  Shift 1 of the sample log is
    claimed, yet in the cohort its first event carries [CLAIMED = false],
    and the split puts that event with the unclaimed rows and the other two
    with the claimed rows: the flag and the split are per event, not per
    shift. *)
Lemma claimed_shift_on_both_sides :
  Load_shifts_final mergesort sample_log = Ok sample_cohort ∧
  ∃ e1 e2,
    e1 ∈ claimed_rows (rows sample_cohort) ∧
    e2 ∈ unclaimed_rows (rows sample_cohort) ∧
    SHIFT_ID e1 = 1%Z ∧ SHIFT_ID e2 = 1%Z ∧
    is_Some (CLAIMED_AT e1) ∧ CLAIMED e2 = Some false.
Proof.
  split; [vm_compute; reflexivity|].
  exists (default (offer 0 0 0 None None None None)
            (claimed_rows (rows sample_cohort) !! 0%nat)).
  exists (default (offer 0 0 0 None None None None)
            (unclaimed_rows (rows sample_cohort) !! 0%nat)).
  split; [apply (list_elem_of_lookup_2 _ 0%nat); vm_compute; reflexivity|].
  split; [apply (list_elem_of_lookup_2 _ 0%nat); vm_compute; reflexivity|].
  vm_compute. repeat split. by eexists.
Qed.


(** Scenario A of the specification: the 09:00 claim of shift 1 is the
    first claim although the 10:00 claim comes earlier in the log. *)
Example first_claim_scenario_A :
  (λ fc, (SHIFT_ID fc, CLAIMED_AT fc))
    <$> first_claims mergesort raw_columns (add_CLAIMED sample_rows)
  = [(1%Z, Some (at_hour 9)); (2%Z, Some (at_hour 8));
     (3%Z, Some (at_hour 7))].
Proof. vm_compute. reflexivity. Qed.

(** Up to seventeen keys the default kind is an insertion sort, which keeps
    ties in place: the two-row tie stays in log order. *)
Example quicksort_two_row_tie :
  argsort quicksort [5; 5]%Z = [0; 1] ∧
  WORKPLACE_ID <$> first_claims quicksort raw_columns (add_CLAIMED tie_rows)
    = [Some 200%Z].
Proof. vm_compute. done. Qed.


(** The first-claim record of shift 3 in the sample log. *)
Definition sample_first_claim_3 : Event :=
  Eval vm_compute in
    default (offer 0 0 0 None None None None)
      (first_claims mergesort raw_columns (add_CLAIMED sample_rows) !! 2%nat).


(** The verification cell of shift 3's only claim is empty and the column
    exists, so the shift counts as not worked; without the column every
    first claim counts as worked. *)
Example verification_default_sample :
  IS_VERIFIED sample_first_claim_3 = Some false ∧
  IS_VERIFIED
    <$> first_claims mergesort [col_SHIFT_ID; col_CLAIMED_AT]
          (add_CLAIMED sample_rows)
  = [Some true; Some true; Some true].
Proof. vm_compute. done. Qed.

(** [GroupBy.first()] at work: the record of shift 6 has the time and the
    workplace of the earlier claim and the verification cell of the later
    one, the first that is filled; the shift is not excluded. *)
Example first_claims_cell_by_cell :
  (λ fc, (SHIFT_ID fc, CLAIMED_AT fc, WORKPLACE_ID fc, IS_VERIFIED fc))
    <$> first_claims mergesort raw_columns
          (add_CLAIMED late_verification_rows)
  = [(6%Z, Some (at_hour 9), Some 700%Z, Some true)] ∧
  elements (excluded_shift_ids mergesort raw_columns
              (add_CLAIMED late_verification_rows)) = [].
Proof. vm_compute. done. Qed.


(** Scenario B of the specification: shift 2 has a valid claim on one event
    and a cancellation on another, and all of its events leave the cohort;
    so do those of shift 3, whose first claimer did not work. *)
Example exclusion_scenario_B :
  merge_sort Z.le
    (elements (excluded_shift_ids mergesort raw_columns
                 (add_CLAIMED sample_rows))) = [2%Z; 3%Z] ∧
  SHIFT_ID <$> rows sample_cohort = [1; 1; 1; 4; 4; 4]%Z.
Proof. vm_compute. done. Qed.



End ResolverSpec.

(** ** Running the loader on its own output *)

Module RerunSpec.
Import Frame FrameFacts Loader LoaderFacts Kinds Examples ResolverSpec.

Lemma has_true c cols : has c cols = true ↔ c ∈ cols.
Proof. unfold has. apply bool_decide_eq_true. Qed.

Lemma has_false c cols : has c cols = false ↔ c ∉ cols.
Proof. unfold has. apply bool_decide_eq_false. Qed.

Lemma elem_of_add_column c c' cols :
  c' ∈ add_column c cols ↔ c' = c ∨ c' ∈ cols.
Proof.
  unfold add_column. destruct (has c cols) eqn:Hc.
  - apply has_true in Hc. split; [tauto|]. by intros [->|?].
  - rewrite elem_of_app, list_elem_of_singleton. tauto.
Qed.

Lemma elem_of_drop_column c c' cols :
  c' ∈ drop_column c cols ↔ c' ≠ c ∧ c' ∈ cols.
Proof. unfold drop_column. by rewrite list_elem_of_filter. Qed.

Lemma elem_of_insert_column i c c' cols :
  c' ∈ insert_column i c cols ↔ c' = c ∨ c' ∈ cols.
Proof.
  unfold insert_column.
  rewrite <- (take_drop i cols) at 3.
  rewrite !elem_of_app, elem_of_cons. tauto.
Qed.

Lemma elem_of_place_SHIFT_END_AT c cols :
  c ∈ place_SHIFT_END_AT cols ↔ c = col_SHIFT_END_AT ∨ c ∈ cols.
Proof.
  unfold place_SHIFT_END_AT. destruct (get_loc _ _).
  - rewrite elem_of_insert_column, elem_of_drop_column, elem_of_add_column.
    destruct (decide (c = col_SHIFT_END_AT)); tauto.
  - apply elem_of_add_column.
Qed.

Lemma elem_of_dropna_all c cols (l : list Event) :
  c ∈ dropna_all cols l ↔ existsb (notna c) l = true ∧ c ∈ cols.
Proof. unfold dropna_all. by rewrite list_elem_of_filter. Qed.

Lemma elem_of_restore_columns c (df : DataFrame) :
  c ∈ columns (restore_columns df) ↔ c ∈ columns df ∨ c ∈ required_columns.
Proof.
  unfold restore_columns, required_columns. cbn.
  rewrite !elem_of_add_column, !elem_of_cons, elem_of_nil. tauto.
Qed.

Lemma existsb_fmap {A B} (f : B → bool) (g : A → B) (l : list A) :
  existsb f (g <$> l) = existsb (λ x, f (g x)) l.
Proof. induction l as [|x l IH]; [done|]. cbn. by rewrite IH. Qed.

Lemma existsb_ext_in {A} (f g : A → bool) (l : list A) :
  (∀ x, x ∈ l → f x = g x) → existsb f l = existsb g l.
Proof.
  induction l as [|x l IH]; intros H; [done|]. cbn.
  rewrite (H x) by apply list_elem_of_here.
  rewrite IH; [done|]. intros y Hy. apply H. by apply list_elem_of_further.
Qed.

Lemma existsb_true {A} (f : A → bool) (l : list A) :
  existsb f l = true ↔ ∃ x, x ∈ l ∧ f x = true.
Proof.
  rewrite existsb_exists. setoid_rewrite list_elem_of_In. done.
Qed.

Lemma fmap_fixed {A} (f : A → A) (l : list A) :
  Forall (λ x, f x = x) l → f <$> l = l.
Proof. induction 1 as [|x l Hx _ IH]; [done|]. cbn. by rewrite Hx, IH. Qed.

Lemma notna_finish ncns c (e : Event) :
  c ≠ col_IS_NCNS → c ≠ col_IS_VERIFIED → c ≠ col_SHIFT_END_AT →
  notna c (finish ncns e) = notna c e.
Proof. intros. destruct c, ncns; done. Qed.

Section rerun.
Context (kind : SortKind).

Lemma cohort_rows (df out : DataFrame) :
  Load_shifts_final kind df = Ok out → Forall cohort_row (rows out).
Proof.
  intros (_ & _ & _ & _ & _ & ncns & _ & Hrows & _)%Load_shifts_final_Ok.
  rewrite Hrows. apply Forall_forall.
  intros e (e1 & -> & [He1 Hex]%elem_of_filter_excluded)%list_elem_of_fmap.
  pose proof (add_CLAIMED_flag _ _ He1) as Hflag.
  assert (CANCELED_AT e1 = None) as Hc.
  { destruct (CANCELED_AT e1) as [t|] eqn:Ec; [|done].
    exfalso. apply Hex. unfold excluded_shift_ids, canceled_shift_ids.
    apply elem_of_union_l, elem_of_union_l, elem_of_list_to_set.
    apply list_elem_of_fmap. exists e1. split; [done|].
    apply list_elem_of_filter. split; [|done]. rewrite Ec. by eexists. }
  unfold cohort_row. destruct ncns; cbn; by rewrite Hc, Hflag.
Qed.

Lemma cohort_columns (df out : DataFrame) :
  Load_shifts_final kind df = Ok out →
  (col_IS_NCNS ∉ columns out) ∧ (col_IS_VERIFIED ∉ columns out) ∧
  (∀ c, c ∈ columns out → existsb (notna c) (rows out) = true) ∧
  (∀ c, c ∈ required_columns ∨ c = col_CLAIMED ∨ c = col_SHIFT_END_AT →
        existsb (notna c) (rows out) = true → c ∈ columns out).
Proof.
  intros (H1 & H2 & H3 & H4 & H5 & ncns & _ & Hrows & Hcols)
           %Load_shifts_final_Ok.
  set (cols := add_column col_CLAIMED (columns df)) in *.
  set (kept := filter_excluded kind cols (add_CLAIMED (rows df))) in *.
  assert (∀ c, c ≠ col_IS_NCNS →
            existsb (notna c) (rows out)
            = existsb (notna c) (drop_IS_VERIFIED (add_SHIFT_END_AT kept)))
    as Hsame.
  { intros c Hc. rewrite Hrows.
    unfold drop_IS_VERIFIED, add_SHIFT_END_AT.
    rewrite !existsb_fmap. apply existsb_ext_in. intros e _.
    destruct c, ncns; done. }
  rewrite Hcols. unfold columns_after_dropna. repeat split.
  - rewrite elem_of_drop_column. tauto.
  - rewrite elem_of_drop_column, elem_of_dropna_all, elem_of_drop_column.
    tauto.
  - intros c [Hne [Hex _]%elem_of_dropna_all]%elem_of_drop_column.
    by rewrite Hsame.
  - intros c Hc Hex.
    assert (c ≠ col_IS_NCNS ∧ c ≠ col_IS_VERIFIED) as [Hn Hv].
    { unfold required_columns in Hc.
      rewrite !elem_of_cons, elem_of_nil in Hc.
      split; intros ->;
        destruct Hc as [[?|[?|[?|[?|[?|[]]]]]]|[?|?]]; done. }
    rewrite elem_of_drop_column, elem_of_dropna_all, elem_of_drop_column,
      elem_of_place_SHIFT_END_AT.
    rewrite <- Hsame by done. repeat split; try done.
    apply has_true in H1, H2, H3, H4, H5.
    assert (col_CLAIMED_AT ∈ cols ∧ col_CANCELED_AT ∈ cols) as [H1' H2']
      by (unfold cols; rewrite !elem_of_add_column; tauto).
    unfold required_columns in Hc.
    rewrite !elem_of_cons, elem_of_nil in Hc.
    destruct Hc as [[->|[->|[->|[->|[->|[]]]]]]|[->| ->]]; try tauto.
    right. unfold cols. apply elem_of_add_column. by left.
Qed.

(** On a frame that looks like a cohort and has the required columns, the
    script excludes nothing and changes no row. *)
Lemma Load_shifts_final_on_cohort (df : DataFrame) :
  Forall cohort_row (rows df) →
  col_IS_NCNS ∉ columns df → col_IS_VERIFIED ∉ columns df →
  (∀ c, c ∈ required_columns → c ∈ columns df) →
  Load_shifts_final kind df =
  Ok (mkFrame
        (drop_column col_IS_NCNS
           (columns_after_dropna
              (place_SHIFT_END_AT (add_column col_CLAIMED (columns df)))
              (rows df)))
        (rows df)).
Proof.
  intros Hrows Hn Hv Hreq.
  set (cols := add_column col_CLAIMED (columns df)).
  assert (∀ c, c ∈ required_columns → has c cols = true) as Hhas.
  { intros c Hc. apply has_true. unfold cols.
    apply elem_of_add_column. right. by apply Hreq. }
  assert (∀ c, c ∈ required_columns → has c (columns df) = true) as Hhas0.
  { intros c Hc. apply has_true. by apply Hreq. }
  assert (has col_IS_NCNS cols = false) as Hn'.
  { apply has_false. unfold cols. rewrite elem_of_add_column.
    intros [?|?]; done. }
  assert (has col_IS_VERIFIED cols = false) as Hv'.
  { apply has_false. unfold cols. rewrite elem_of_add_column.
    intros [?|?]; done. }
  assert (add_CLAIMED (rows df) = rows df) as Hadd.
  { apply fmap_fixed. eapply Forall_impl; [exact Hrows|].
    intros [] (_ & _ & Hc & _). cbn in *. by rewrite Hc. }
  assert (excluded_shift_ids kind cols (rows df) = ∅) as Hex.
  { unfold excluded_shift_ids, canceled_shift_ids, ncns_shift_ids,
      first_claims_not_worked_shift_ids.
    rewrite Hn'. rewrite !filter_none; [set_solver| |].
    - apply Forall_forall.
      intros fc (raw & _ & ->)%elem_of_first_claims. cbn.
      unfold worked. by rewrite Hv'.
    - eapply Forall_impl; [exact Hrows|].
      intros e (Hc & _) [t Ht]. congruence. }
  assert (filter_excluded kind cols (rows df) = rows df) as Hkeep.
  { unfold filter_excluded. rewrite Hn', Hex. apply filter_all.
    apply Forall_forall. intros e _. apply not_elem_of_empty. }
  assert (add_SHIFT_END_AT (rows df) = rows df) as Hend.
  { apply fmap_fixed. eapply Forall_impl; [exact Hrows|].
    intros [] (_ & _ & _ & He). cbn in *. by rewrite <- He. }
  assert (drop_IS_VERIFIED (rows df) = rows df) as Hdrop.
  { apply fmap_fixed. eapply Forall_impl; [exact Hrows|].
    intros [] (_ & Hver & _). cbn in *. by rewrite Hver. }
  unfold Load_shifts_final, require, bind. fold cols.
  rewrite (Hhas0 col_CLAIMED_AT), (Hhas0 col_CANCELED_AT),
    (Hhas col_SHIFT_ID), (Hhas col_SHIFT_START_AT), (Hhas col_DURATION)
    by (unfold required_columns; set_solver).
  rewrite Hadd, Hkeep, Hend, Hdrop.
  assert (has col_IS_NCNS
            (columns_after_dropna (place_SHIFT_END_AT cols) (rows df))
          = false) as ->; [|done].
  apply has_false. unfold columns_after_dropna.
  rewrite elem_of_dropna_all, elem_of_drop_column,
    elem_of_place_SHIFT_END_AT.
  intros (_ & _ & [?|?]); [done|].
  apply has_false in Hn'. done.
Qed.

End rerun.

(** C5 (as amended).  Run on its own output as emitted, the script stops
    with a [KeyError]: the cohort has lost a column the script reads
    ([CANCELED_AT] is empty in every cohort and leaves with the empty
    columns).  Once the required columns that are gone are put back,
    empty, the second run excludes no shift: it returns the rows of the
    cohort unchanged, under the same columns. *)
Theorem rerun_on_cohort (kind : SortKind) (df out : DataFrame) :
  Load_shifts_final kind df = Ok out →
  (∃ c, Load_shifts_final kind out = Raise (KeyError c)) ∧
  ∃ out2,
    Load_shifts_final kind (restore_columns out) = Ok out2 ∧
    rows out2 = rows out ∧
    (∀ c, c ∈ columns out2 ↔ c ∈ columns out).
Proof.
  intros Hok.
  pose proof (cohort_rows kind df out Hok) as Hrows.
  destruct (cohort_columns kind df out Hok) as (Hn & Hv & Hfull & Hback).
  split.
  - assert (col_CANCELED_AT ∉ columns out) as Hc.
    { intros (e & He & Hna)%Hfull%existsb_true.
      rewrite Forall_forall in Hrows.
      destruct (Hrows e He) as (Hnone & _). cbn in Hna.
      by rewrite Hnone in Hna. }
    apply has_false in Hc.
    unfold Load_shifts_final, require, bind.
    destruct (has col_CLAIMED_AT (columns out)); [|by eexists].
    rewrite Hc. by eexists.
  - eexists. split.
    + apply Load_shifts_final_on_cohort; [done| | |].
      * rewrite elem_of_restore_columns. unfold required_columns.
        rewrite !elem_of_cons, elem_of_nil.
        intros [?|[?|[?|[?|[?|[?|[]]]]]]]; done.
      * rewrite elem_of_restore_columns. unfold required_columns.
        rewrite !elem_of_cons, elem_of_nil.
        intros [?|[?|[?|[?|[?|[?|[]]]]]]]; done.
      * intros c Hc. apply elem_of_restore_columns. by right.
    + split; [done|]. intros c. cbn [columns rows restore_columns].
      unfold columns_after_dropna.
      rewrite elem_of_drop_column, elem_of_dropna_all, elem_of_drop_column,
        elem_of_place_SHIFT_END_AT, elem_of_add_column.
      change (foldl (λ cols c0, add_column c0 cols) (columns out)
                required_columns)
        with (columns (restore_columns out)).
      rewrite elem_of_restore_columns.
      split.
      * intros (_ & Hex & _ & [->|[->|[Hc|Hc]]]); [| |done|];
          apply Hback; tauto.
      * intros Hc. repeat split; try (intros ->; done); [by apply Hfull|].
        tauto.
Qed.

Lemma rerun_on_cohort_witness :
  Load_shifts_final mergesort sample_log = Ok sample_cohort ∧
  (∃ c, Load_shifts_final mergesort sample_cohort = Raise (KeyError c)) ∧
  ∃ out2,
    Load_shifts_final mergesort (restore_columns sample_cohort) = Ok out2 ∧
    rows out2 = rows sample_cohort ∧
    (∀ c, c ∈ columns out2 ↔ c ∈ columns sample_cohort).
Proof.
  assert (Load_shifts_final mergesort sample_log = Ok sample_cohort) as H
    by (vm_compute; reflexivity).
  split; [exact H|].
  exact (rerun_on_cohort mergesort sample_log sample_cohort H).
Defined.

(** C5, the statement as written fails: the second run on the cohort of
    the sample log does not return the cohort, it stops at line 9 reading
    the [CANCELED_AT] column, which the first run dropped. *)
Lemma rerun_raises_KeyError :
  Load_shifts_final mergesort sample_log = Ok sample_cohort ∧
  has col_CANCELED_AT (columns sample_cohort) = false ∧
  Load_shifts_final mergesort sample_cohort
    = Raise (KeyError col_CANCELED_AT).
Proof. vm_compute. done. Qed.

(** With the columns put back the second run returns the very same
    frame on the sample log. *)
Example rerun_sample_log :
  Load_shifts_final mergesort (restore_columns sample_cohort)
    = Ok sample_cohort.
Proof. vm_compute. reflexivity. Qed.

End RerunSpec.

(** ** The end of a shift *)

Module EndTimeSpec.
Import Frame Loader Kinds Examples ResolverSpec.

Lemma to_timedelta_inject_Z (n unit_ns : Z) :
  to_timedelta (inject_Z n) unit_ns = (n * unit_ns)%Z.
Proof. unfold to_timedelta. cbn. apply Z.quot_1_r. Qed.

(** For a whole number of units the loader puts the end [n] minutes after
    the start and reports 5 and 6 put it [n] hours after the start. *)
Lemma shift_end_whole_duration (e : Event) (t n : Z) :
  SHIFT_START_AT e = Some t → DURATION e = Some (inject_Z n) →
  shift_end_minutes e = Some (t + n * ns_per_minute)%Z ∧
  Plot5.shift_end_hours e = Some (t + n * ns_per_hour)%Z.
Proof.
  intros Ht Hd. unfold shift_end_minutes, Plot5.shift_end_hours.
  rewrite Ht, Hd, !to_timedelta_inject_Z. done.
Qed.

(** C6, at the failing input.  An eight-unit shift starting at 18:00 ends
    at 18:08 in the cohort the loader writes, and at 02:00 the next day in
    the frames reports 5 and 6 derive from that cohort: the same [DURATION]
    is read as minutes in one place and as hours in the others. *)
Theorem SHIFT_END_AT_unit_mismatch :
  head (SHIFT_END_AT <$> rows sample_cohort)
    = Some (Some (at_hour 18 + 8 * ns_per_minute)%Z) ∧
  head (SHIFT_END_AT <$> Plot5.df (rows sample_cohort))
    = Some (Some (at_hour 18 + 8 * ns_per_hour)%Z) ∧
  head (SHIFT_END_AT <$> Plot6.df (rows sample_cohort))
    = Some (Some (at_hour 18 + 8 * ns_per_hour)%Z) ∧
  (at_hour 18 + 8 * ns_per_minute ≠ at_hour 18 + 8 * ns_per_hour)%Z.
Proof. vm_compute. done. Qed.

End EndTimeSpec.

(** ** Facts about the reductions and joins *)

Module AggregateFacts.
Import Frame FrameFacts LoaderFacts.

Lemma elem_of_somes {A} (l : list (option A)) (x : A) :
  x ∈ somes l ↔ Some x ∈ l.
Proof.
  unfold somes. rewrite list_elem_of_omap. split.
  - intros (o & Ho & Hx). cbn in Hx. by subst.
  - intros H. by exists (Some x).
Qed.

Lemma Qmax_cases (a b : Q) : Qmax a b = a ∨ Qmax a b = b.
Proof. unfold Qmax. destruct (Qle_bool a b); auto. Qed.

Lemma Qmax_ub_l (a b : Q) : (a <= Qmax a b)%Q.
Proof.
  unfold Qmax. destruct (Qle_bool a b) eqn:E.
  - by apply Qle_bool_iff.
  - apply Qle_refl.
Qed.

Lemma Qmax_ub_r (a b : Q) : (b <= Qmax a b)%Q.
Proof.
  unfold Qmax. destruct (Qle_bool a b) eqn:E.
  - apply Qle_refl.
  - apply Qlt_le_weak, Qnot_le_lt. intros H.
    apply Qle_bool_iff in H. congruence.
Qed.

Lemma foldr_Qmax_elem (x : Q) (xs : list Q) : foldr Qmax x xs ∈ x :: xs.
Proof.
  induction xs as [|y xs IH]; [apply list_elem_of_here|]. cbn.
  destruct (Qmax_cases y (foldr Qmax x xs)) as [-> | ->].
  - apply list_elem_of_further, list_elem_of_here.
  - apply elem_of_cons in IH as [->|IH]; [apply list_elem_of_here|].
    by do 2 apply list_elem_of_further.
Qed.

Lemma foldr_Qmax_ub (x : Q) (xs : list Q) (y : Q) :
  y ∈ x :: xs → (y <= foldr Qmax x xs)%Q.
Proof.
  induction xs as [|z xs IH]; intros Hy.
  - apply list_elem_of_singleton in Hy as ->. apply Qle_refl.
  - cbn. apply elem_of_cons in Hy as [->|[->|Hy]%elem_of_cons].
    + eapply Qle_trans; [|apply Qmax_ub_r]. apply IH, list_elem_of_here.
    + apply Qmax_ub_l.
    + eapply Qle_trans; [|apply Qmax_ub_r].
      by apply IH, list_elem_of_further.
Qed.

(** [max_skipna] returns a value of the series that no value of the
    series exceeds, and returns nothing only when every cell is missing. *)
Lemma max_skipna_Some (l : list (option Q)) (m : Q) :
  max_skipna l = Some m →
  Some m ∈ l ∧ ∀ p, Some p ∈ l → (p <= m)%Q.
Proof.
  unfold max_skipna. destruct (somes l) as [|x xs] eqn:E; [done|].
  intros [= <-]. split.
  - apply elem_of_somes. rewrite E. apply foldr_Qmax_elem.
  - intros p Hp%elem_of_somes. rewrite E in Hp. by apply foldr_Qmax_ub.
Qed.

Lemma max_skipna_None (l : list (option Q)) (p : Q) :
  max_skipna l = None → Some p ∉ l.
Proof.
  unfold max_skipna. destruct (somes l) eqn:E; [|done].
  intros _ Hp%elem_of_somes. rewrite E in Hp. by apply elem_of_nil in Hp.
Qed.

Lemma elem_of_groupby_max_PAY_RATE (l : list Event) (s : Z) (m : option Q) :
  (s, m) ∈ groupby_max_PAY_RATE l ↔
  (∃ e, e ∈ l ∧ SHIFT_ID e = s) ∧
  m = max_skipna (PAY_RATE <$> group s l).
Proof.
  unfold groupby_max_PAY_RATE. rewrite list_elem_of_fmap. split.
  - intros (s' & [= -> ->] & Hs). by apply elem_of_group_keys in Hs.
  - intros [Hs ->]. exists s. split; [done|]. by apply elem_of_group_keys.
Qed.


Lemma elem_of_merge {A B} (kl : A → Z) (kr : B → Z) (left : list A)
    (right : list B) (x : A * B) :
  x ∈ merge kl kr left right ↔ x.1 ∈ left ∧ x.2 ∈ right ∧ kr x.2 = kl x.1.
Proof.
  unfold merge. rewrite list_elem_of_bind. split.
  - intros (a & (b & -> & [Hk Hb]%list_elem_of_filter)%list_elem_of_fmap
              & Ha). done.
  - destruct x as [a b]. cbn. intros (Ha & Hb & Hk). exists a.
    split; [|done]. apply list_elem_of_fmap. exists b. split; [done|].
    by apply list_elem_of_filter.
Qed.

Lemma elem_of_drop_duplicates (seen : gset Z) (l : list Event) (e : Event) :
  e ∈ drop_duplicates seen l → e ∈ l ∧ SHIFT_ID e ∉ seen.
Proof.
  revert seen. induction l as [|x l IH]; intros seen He; cbn in He;
    [by apply elem_of_nil in He|].
  destruct (decide (SHIFT_ID x ∈ seen)).
  - apply IH in He as [? ?]. split; [by apply list_elem_of_further|done].
  - apply elem_of_cons in He as [->|He].
    + split; [apply list_elem_of_here|done].
    + apply IH in He as [? Hn]. split; [by apply list_elem_of_further|].
      intros Hin. apply Hn. by apply elem_of_union_r.
Qed.

Lemma elem_of_claimed_rows (l : list Event) (e : Event) :
  e ∈ claimed_rows l ↔ CLAIMED e = Some true ∧ e ∈ l.
Proof. unfold claimed_rows. by rewrite list_elem_of_filter. Qed.

Lemma elem_of_unclaimed_rows (l : list Event) (e : Event) :
  e ∈ unclaimed_rows l ↔ CLAIMED e ≠ Some true ∧ e ∈ l.
Proof. unfold unclaimed_rows. by rewrite list_elem_of_filter. Qed.

Lemma positive_charge_true (e : Event) :
  positive_charge e = true ↔ ∃ c, CHARGE_RATE e = Some c ∧ (0 < c)%Q.
Proof.
  unfold positive_charge. destruct (CHARGE_RATE e) as [c|]; split.
  - intros H. exists c. split; [done|]. apply Qnot_le_lt. intros Hle.
    apply Qle_bool_iff in Hle. rewrite Hle in H. done.
  - intros (c' & [= <-] & Hc). apply negb_true_iff.
    destruct (Qle_bool c 0) eqn:E; [|done].
    apply Qle_bool_iff in E. by apply Qle_not_lt in E.
  - done.
  - by intros (c & ? & _).
Qed.

End AggregateFacts.

(** ** The counterfactual pay rate *)

Module MetricSpec.
Import Frame FrameFacts Loader LoaderFacts Kinds Examples ResolverSpec.
Import AggregateFacts.













(** Scenario C of the specification: shift 4 was offered at 18, 22 and 20
    and is charged at 30; its maximum is 22 and its margin 80/3 percent,
    26.7 to one decimal.  (The other row is the view-only event of
    shift 1.) *)
Example max_offer_scenario_C :
  (λ e, (SHIFT_ID e, PAY_RATE e, CHARGE_RATE e, CLAIMED e))
    <$> filter (λ e, SHIFT_ID e = 4%Z) (rows sample_cohort)
    = [(4%Z, Some (18 # 1), Some (30 # 1), Some false);
       (4%Z, Some (22 # 1), Some (30 # 1), Some false);
       (4%Z, Some (20 # 1), Some (30 # 1), Some false)] ∧
  (∃ claimed summary,
     Plot4b.script sample_cohort = inr (claimed, summary) ∧
     (λ r, (Plot4b.summary_SHIFT_ID r, Plot4b.MAX_PAY_RATE r,
            Qred <$> Plot4b.PROFIT_MARGIN r)) <$> summary
     = [(1%Z, Some (18 # 1), Some (40 # 1));
        (4%Z, Some (22 # 1), Some (80 # 3))]) ∧
  (2665 # 100 < 80 # 3)%Q ∧ (80 # 3 < 2675 # 100)%Q.
Proof.
  split; [vm_compute; done|]. split; [|done].
  eexists _, _. split; [vm_compute; reflexivity|]. vm_compute. done.
Qed.


(** Without a claimed row the cohort has no [CLAIMED_AT] column and the
    report stops at line 6 with a [ValueError]. *)
Example report_needs_CLAIMED_AT :
  ∃ d, Load_shifts_final mergesort (mkFrame raw_columns guard_rows) = Ok d ∧
       Plot4b.script d = inl (ValueError [col_CLAIMED_AT]).
Proof. eexists. split; vm_compute; reflexivity. Qed.

End MetricSpec.

(** ** The rate guard *)

Module GuardSpec.
Import Frame FrameFacts Loader LoaderFacts Kinds Examples ResolverSpec.
Import AggregateFacts.

Lemma filter_fmap_respect {A} (P : A → Prop) `{!∀ x, Decision (P x)}
    (g : A → A) (l : list A) :
  (∀ x, P (g x) ↔ P x) → filter P (g <$> l) = g <$> filter P l.
Proof.
  intros HP. induction l as [|x l IH]; [done|]. cbn [fmap list_fmap].
  destruct (decide (P x)) as [Hx|Hx].
  - rewrite (filter_cons_True P (g x)) by (by apply HP).
    rewrite (filter_cons_True P x) by done.
    cbn [fmap list_fmap]. by rewrite IH.
  - rewrite (filter_cons_False P (g x)) by (by rewrite HP).
    by rewrite (filter_cons_False P x).
Qed.

Lemma omap_fmap_respect {A B} (f : A → option B) (g : A → A) (l : list A) :
  (∀ x, f (g x) = f x) → omap f (g <$> l) = omap f l.
Proof.
  intros Hf. induction l as [|x l IH]; [done|]. cbn.
  rewrite Hf. destruct (f x); by rewrite <- IH.
Qed.

Section overwrite.
Context (kind : SortKind) (v : option Q).

(** Overwriting every [CHARGE_RATE] cell commutes with each step of the
    claim resolver. *)
Lemma add_CLAIMED_overwrite (l : list Event) :
  add_CLAIMED (set_CHARGE_RATE v <$> l) = set_CHARGE_RATE v <$> add_CLAIMED l.
Proof.
  unfold add_CLAIMED. rewrite <- !list_fmap_compose.
  by apply list_fmap_ext.
Qed.

Lemma sort_values_overwrite (l : list Event) :
  sort_values kind CLAIMED_AT (set_CHARGE_RATE v <$> l)
  = set_CHARGE_RATE v <$> sort_values kind CLAIMED_AT l.
Proof.
  unfold sort_values.
  rewrite !filter_fmap_respect by done.
  rewrite omap_fmap_respect by done.
  by rewrite iloc_fmap, fmap_app.
Qed.

Lemma claimed_df_sorted_overwrite (l : list Event) :
  claimed_df_sorted kind (set_CHARGE_RATE v <$> l)
  = set_CHARGE_RATE v <$> claimed_df_sorted kind l.
Proof.
  unfold claimed_df_sorted, claimed_df.
  rewrite filter_fmap_respect by done. apply sort_values_overwrite.
Qed.

Lemma group_keys_overwrite (l : list Event) :
  group_keys (set_CHARGE_RATE v <$> l) = group_keys l.
Proof.
  unfold group_keys. rewrite <- list_fmap_compose. do 2 f_equal.
Qed.

Lemma first_notna_overwrite {A} (f : Event → option A) (g : list Event) :
  (∀ e, f (set_CHARGE_RATE v e) = f e) →
  first_notna f (set_CHARGE_RATE v <$> g) = first_notna f g.
Proof. intros Hf. unfold first_notna. by rewrite omap_fmap_respect. Qed.

Lemma not_worked_overwrite (cols : list Column) (l : list Event) :
  first_claims_not_worked_shift_ids kind cols (set_CHARGE_RATE v <$> l)
  = first_claims_not_worked_shift_ids kind cols l.
Proof.
  unfold first_claims_not_worked_shift_ids, first_claims, groupby_first.
  rewrite claimed_df_sorted_overwrite, group_keys_overwrite.
  f_equal.
  induction (group_keys (claimed_df_sorted kind l)) as [|s ks IH]; [done|].
  cbn [fmap list_fmap].
  set (P := λ fc : Event, IS_VERIFIED fc = Some false).
  assert (∀ g1 g2 : Event,
            SHIFT_ID g1 = SHIFT_ID g2 → IS_VERIFIED g1 = IS_VERIFIED g2 →
            ∀ t1 t2, SHIFT_ID <$> filter P t1 = SHIFT_ID <$> filter P t2 →
            SHIFT_ID <$> filter P (g1 :: t1)
            = SHIFT_ID <$> filter P (g2 :: t2)) as Hstep.
  { intros g1 g2 Hs Hv t1 t2 Ht. unfold P in *.
    destruct (decide (IS_VERIFIED g1 = Some false)) as [H1|H1].
    - rewrite (filter_cons_True _ g1), (filter_cons_True _ g2)
        by congruence.
      cbn. by rewrite Hs, Ht.
    - rewrite (filter_cons_False _ g1), (filter_cons_False _ g2)
        by congruence.
      done. }
  apply Hstep; [done| |exact IH].
  cbn. unfold worked. unfold group.
  rewrite filter_fmap_respect by done.
  unfold first_of_group. cbn [IS_VERIFIED].
  by rewrite (first_notna_overwrite IS_VERIFIED).
Qed.

Lemma excluded_overwrite (cols : list Column) (l : list Event) :
  excluded_shift_ids kind cols (set_CHARGE_RATE v <$> l)
  = excluded_shift_ids kind cols l.
Proof.
  unfold excluded_shift_ids. rewrite not_worked_overwrite.
  unfold canceled_shift_ids, ncns_shift_ids.
  rewrite !filter_fmap_respect by done.
  rewrite <- !list_fmap_compose.
  assert (SHIFT_ID ∘ set_CHARGE_RATE v = SHIFT_ID) as -> by done.
  done.
Qed.

Lemma filter_excluded_overwrite (cols : list Column) (l : list Event) :
  filter_excluded kind cols (set_CHARGE_RATE v <$> l)
  = set_CHARGE_RATE v <$> filter_excluded kind cols l.
Proof.
  unfold filter_excluded. rewrite excluded_overwrite.
  destruct (has col_IS_NCNS cols); by rewrite !filter_fmap_respect.
Qed.

End overwrite.

Lemma positive_in_df (P : Event → Prop) `{!∀ e, Decision (P e)}
    (l : list Event) (e : Event) :
  e ∈ filter P (filter (λ e, positive_charge e = true) l) →
  ∃ c, CHARGE_RATE e = Some c ∧ (0 < c)%Q.
Proof.
  intros [_ [Hc _]%list_elem_of_filter]%list_elem_of_filter.
  by apply positive_charge_true.
Qed.

Lemma positive_in_merge (l : list Event) (R : list (Z * option Q))
    (m : Event * (Z * option Q)) :
  m ∈ merge SHIFT_ID fst
        (drop_duplicates ∅
           (unclaimed_rows (filter (λ e, positive_charge e = true) l))) R →
  ∃ c, CHARGE_RATE m.1 = Some c ∧ (0 < c)%Q.
Proof.
  intros (H1 & _ & _)%elem_of_merge.
  apply elem_of_drop_duplicates in H1 as [H1 _].
  by apply (positive_in_df (λ e, CLAIMED e ≠ Some true) l).
Qed.

(** C8 (as amended).  Every row that enters a percentage margin, in
    reports 4b, 5 and 6 and on both sides of the split, has a
    [CHARGE_RATE] that is present and positive, so the division never has
    a non-positive divisor.  The dollar margin of report 7b is the plain
    difference of the two rates and its frame is masked on the latency
    only.  The guard is a mask of the reports alone: overwriting the
    [CHARGE_RATE] cells of the log changes neither the set of excluded
    shifts nor which rows the loader keeps. *)
Theorem charge_guard (kind : SortKind) (cols : list Column) (v : option Q)
    (l : list Event) :
  (∀ e, e ∈ claimed_rows (Plot4b.df l) →
        ∃ c, CHARGE_RATE e = Some c ∧ (0 < c)%Q) ∧
  (∀ r, r ∈ Plot4b.unclaimed_summary l →
        ∃ c, CHARGE_RATE r.2 = Some c ∧ (0 < c)%Q) ∧
  (∀ e, e ∈ claimed_rows (Plot5.df l) →
        ∃ c, CHARGE_RATE e = Some c ∧ (0 < c)%Q) ∧
  (∀ m, m ∈ Plot5.merged_unclaimed l →
        ∃ c, CHARGE_RATE m.1 = Some c ∧ (0 < c)%Q) ∧
  (∀ e, e ∈ claimed_rows (Plot6.df l) →
        ∃ c, CHARGE_RATE e = Some c ∧ (0 < c)%Q) ∧
  (∀ m, m ∈ Plot6.merged_unclaimed l →
        ∃ c, CHARGE_RATE m.1 = Some c ∧ (0 < c)%Q) ∧
  (∀ c p, Plot7b.PROFIT_MARGIN (Some c) (Some p) = Some (c - p)%Q) ∧
  (∀ e, e ∈ claimed_rows (Plot7b.df l) ↔
        CLAIMED e = Some true ∧
        Plot7a.nonneg (Plot7a.HOURS_DIFF e) = true ∧ e ∈ l) ∧
  excluded_shift_ids kind cols (add_CLAIMED (set_CHARGE_RATE v <$> l))
    = excluded_shift_ids kind cols (add_CLAIMED l) ∧
  filter_excluded kind cols (add_CLAIMED (set_CHARGE_RATE v <$> l))
    = set_CHARGE_RATE v <$> filter_excluded kind cols (add_CLAIMED l).
Proof.
  split.
  { intros e He. by apply (positive_in_df (λ e, CLAIMED e = Some true) l). }
  split.
  { intros r (_ & H2 & _)%elem_of_merge.
    apply elem_of_drop_duplicates in H2 as [H2 _].
    by apply (positive_in_df (λ e, CLAIMED e ≠ Some true) l). }
  split.
  { intros e He.
    by apply (positive_in_df (λ e, CLAIMED e = Some true)
                (Plot5.add_SHIFT_END_AT l)). }
  split.
  { intros m Hm.
    by apply (positive_in_merge (Plot5.add_SHIFT_END_AT l)) in Hm. }
  split.
  { intros e He.
    by apply (positive_in_df (λ e, CLAIMED e = Some true)
                (Plot5.add_SHIFT_END_AT l)). }
  split.
  { intros m Hm.
    by apply (positive_in_merge (Plot5.add_SHIFT_END_AT l)) in Hm. }
  split; [done|]. split.
  { intros e. rewrite elem_of_claimed_rows. unfold Plot7b.df, Plot7a.df.
    by rewrite list_elem_of_filter. }
  split.
  - rewrite add_CLAIMED_overwrite. apply excluded_overwrite.
  - rewrite add_CLAIMED_overwrite. apply filter_excluded_overwrite.
Qed.

Lemma charge_guard_witness :
  (∀ e, e ∈ claimed_rows (Plot4b.df (rows sample_cohort)) →
        ∃ c, CHARGE_RATE e = Some c ∧ (0 < c)%Q) ∧
  excluded_shift_ids mergesort raw_columns
    (add_CLAIMED (set_CHARGE_RATE (Some 0%Q) <$> sample_rows))
  = excluded_shift_ids mergesort raw_columns (add_CLAIMED sample_rows).
Proof.
  split.
  - exact (proj1 (charge_guard mergesort raw_columns (Some 0%Q)
                    (rows sample_cohort))).
  - destruct (charge_guard mergesort raw_columns (Some 0%Q) sample_rows)
      as (_ & _ & _ & _ & _ & _ & _ & _ & H & _).
    exact H.
Defined.

(** The cohort of the log with the shift charged at 0. *)
Definition zero_charge_cohort : DataFrame :=
  Eval vm_compute in
    match Load_shifts_final mergesort (mkFrame raw_columns zero_charge_rows)
    with
    | Ok d => d
    | Raise _ => mkFrame [] []
    end.

(** Scenario D of the specification: the claimed shift charged at 0 is in
    the cohort and among the claimed shifts, and has no percentage margin
    in reports 4b, 5 and 6. *)
Example charge_guard_scenario_D :
  Load_shifts_final mergesort (mkFrame raw_columns zero_charge_rows)
    = Ok zero_charge_cohort ∧
  (λ e, (SHIFT_ID e, CHARGE_RATE e, CLAIMED e)) <$> rows zero_charge_cohort
    = [(7%Z, Some 0%Q, Some true)] ∧
  nunique_SHIFT_ID (claimed_rows (rows zero_charge_cohort)) = 1%nat ∧
  Plot4b.claimed_PROFIT_MARGIN (rows zero_charge_cohort) = [] ∧
  Plot5.PM_CLAIMED (rows zero_charge_cohort) = [] ∧
  Plot6.PM_AT_CLAIM (rows zero_charge_cohort) = [].
Proof. vm_compute. done. Qed.

(** C8, the statement as written fails.  The same shift, charged at 0, is
    not kept out of the margin report 7b computes: it is the one claimed
    row of the bucket of day 1, and the average margin reported for that
    bucket is its [0 - 20 = -20]. *)
Lemma zero_charge_enters_margin_7b :
  Load_shifts_final mergesort (mkFrame raw_columns zero_charge_rows)
    = Ok zero_charge_cohort ∧
  CHARGE_RATE <$> claimed_rows (Plot7b.df (rows zero_charge_cohort))
    = [Some 0%Q] ∧
  Plot7a.TIME_BUCKET_DAYS <$> rows zero_charge_cohort = [Some 1%nat] ∧
  (λ kv : nat * Q, (kv.1, Qred kv.2))
    <$> take 1 (Plot7b.claimed_pm_avg (rows zero_charge_cohort))
    = [(1%nat, (-20 # 1)%Q)].
Proof. vm_compute. done. Qed.

End GuardSpec.

(** ** Totals of profit and hours *)

Module TotalsSpec.
Import Frame FrameFacts Loader LoaderFacts Kinds Examples ResolverSpec.
Import AggregateFacts.





Lemma group_keys_sorted (l : list Event) :
  StronglySorted Z.le (group_keys l).
Proof. unfold group_keys. apply StronglySorted_merge_sort; apply _. Qed.













(** In the cohort of the sample log shift 1 has two claim events of eight
    hours each and counts sixteen claimed hours; shift 4 has three
    unclaimed events and counts eight unclaimed hours, as does the
    view-only event of shift 1. *)
Example totals_sample :
  Qred (Plot1b.claimed_hours (rows sample_cohort)) = (16 # 1)%Q ∧
  Qred (Plot1b.unclaimed_hours (rows sample_cohort)) = (16 # 1)%Q ∧
  Qred (Plot1a.claimed_profit (rows sample_cohort)) = (144 # 1)%Q ∧
  Qred (Plot1a.unclaimed_profit (rows sample_cohort)) = (160 # 1)%Q.
Proof. vm_compute. done. Qed.

(** The terms of the shifts of the sample cohort: shift 1 through its
    view-only event, shift 4 through its three offers; shift 2 is not in
    the cohort. *)
Example shift_terms_sample :
  (λ s, (s, Qred <$> Plot1a.shift_profit (rows sample_cohort) s,
            Qred <$> Plot1b.shift_hours (rows sample_cohort) s)) <$> [1; 4; 2]%Z
  = [(1%Z, Some (96 # 1)%Q, Some (8 # 1)%Q);
     (4%Z, Some (64 # 1)%Q, Some (8 # 1)%Q);
     (2%Z, None, None)].
Proof. vm_compute. done. Qed.

End TotalsSpec.

(** ** Latency buckets *)

Module BucketSpec.
Import Frame FrameFacts Loader LoaderFacts Kinds Examples ResolverSpec.
Import AggregateFacts GuardSpec.

Lemma hours_nonneg (d : Z) :
  Qle_bool 0 (inject_Z d / inject_Z 1000000000 / inject_Z 3600) = true
  ↔ (0 ≤ d)%Z.
Proof.
  rewrite Qle_bool_iff. unfold Qle, Qdiv, Qmult, Qinv, inject_Z. cbn. lia.
Qed.

Lemma cut_cons2 (lo hi : Z) (r : list Z) (h : Q) :
  cut (lo :: hi :: r) h =
    if Qle_bool (inject_Z lo) h && negb (Qle_bool (inject_Z hi) h)
    then Some 0%nat else S <$> cut (hi :: r) h.
Proof. reflexivity. Qed.

Lemma in_bin (lo hi : Z) (h : Q) :
  Qle_bool (inject_Z lo) h && negb (Qle_bool (inject_Z hi) h) = true ↔
  (inject_Z lo <= h)%Q ∧ (h < inject_Z hi)%Q.
Proof.
  rewrite andb_true_iff, negb_true_iff, Qle_bool_iff. split.
  - intros [H1 H2]. split; [done|]. apply Qnot_le_lt. intros H.
    apply Qle_bool_iff in H. congruence.
  - intros [H1 H2]. split; [done|].
    destruct (Qle_bool (inject_Z hi) h) eqn:E; [|done].
    apply Qle_bool_iff in E. by apply Qle_not_lt in E.
Qed.

(** [pd.cut] over edges 24 apart: the bucket found is the one whose two
    edges enclose the value, and there is none outside the edges. *)
Lemma cut_edges (n a : nat) (h : Q) (k : nat) :
  cut ((λ i, 24 * Z.of_nat i)%Z <$> seq a (S n)) h = Some k ↔
  k < n ∧
  (inject_Z (24 * Z.of_nat (a + k)) <= h)%Q ∧
  (h < inject_Z (24 * Z.of_nat (a + k + 1)))%Q.
Proof.
  revert a k. induction n as [|n IH]; intros a k.
  - cbn. split; [done|lia].
  - change ((λ i, 24 * Z.of_nat i)%Z <$> seq a (S (S n)))
      with ((24 * Z.of_nat a)%Z :: (24 * Z.of_nat (S a))%Z
              :: ((λ i, 24 * Z.of_nat i)%Z <$> seq (S (S a)) n)).
    rewrite cut_cons2.
    change ((24 * Z.of_nat (S a))%Z
              :: ((λ i, 24 * Z.of_nat i)%Z <$> seq (S (S a)) n))
      with ((λ i, 24 * Z.of_nat i)%Z <$> seq (S a) (S n)).
    destruct (Qle_bool _ h && negb (Qle_bool _ h)) eqn:E.
    + apply in_bin in E as [E1 E2]. split.
      * intros [= <-]. rewrite Nat.add_0_r.
        replace (a + 1) with (S a) by lia. split; [lia|done].
      * intros (Hk & H1 & H2). f_equal.
        pose proof (Qle_lt_trans _ _ _ H1 E2) as Hlt.
        rewrite <- Zlt_Qlt in Hlt. lia.
    + assert (¬ ((inject_Z (24 * Z.of_nat a) <= h)%Q ∧
                 (h < inject_Z (24 * Z.of_nat (S a)))%Q)) as Hout.
      { intros H%in_bin. congruence. }
      split.
      * destruct (cut _ h) as [k'|] eqn:Ec; [|done]. cbn. intros [= <-].
        apply IH in Ec as (Hk & H1 & H2).
        replace (a + S k') with (S a + k') by lia.
        replace (S a + k' + 1) with (S a + k' + 1) by lia.
        split; [lia|done].
      * intros (Hk & H1 & H2). destruct k as [|k'].
        { exfalso. apply Hout. rewrite Nat.add_0_r in H1, H2.
          replace (a + 1) with (S a) in H2 by lia. done. }
        assert (cut ((λ i, 24 * Z.of_nat i)%Z <$> seq (S a) (S n)) h
                = Some k') as ->; [|done].
        apply IH. replace (S a + k') with (a + S k') by lia.
        split; [lia|done].
Qed.

Lemma cut_hour_bins (h : Q) (k : nat) :
  cut Plot7a.hour_bins h = Some k ↔
  k < 30 ∧
  (inject_Z (24 * Z.of_nat k) <= h)%Q ∧
  (h < inject_Z (24 * (Z.of_nat k + 1)))%Q.
Proof.
  unfold Plot7a.hour_bins. rewrite (cut_edges 30 0 h k). cbn [Nat.add].
  replace (Z.of_nat (k + 1)) with (Z.of_nat k + 1)%Z by lia. done.
Qed.

Lemma elem_of_total_counts (l : list Event) (k n : nat) :
  (k, n) ∈ Plot7a.total_counts l ↔
  k < 30 ∧ n = nunique_SHIFT_ID (Plot7a.bucket_rows k (Plot7a.df l)).
Proof.
  unfold Plot7a.total_counts, Plot7a.buckets. rewrite list_elem_of_fmap.
  change (length Plot7a.hour_bins - 1) with 30.
  split.
  - intros (k' & [= -> ->] & Hk%elem_of_seq). split; [lia|done].
  - intros [Hk ->]. exists k. split; [done|]. apply elem_of_seq. lia.
Qed.

Lemma elem_of_valid_buckets (l : list Event) (k : nat) :
  k ∈ Plot7a.valid_buckets l ↔
  k < 30 ∧ 50 ≤ nunique_SHIFT_ID (Plot7a.bucket_rows k (Plot7a.df l)).
Proof.
  unfold Plot7a.valid_buckets. rewrite list_elem_of_fmap. split.
  - intros ([k' n] & -> & [Hn [Hk ->]%elem_of_total_counts]
                          %list_elem_of_filter). done.
  - intros [Hk Hn]. eexists (k, _). split; [done|].
    apply list_elem_of_filter. split; [exact Hn|].
    by apply elem_of_total_counts.
Qed.

Lemma full_bins_days : Plot7b.full_bins = seq 1 29.
Proof. reflexivity. Qed.

(** C9 (as amended).  In the latency reports a row stays exactly when the
    offer was seen at or before the start of the shift.  A row is put in
    bucket [k] exactly when its latency lies in [[24k, 24(k+1))] and
    [k < 30]; outside [[0, 720)] it has no bucket.  Report 7a gives a claim
    percentage for a bucket exactly when the bucket holds at least 50
    distinct shifts.  Report 7b lists the buckets of days 1 to 29, each of
    them once, with 0 for a bucket that has no margin to average; the
    bucket of day 0 is not part of what it reports. *)
Theorem latency_buckets (l : list Event) :
  (∀ e, e ∈ Plot7a.df l ↔
        e ∈ l ∧ ∃ s v, SHIFT_START_AT e = Some s ∧
                       OFFER_VIEWED_AT e = Some v ∧ (v ≤ s)%Z) ∧
  (∀ e k, Plot7a.TIME_BUCKET_DAYS e = Some k ↔
          ∃ h, Plot7a.HOURS_DIFF e = Some h ∧ k < 30 ∧
               (inject_Z (24 * Z.of_nat k) <= h)%Q ∧
               (h < inject_Z (24 * (Z.of_nat k + 1)))%Q) ∧
  (∀ k, (∃ pct, (k, pct) ∈ Plot7a.percent_claimed l) ↔
        k < 30 ∧
        50 ≤ nunique_SHIFT_ID (Plot7a.bucket_rows k (Plot7a.df l))) ∧
  (∀ k pct, (k, pct) ∈ Plot7a.percent_claimed l →
     pct =
     (inject_Z
        (Z.of_nat
           (nunique_SHIFT_ID
              (Plot7a.bucket_rows k (claimed_rows (Plot7a.df l)))))
      / inject_Z
          (Z.of_nat (nunique_SHIFT_ID (Plot7a.bucket_rows k (Plot7a.df l))))
      * 100)%Q) ∧
  Plot7b.claimed_pm_avg l
    = (λ k, (k, default 0%Q (Plot7b.claimed_mean l k))) <$> seq 1 29 ∧
  Plot7b.unclaimed_pm_avg l
    = (λ k, (k, default 0%Q (Plot7b.unclaimed_mean l k))) <$> seq 1 29 ∧
  (∀ k, 1 ≤ k ≤ 29 → Plot7b.claimed_mean l k = None →
        (k, 0%Q) ∈ Plot7b.claimed_pm_avg l) ∧
  (∀ k, 1 ≤ k ≤ 29 → Plot7b.unclaimed_mean l k = None →
        (k, 0%Q) ∈ Plot7b.unclaimed_pm_avg l) ∧
  (∀ x, ((0, x) ∉ Plot7b.claimed_pm_avg l) ∧
        ((0, x) ∉ Plot7b.unclaimed_pm_avg l)).
Proof.
  split.
  { intros e. unfold Plot7a.df. rewrite list_elem_of_filter.
    unfold Plot7a.HOURS_DIFF, Plot7a.nonneg.
    destruct (SHIFT_START_AT e) as [s|], (OFFER_VIEWED_AT e) as [v|];
      try (split; [by intros [? _]|by intros (_ & ? & ? & ? & ? & _)]).
    rewrite hours_nonneg. split.
    - intros [H He]. split; [done|]. exists s, v. repeat split. lia.
    - intros (He & s' & v' & [= <-] & [= <-] & H). split; [lia|done]. }
  split.
  { intros e k. unfold Plot7a.TIME_BUCKET_DAYS.
    destruct (Plot7a.HOURS_DIFF e) as [h|].
    - change (Some h ≫= (λ h0, cut Plot7a.hour_bins h0))
        with (cut Plot7a.hour_bins h).
      rewrite cut_hour_bins. split.
      + intros H. exists h. done.
      + intros (h' & [= <-] & H). done.
    - split; [done|]. by intros (h & ? & _). }
  split.
  { intros k. rewrite <- elem_of_valid_buckets.
    unfold Plot7a.percent_claimed, Plot7a.claimed_counts. split.
    - intros (pct & ([k' n] & [= -> _] & (k'' & [= -> _] & Hk)
                       %list_elem_of_fmap)%list_elem_of_fmap). done.
    - intros Hk. eexists. apply list_elem_of_fmap. eexists (k, _).
      split; [reflexivity|]. apply list_elem_of_fmap. exists k. done. }
  split.
  { intros k pct. unfold Plot7a.percent_claimed, Plot7a.claimed_counts.
    intros ([k' n] & [= -> ->] & (k'' & [= -> ->] & Hk)
              %list_elem_of_fmap)%list_elem_of_fmap. done. }
  split; [done|]. split; [done|].
  assert (∀ (f : nat → option Q) k, 1 ≤ k ≤ 29 → f k = None →
            (k, 0%Q) ∈ (λ k, (k, default 0%Q (f k))) <$> Plot7b.full_bins)
    as Hfill.
  { intros f k Hk Hf. apply list_elem_of_fmap. exists k.
    rewrite Hf. split; [done|]. rewrite full_bins_days.
    apply elem_of_seq. lia. }
  assert (∀ (f : nat → option Q) x,
            (0, x) ∉ (λ k, (k, default 0%Q (f k))) <$> Plot7b.full_bins)
    as Homit.
  { intros f x (k & [= <- _] & Hk)%list_elem_of_fmap.
    rewrite full_bins_days in Hk. apply elem_of_seq in Hk. lia. }
  split; [intros k; apply Hfill|]. split; [intros k; apply Hfill|].
  intros x. split; apply Homit.
Qed.

(** The cohort of the sixty-shift log. *)
Definition crowd_cohort : DataFrame :=
  Eval vm_compute in
    match Load_shifts_final mergesort (mkFrame raw_columns crowd_rows) with
    | Ok d => d
    | Raise _ => mkFrame [] []
    end.

(** With sixty shifts in the bucket of day 0, thirty of them claimed,
    report 7a gives 50 percent for that bucket and for no other; the
    sample cohort, with two shifts, gets no percentage at all. *)
Example percent_claimed_floor :
  Load_shifts_final mergesort (mkFrame raw_columns crowd_rows)
    = Ok crowd_cohort ∧
  (λ kv : nat * Q, (kv.1, Qred kv.2))
    <$> Plot7a.percent_claimed (rows crowd_cohort) = [(0, (50 # 1)%Q)] ∧
  Plot7a.percent_claimed (rows sample_cohort) = [].
Proof. vm_compute. done. Qed.

Lemma latency_buckets_witness :
  (1, 0%Q) ∈ Plot7b.claimed_pm_avg (rows sample_cohort) ∧
  ∃ pct, (0, pct) ∈ Plot7a.percent_claimed (rows crowd_cohort).
Proof.
  split.
  - destruct (latency_buckets (rows sample_cohort))
      as (_ & _ & _ & _ & _ & _ & Hfill & _).
    apply Hfill; [lia|]. vm_compute. reflexivity.
  - destruct (latency_buckets (rows crowd_cohort)) as (_ & _ & Hpct & _).
    apply Hpct. split; [lia|].
    apply Nat.leb_le. vm_compute. reflexivity.
Defined.

(** Scenario E of the specification: an offer seen after the start of the
    shift is left out of the latency frame and is still in the cohort. *)
Example latency_scenario_E :
  Plot7a.df [viewed_at (at_hour 19)
               (offer 8 600 (20 # 1) None None None None)] = [] ∧
  length
    (Plot7a.df [viewed_at (at_hour 18)
                  (offer 8 600 (20 # 1) None None None None)]) = 1.
Proof. vm_compute. done. Qed.

(** C9, the statement as written fails.  In the cohort of the shift seen
    30 hours ahead the bucket of day 0 holds no claimed margin; report 7b
    does not fill it with 0, it leaves the bucket out: the first bucket it
    reports is that of day 1.  The bucket of day 0 is left out as well when
    it does hold rows, as in the sample cohort. *)
Lemma day_zero_bucket_omitted :
  Plot7b.claimed_mean (rows zero_charge_cohort) 0 = None ∧
  fst <$> Plot7b.claimed_pm_avg (rows zero_charge_cohort) = seq 1 29 ∧
  Plot7a.TIME_BUCKET_DAYS <$> rows sample_cohort
    = replicate 6 (Some 0) ∧
  Qred <$> Plot7b.claimed_mean (rows sample_cohort) 0 = Some (9 # 1)%Q ∧
  fst <$> Plot7b.claimed_pm_avg (rows sample_cohort) = seq 1 29.
Proof. vm_compute. done. Qed.

End BucketSpec.

(** ** The cohort: rows, columns and errors of the loader *)

Module CohortSpec.
Import Frame FrameFacts Loader LoaderFacts Kinds Examples ResolverSpec
  RerunSpec GuardSpec TotalsSpec Statistics Scenarios.

Lemma has_add_CLAIMED (c : Column) (cols : list Column) :
  c ≠ col_CLAIMED → has c (add_column col_CLAIMED cols) = has c cols.
Proof.
  intros Hc. destruct (has c cols) eqn:E.
  - apply has_true, elem_of_add_column. right. by apply has_true.
  - apply has_false. rewrite elem_of_add_column. apply has_false in E.
    intros [?|?]; done.
Qed.

(** The loader succeeds exactly when the five columns it reads without
    asking are in the log; otherwise it raises the [KeyError] of the first
    of them that is missing, in the order in which it reads them. *)
Lemma Load_shifts_final_KeyError (kind : SortKind) (df : DataFrame) :
  ((∃ out, Load_shifts_final kind df = Ok out) ↔
   ∀ c, c ∈ required_columns → c ∈ columns df) ∧
  (∀ c, Load_shifts_final kind df = Raise (KeyError c) ↔
        ∃ pre post,
          required_columns = pre ++ c :: post ∧
          (∀ c', c' ∈ pre → c' ∈ columns df) ∧ c ∉ columns df).
Proof.
  unfold Load_shifts_final, require, bind, required_columns.
  rewrite !has_add_CLAIMED by done.
  destruct (has col_CLAIMED_AT _) eqn:H1;
    [apply has_true in H1|apply has_false in H1].
  2:{ split.
      - split; [by intros [? ?]|]. intros H. exfalso. apply H1, H.
        rewrite !elem_of_cons. tauto.
      - intros c. split.
        + intros [= <-]. exists [], [col_CANCELED_AT; col_SHIFT_ID;
            col_SHIFT_START_AT; col_DURATION].
          split; [done|]. split; [|done]. by intros c' ?%elem_of_nil.
        + intros (pre & post & Heq & Hpre & Hc).
          destruct pre as [|c1 pre]; [by injection Heq as <- _|].
          injection Heq as <- _. exfalso. apply H1, Hpre, list_elem_of_here. }
  destruct (has col_CANCELED_AT _) eqn:H2;
    [apply has_true in H2|apply has_false in H2].
  2:{ split.
      - split; [by intros [? ?]|]. intros H. exfalso. apply H2, H.
        rewrite !elem_of_cons. tauto.
      - intros c. split.
        + intros [= <-]. exists [col_CLAIMED_AT], [col_SHIFT_ID;
            col_SHIFT_START_AT; col_DURATION].
          split; [done|]. split; [|done].
          by intros c' ->%list_elem_of_singleton.
        + intros (pre & post & Heq & Hpre & Hc).
          destruct pre as [|c1 pre]; [by injection Heq as <- _|].
          destruct pre as [|c2 pre]; [by injection Heq as _ <- _|].
          injection Heq as _ <- _. exfalso. apply H2, Hpre.
          apply list_elem_of_further, list_elem_of_here. }
  destruct (has col_SHIFT_ID _) eqn:H3;
    [apply has_true in H3|apply has_false in H3].
  2:{ split.
      - split; [by intros [? ?]|]. intros H. exfalso. apply H3, H.
        rewrite !elem_of_cons. tauto.
      - intros c. split.
        + intros [= <-]. exists [col_CLAIMED_AT; col_CANCELED_AT],
            [col_SHIFT_START_AT; col_DURATION].
          split; [done|]. split; [|done].
          intros c'. rewrite !elem_of_cons, elem_of_nil.
          intros [->|[->|[]]]; done.
        + intros (pre & post & Heq & Hpre & Hc).
          destruct pre as [|c1 pre]; [by injection Heq as <- _|].
          destruct pre as [|c2 pre]; [by injection Heq as _ <- _|].
          destruct pre as [|c3 pre]; [by injection Heq as _ _ <- _|].
          injection Heq as _ _ <- _. exfalso. apply H3, Hpre.
          do 2 apply list_elem_of_further. apply list_elem_of_here. }
  destruct (has col_SHIFT_START_AT _) eqn:H4;
    [apply has_true in H4|apply has_false in H4].
  2:{ split.
      - split; [by intros [? ?]|]. intros H. exfalso. apply H4, H.
        rewrite !elem_of_cons. tauto.
      - intros c. split.
        + intros [= <-].
          exists [col_CLAIMED_AT; col_CANCELED_AT; col_SHIFT_ID],
            [col_DURATION].
          split; [done|]. split; [|done].
          intros c'. rewrite !elem_of_cons, elem_of_nil.
          intros [->|[->|[->|[]]]]; done.
        + intros (pre & post & Heq & Hpre & Hc).
          destruct pre as [|c1 pre]; [by injection Heq as <- _|].
          destruct pre as [|c2 pre]; [by injection Heq as _ <- _|].
          destruct pre as [|c3 pre]; [by injection Heq as _ _ <- _|].
          destruct pre as [|c4 pre]; [by injection Heq as _ _ _ <- _|].
          injection Heq as _ _ _ <- _. exfalso. apply H4, Hpre.
          do 3 apply list_elem_of_further. apply list_elem_of_here. }
  destruct (has col_DURATION _) eqn:H5;
    [apply has_true in H5|apply has_false in H5].
  2:{ split.
      - split; [by intros [? ?]|]. intros H. exfalso. apply H5, H.
        rewrite !elem_of_cons. tauto.
      - intros c. split.
        + intros [= <-].
          exists [col_CLAIMED_AT; col_CANCELED_AT; col_SHIFT_ID;
                  col_SHIFT_START_AT], [].
          split; [done|]. split; [|done].
          intros c'. rewrite !elem_of_cons, elem_of_nil.
          intros [->|[->|[->|[->|[]]]]]; done.
        + intros (pre & post & Heq & Hpre & Hc).
          destruct pre as [|c1 pre]; [by injection Heq as <- _|].
          destruct pre as [|c2 pre]; [by injection Heq as _ <- _|].
          destruct pre as [|c3 pre]; [by injection Heq as _ _ <- _|].
          destruct pre as [|c4 pre]; [by injection Heq as _ _ _ <- _|].
          destruct pre as [|c5 pre]; [by injection Heq as _ _ _ _ <- _|].
          injection Heq as _ _ _ _ _ Heq. by destruct pre. }
  split.
  - split; [|by eexists]. intros _ c.
    rewrite !elem_of_cons, elem_of_nil.
    intros [->|[->|[->|[->|[->|[]]]]]]; done.
  - intros c. split; [done|].
    intros (pre & post & Heq & Hpre & Hc). exfalso.
    assert (c ∈ [col_CLAIMED_AT; col_CANCELED_AT; col_SHIFT_ID;
                 col_SHIFT_START_AT; col_DURATION]) as Hin.
    { rewrite Heq. apply elem_of_app. right. apply list_elem_of_here. }
    rewrite !elem_of_cons, elem_of_nil in Hin.
    destruct Hin as [->|[->|[->|[->|[->|[]]]]]]; done.
Qed.

Lemma get_loc_app (c : Column) (pre post : list Column) :
  c ∉ pre → get_loc c (pre ++ c :: post) = Some (length pre).
Proof.
  induction pre as [|c' pre IH]; intros Hc; cbn.
  - by rewrite decide_True.
  - rewrite decide_False, IH; [done| |];
      intros ?; apply Hc; subst; [by apply list_elem_of_further|].
    apply list_elem_of_here.
Qed.

Lemma elem_of_split_first (c : Column) (cols : list Column) :
  c ∈ cols → ∃ pre post, cols = pre ++ c :: post ∧ c ∉ pre.
Proof.
  induction cols as [|c' cols IH]; intros Hc; [by apply elem_of_nil in Hc|].
  destruct (decide (c' = c)) as [->|Hne].
  - exists [], cols. split; [done|]. apply not_elem_of_nil.
  - apply elem_of_cons in Hc as [->|Hc]; [done|].
    destruct (IH Hc) as (pre & post & -> & Hpre).
    exists (c' :: pre), post. split; [done|].
    rewrite elem_of_cons. intros [->|?]; done.
Qed.

Lemma StronglySorted_filter {A} (R : relation A) (P : A → Prop)
    `{!∀ x, Decision (P x)} (l : list A) :
  StronglySorted R l → StronglySorted R (filter P l).
Proof.
  induction 1 as [|x l _ IH Hx]; [constructor|].
  destruct (decide (P x)).
  - rewrite filter_cons_True by done. constructor; [done|].
    rewrite Forall_forall in Hx |- *.
    intros y [_ Hy]%list_elem_of_filter. by apply Hx.
  - by rewrite filter_cons_False.
Qed.

Lemma StronglySorted_le_lt (l : list Z) :
  StronglySorted Z.le l → NoDup l → StronglySorted Z.lt l.
Proof.
  induction 1 as [|x l _ IH Hx]; intros Hnd; [constructor|].
  apply NoDup_cons in Hnd as [Hin Hnd]. constructor; [by apply IH|].
  rewrite Forall_forall in Hx |- *. intros y Hy.
  specialize (Hx y Hy). assert (x ≠ y) by (by intros ->). lia.
Qed.

Section cohort.
Context (kind : SortKind).

Lemma filter_excluded_eq (cols : list Column) (l : list Event) :
  filter_excluded kind cols l
  = filter (λ e, SHIFT_ID e ∉ excluded_shift_ids kind cols l) l.
Proof.
  unfold filter_excluded. destruct (has col_IS_NCNS cols) eqn:Hn; [|done].
  apply filter_all, Forall_forall.
  intros e [Hex He]%list_elem_of_filter Hncns. apply Hex.
  unfold excluded_shift_ids, ncns_shift_ids. rewrite Hn.
  apply elem_of_union_l, elem_of_union_r, elem_of_list_to_set.
  apply list_elem_of_fmap. exists e. split; [done|].
  by apply list_elem_of_filter.
Qed.

(** X2.  Lines 66-70: the row filter on [IS_NCNS] that follows the
    exclusion by [SHIFT_ID], there just to be safe, removes no row.  The
    rows of the shifts that are not excluded have no [CANCELED_AT], and no
    [IS_NCNS] set when the log has that column, so [df_final] holds exactly
    those rows. *)
Theorem ncns_row_filter_removes_nothing (cols : list Column)
    (l : list Event) :
  filter_excluded kind cols l
  = filter (λ e, SHIFT_ID e ∉ excluded_shift_ids kind cols l) l ∧
  ∀ e, e ∈ filter (λ e, SHIFT_ID e ∉ excluded_shift_ids kind cols l) l →
       CANCELED_AT e = None ∧
       (has col_IS_NCNS cols = true → IS_NCNS e ≠ Some true).
Proof.
  assert (∀ e, e ∈ filter (λ e, SHIFT_ID e ∉ excluded_shift_ids kind cols l) l
               → CANCELED_AT e = None ∧
                 (has col_IS_NCNS cols = true → IS_NCNS e ≠ Some true))
    as Hrows.
  { intros e [Hex He]%list_elem_of_filter. split.
    - destruct (CANCELED_AT e) as [t|] eqn:Ec; [|done].
      exfalso. apply Hex. unfold excluded_shift_ids, canceled_shift_ids.
      apply elem_of_union_l, elem_of_union_l, elem_of_list_to_set.
      apply list_elem_of_fmap. exists e. split; [done|].
      apply list_elem_of_filter. split; [|done]. rewrite Ec. by eexists.
    - intros Hn Hncns. apply Hex.
      unfold excluded_shift_ids, ncns_shift_ids. rewrite Hn.
      apply elem_of_union_l, elem_of_union_r, elem_of_list_to_set.
      apply list_elem_of_fmap. exists e. split; [done|].
      by apply list_elem_of_filter. }
  split; [|done].
  unfold filter_excluded. destruct (has col_IS_NCNS cols) eqn:Hn; [|done].
  apply filter_all, Forall_forall. intros e He.
  by apply (Hrows e He).
Qed.

Lemma excluded_add_CLAIMED_SHIFT_ID (cols : list Column) (l : list Event)
    (X : gset Z) :
  filter (λ e, SHIFT_ID e ∉ X) (add_CLAIMED l)
  = add_CLAIMED (filter (λ e, SHIFT_ID e ∉ X) l).
Proof. unfold add_CLAIMED. by apply filter_fmap_respect. Qed.

(** X3.  Lines 66-98: the rows of the cohort are the rows of the log whose
    shift is not excluded, one for one and in the order of the log; the
    cells read from the log are carried over unchanged. *)
Theorem cohort_rows_in_log_order (df out : DataFrame) :
  Load_shifts_final kind df = Ok out →
  Forall2 same_offer
    (filter
       (λ e, SHIFT_ID e ∉
               excluded_shift_ids kind (add_column col_CLAIMED (columns df))
                 (add_CLAIMED (rows df)))
       (rows df))
    (rows out).
Proof.
  intros (_ & _ & _ & _ & _ & ncns & _ & Hrows & _)%Load_shifts_final_Ok.
  rewrite Hrows, filter_excluded_eq,
    (excluded_add_CLAIMED_SHIFT_ID (columns df)).
  unfold add_CLAIMED. rewrite <- list_fmap_compose.
  apply Forall2_fmap_r, Forall_Forall2_diag, Forall_forall.
  intros e _. unfold same_offer. by destruct ncns.
Qed.

(** X4.  Lines 91-98: the cohort never carries the columns [CANCELED_AT],
    [IS_VERIFIED] and [IS_NCNS]; each of its columns is a column of the log
    or one of the two derived ones, and holds a value in some row; leaving
    [SHIFT_END_AT] aside, the columns keep the order they have in the
    log. *)
Theorem cohort_columns_invariant (df out : DataFrame) :
  Load_shifts_final kind df = Ok out →
  (col_CANCELED_AT ∉ columns out) ∧ (col_IS_VERIFIED ∉ columns out) ∧
  (col_IS_NCNS ∉ columns out) ∧
  (∀ c, c ∈ columns out →
        (c ∈ columns df ∨ c = col_CLAIMED ∨ c = col_SHIFT_END_AT) ∧
        ∃ e, e ∈ rows out ∧ notna c e = true) ∧
  drop_column col_SHIFT_END_AT (columns out)
    `sublist_of` columns df ++ [col_CLAIMED].
Proof.
  intros Hok.
  destruct (cohort_columns kind df out Hok) as (Hn & Hv & Hval & _).
  pose proof (cohort_rows kind df out Hok) as Hrows.
  apply Load_shifts_final_Ok in Hok as (_ & _ & _ & _ & _ & _ & _ & _ & Hcols).
  split; [|split; [done|split; [done|split]]].
  - intros Hc. apply Hval, existsb_true in Hc as (e & He & Hna).
    rewrite Forall_forall in Hrows. destruct (Hrows e He) as (Hcan & _).
    cbn in Hna. by rewrite Hcan in Hna.
  - intros c Hc. split; [|by apply existsb_true, Hval].
    rewrite Hcols in Hc. unfold columns_after_dropna in Hc.
    apply elem_of_drop_column in Hc as [_ Hc].
    apply elem_of_dropna_all in Hc as [_ Hc].
    apply elem_of_drop_column in Hc as [_ Hc].
    apply elem_of_place_SHIFT_END_AT in Hc as [->|Hc]; [tauto|].
    apply elem_of_add_column in Hc. tauto.
  - rewrite Hcols. unfold columns_after_dropna, dropna_all, drop_column.
    rewrite !list_filter_filter.
    set (cols := add_column col_CLAIMED (columns df)).
    assert (∀ (P : Column → Prop) `{!∀ c, Decision (P c)},
              (∀ c, P c → c ≠ col_SHIFT_END_AT) →
              filter P (place_SHIFT_END_AT cols) = filter P cols) as Hplace.
    { intros P ? HP. unfold place_SHIFT_END_AT.
      assert (filter P (add_column col_SHIFT_END_AT cols) = filter P cols)
        as Hadd.
      { unfold add_column. destruct (has _ cols); [done|].
        rewrite filter_app, filter_cons_False, filter_nil, app_nil_r;
          [done|]. intros ?%HP. done. }
      destruct (get_loc _ _); [|done].
      unfold insert_column.
      rewrite filter_app, filter_cons_False by (intros ?%HP; done).
      rewrite <- filter_app, take_drop.
      unfold drop_column. rewrite list_filter_filter_l; [done|].
      intros c. apply HP. }
    rewrite Hplace by tauto.
    etrans; [apply sublist_filter|].
    unfold cols, add_column. destruct (has _ _); [|done].
    by apply sublist_inserts_r.
Qed.

(** X5.  Line 94: an empty cohort has no column at all, since every column
    of a frame without rows is empty and is dropped; a cohort with a row
    always has the columns [SHIFT_ID] and [CLAIMED]. *)
Theorem empty_cohort_has_no_columns (df out : DataFrame) :
  Load_shifts_final kind df = Ok out →
  (rows out = [] ↔ columns out = []) ∧
  (rows out ≠ [] →
   col_SHIFT_ID ∈ columns out ∧ col_CLAIMED ∈ columns out).
Proof.
  intros Hok.
  destruct (cohort_columns kind df out Hok) as (_ & _ & Hval & Hin).
  pose proof (cohort_rows kind df out Hok) as Hrows.
  assert (rows out ≠ [] →
          col_SHIFT_ID ∈ columns out ∧ col_CLAIMED ∈ columns out) as Hne.
  { destruct (rows out) as [|e l] eqn:E; [done|]. intros _.
    apply Forall_cons in Hrows as [(_ & _ & Hc & _) _].
    split; apply Hin; cbn; try by rewrite ?Hc.
    left. unfold required_columns. rewrite !elem_of_cons. tauto. tauto. }
  split; [|done]. split.
  - intros Hnil. destruct (columns out) as [|c cols] eqn:E; [done|].
    specialize (Hval c (list_elem_of_here _ _)). by rewrite Hnil in Hval.
  - intros Hnil. destruct (rows out) as [|e l] eqn:E; [done|].
    destruct Hne as [Hs _]; [done|]. rewrite Hnil in Hs.
    by apply elem_of_nil in Hs.
Qed.

(** X6.  Lines 76-78: in a cohort made from a log that has no
    [SHIFT_END_AT] column of its own, the [SHIFT_END_AT] column, when it is
    there, stands right after [SHIFT_START_AT]. *)
Theorem SHIFT_END_AT_follows_SHIFT_START_AT (df out : DataFrame) :
  Load_shifts_final kind df = Ok out →
  col_SHIFT_END_AT ∉ columns df →
  col_SHIFT_END_AT ∈ columns out →
  ∃ pre post,
    columns out = pre ++ col_SHIFT_START_AT :: col_SHIFT_END_AT :: post.
Proof.
  intros (_ & _ & _ & H4 & _ & _ & _ & _ & Hcols)%Load_shifts_final_Ok
    Hend Hin.
  set (cols := add_column col_CLAIMED (columns df)) in *.
  set (kept2 := drop_IS_VERIFIED _) in *.
  assert (col_SHIFT_END_AT ∉ cols) as Hend'.
  { unfold cols. rewrite elem_of_add_column. intros [?|?]; done. }
  apply has_true, elem_of_split_first in H4 as (pre & post & Hsplit & Hpre).
  assert (place_SHIFT_END_AT cols
          = pre ++ col_SHIFT_START_AT :: col_SHIFT_END_AT :: post) as Hplace.
  { unfold place_SHIFT_END_AT, add_column.
    rewrite (proj2 (has_false _ _) Hend'), Hsplit.
    rewrite <- app_assoc. cbn [app]. rewrite get_loc_app by done.
    unfold drop_column, insert_column.
    rewrite filter_app, (filter_cons_True _ col_SHIFT_START_AT) by done.
    rewrite filter_app, filter_cons_False, filter_nil, app_nil_r by tauto.
    rewrite Hsplit in Hend'.
    rewrite !filter_all.
    - assert (pre ++ col_SHIFT_START_AT :: post
              = (pre ++ [col_SHIFT_START_AT]) ++ post) as ->
        by by rewrite <- app_assoc.
      rewrite take_app_length', drop_app_length'
        by (rewrite length_app; cbn; lia).
      by rewrite <- app_assoc.
    - apply Forall_forall. intros c Hc ->. apply Hend'.
      rewrite elem_of_app, elem_of_cons. tauto.
    - apply Forall_forall. intros c Hc ->. apply Hend'.
      rewrite elem_of_app. tauto. }
  rewrite Hcols in Hin |- *. unfold columns_after_dropna in *.
  rewrite Hplace in *.
  unfold dropna_all, drop_column in *. rewrite !list_filter_filter in *.
  set (Q := λ c : Column, _) in *.
  apply (proj1 (list_elem_of_filter _ _ _)) in Hin as [HQ _].
  assert (Q col_SHIFT_START_AT) as HQs.
  { destruct HQ as [[_ Hex] _]. unfold Q. split; [split; [done|]|done].
    apply existsb_true in Hex as (e & He & Hna). apply existsb_true.
    exists e. split; [done|]. unfold kept2, drop_IS_VERIFIED in He.
    apply list_elem_of_fmap in He as (e1 & -> & He1).
    unfold add_SHIFT_END_AT in He1.
    apply list_elem_of_fmap in He1 as (e0 & -> & _). cbn in *.
    unfold shift_end_minutes in Hna. by destruct (SHIFT_START_AT e0). }
  exists (filter Q pre), (filter Q post).
  by rewrite filter_app, !filter_cons_True.
Qed.

(** X21.  Line 25: [first_claims] lists the claimed shifts in ascending
    order of [SHIFT_ID], each of them once, whatever the order of the claim
    times. *)
Theorem first_claims_in_SHIFT_ID_order (cols : list Column)
    (l : list Event) :
  StronglySorted Z.lt (SHIFT_ID <$> first_claims kind cols l) ∧
  ∀ s, s ∈ SHIFT_ID <$> first_claims kind cols l ↔
       ∃ e, e ∈ l ∧ CLAIMED e = Some true ∧ SHIFT_ID e = s.
Proof.
  assert (SHIFT_ID <$> first_claims kind cols l
          = group_keys (claimed_df_sorted kind l)) as ->.
  { unfold first_claims, groupby_first.
    rewrite <- !list_fmap_compose. apply list_fmap_id. }
  split.
  - apply StronglySorted_le_lt;
      [apply group_keys_sorted|apply NoDup_group_keys].
  - intros s. rewrite elem_of_group_keys. split.
    + intros (e & [Hc He]%elem_of_claimed_df_sorted%list_elem_of_filter
                & Hs). eauto.
    + intros (e & He & Hc & Hs). exists e. split; [|done].
      apply elem_of_claimed_df_sorted. by apply list_elem_of_filter.
Qed.

End cohort.

Lemma cohort_rows_in_log_order_witness :
  Load_shifts_final mergesort sample_log = Ok sample_cohort ∧
  Forall2 same_offer
    (filter
       (λ e, SHIFT_ID e ∉
               excluded_shift_ids mergesort
                 (add_column col_CLAIMED (columns sample_log))
                 (add_CLAIMED (rows sample_log)))
       (rows sample_log))
    (rows sample_cohort).
Proof.
  split; [vm_compute; reflexivity|].
  apply (cohort_rows_in_log_order mergesort sample_log sample_cohort).
  vm_compute. reflexivity.
Defined.

Lemma cohort_columns_invariant_witness :
  Load_shifts_final mergesort sample_log = Ok sample_cohort ∧
  (col_CANCELED_AT ∉ columns sample_cohort) ∧
  (col_IS_VERIFIED ∉ columns sample_cohort) ∧
  (col_IS_NCNS ∉ columns sample_cohort) ∧
  (∀ c, c ∈ columns sample_cohort →
        (c ∈ columns sample_log ∨ c = col_CLAIMED ∨ c = col_SHIFT_END_AT) ∧
        ∃ e, e ∈ rows sample_cohort ∧ notna c e = true) ∧
  drop_column col_SHIFT_END_AT (columns sample_cohort)
    `sublist_of` columns sample_log ++ [col_CLAIMED].
Proof.
  split; [vm_compute; reflexivity|].
  apply (cohort_columns_invariant mergesort sample_log sample_cohort).
  vm_compute. reflexivity.
Defined.

Lemma empty_cohort_has_no_columns_witness :
  Load_shifts_final mergesort canceled_log = Ok (mkFrame [] []) ∧
  (rows (mkFrame [] []) = [] ↔ columns (mkFrame [] []) = []) ∧
  (rows (mkFrame [] []) ≠ [] →
   col_SHIFT_ID ∈ columns (mkFrame [] []) ∧
   col_CLAIMED ∈ columns (mkFrame [] [])).
Proof.
  split; [vm_compute; reflexivity|].
  apply (empty_cohort_has_no_columns mergesort canceled_log (mkFrame [] [])).
  vm_compute. reflexivity.
Defined.

Lemma SHIFT_END_AT_follows_SHIFT_START_AT_witness :
  Load_shifts_final mergesort sample_log = Ok sample_cohort ∧
  ∃ pre post,
    columns sample_cohort
    = pre ++ col_SHIFT_START_AT :: col_SHIFT_END_AT :: post.
Proof.
  split; [vm_compute; reflexivity|].
  apply (SHIFT_END_AT_follows_SHIFT_START_AT mergesort sample_log
           sample_cohort).
  - vm_compute. reflexivity.
  - by apply (bool_decide_unpack _).
  - by apply (bool_decide_unpack _).
Defined.

End CohortSpec.

(** ** The statistics the loader prints *)

Module StatisticsSpec.
Import Frame FrameFacts Loader LoaderFacts Kinds Examples ResolverSpec
  RerunSpec GuardSpec Statistics Scenarios CohortSpec.

Lemma nunique_zero (l : list Event) : nunique_SHIFT_ID l = 0%nat ↔ l = [].
Proof.
  unfold nunique_SHIFT_ID. rewrite size_empty_iff. split.
  - destruct l as [|e l]; [done|]. intros H. exfalso.
    apply (not_elem_of_empty (C := gset Z) (SHIFT_ID e)).
    rewrite <- H. cbn. set_solver.
  - intros ->. done.
Qed.

Lemma percentage_Done (n total : Z) :
  total ≠ 0%Z →
  percentage n total = Done (inject_Z n / inject_Z total * 100)%Q.
Proof. intros H. unfold percentage. by rewrite decide_False. Qed.

Lemma count_partition (fc : list Event) :
  Forall (λ r, is_Some (IS_VERIFIED r)) fc →
  (count_worked fc + count_not_worked fc = Z.of_nat (length fc))%Z.
Proof.
  unfold count_worked, count_not_worked.
  induction 1 as [|r fc [b Hb] _ IH]; [done|].
  destruct b.
  - rewrite (filter_cons_True (λ r, IS_VERIFIED r = Some true)) by done.
    rewrite (filter_cons_False (λ r, IS_VERIFIED r = Some false))
      by congruence.
    cbn [length]. lia.
  - rewrite (filter_cons_False (λ r, IS_VERIFIED r = Some true))
      by congruence.
    rewrite (filter_cons_True (λ r, IS_VERIFIED r = Some false)) by done.
    cbn [length]. lia.
Qed.

Lemma first_claims_verified kind cols (l : list Event) :
  Forall (λ r, is_Some (IS_VERIFIED r)) (first_claims kind cols l).
Proof.
  apply Forall_forall. intros r (raw & _ & ->)%elem_of_first_claims.
  by eexists.
Qed.

(** [first_claims] has one record for each shift with a claimed row. *)
Lemma length_first_claims kind cols (l : list Event) :
  length (first_claims kind cols l)
  = size (list_to_set (SHIFT_ID <$> claimed_df l) : gset Z).
Proof.
  unfold first_claims, groupby_first. rewrite !length_fmap.
  rewrite <- (size_list_to_set (C := gset Z))
    by apply NoDup_group_keys.
  f_equal. apply set_eq. intros s.
  rewrite !elem_of_list_to_set, elem_of_group_keys, list_elem_of_fmap.
  split.
  - intros (e & He%elem_of_claimed_df_sorted & <-). eauto.
  - intros (e & -> & He). exists e. split; [|done].
    by apply elem_of_claimed_df_sorted.
Qed.

Lemma SHIFT_ID_add_CLAIMED (l : list Event) :
  SHIFT_ID <$> add_CLAIMED l = SHIFT_ID <$> l.
Proof. unfold add_CLAIMED. by rewrite <- list_fmap_compose. Qed.

Section script.
Context (kind : SortKind).

(** What a completed run returns. *)
Lemma script_Done (df out : DataFrame) (rep : Report) :
  script kind df = Done (out, rep) →
  let cols := add_column col_CLAIMED (columns df) in
  let l := add_CLAIMED (rows df) in
  let kept1 := add_SHIFT_END_AT (filter_excluded kind cols l) in
  Load_shifts_final kind df = Ok out ∧
  rows df ≠ [] ∧
  col_SHIFT_ID ∈ columns out ∧
  total_shifts rep = Z.of_nat (nunique_SHIFT_ID l) ∧
  first_claimers_total rep = Z.of_nat (nunique_SHIFT_ID (claimed_df l)) ∧
  num_first_claims_worked rep = count_worked (first_claims kind cols l) ∧
  num_first_claims_not_worked rep
    = count_not_worked (first_claims kind cols l) ∧
  num_never_claimed rep
    = (Z.of_nat (nunique_SHIFT_ID l)
       - Z.of_nat
           (size (list_to_set (SHIFT_ID <$> claimed_df l) : gset Z)))%Z ∧
  percentages rep
    = ((inject_Z (num_first_claims_worked rep)
        / inject_Z (total_shifts rep) * 100)%Q,
       (inject_Z (num_first_claims_not_worked rep)
        / inject_Z (total_shifts rep) * 100)%Q,
       (inject_Z (num_never_claimed rep)
        / inject_Z (total_shifts rep) * 100)%Q) ∧
  final_shift_ids rep = list_to_set (SHIFT_ID <$> rows out) ∧
  num_first_claims_worked_final rep
    = count_worked (first_claims kind (place_SHIFT_END_AT cols) kept1) ∧
  num_first_claims_not_worked_final rep
    = count_not_worked (first_claims kind (place_SHIFT_END_AT cols) kept1) ∧
  never_claimed_in_final rep
    = list_to_set (SHIFT_ID <$> rows out)
      ∖ list_to_set (SHIFT_ID <$> filter (λ e, CLAIMED e = Some true) l).
Proof.
  unfold script, Load_shifts_final, require, bind, and_then, of_Result.
  destruct (has col_CLAIMED_AT _); [|done].
  destruct (has col_CANCELED_AT _); [|done].
  destruct (has col_SHIFT_ID (add_column _ _)); [|done].
  unfold percentage.
  destruct (decide (Z.of_nat (nunique_SHIFT_ID _) = 0%Z)) as [|Hne]; [done|].
  destruct (has col_SHIFT_START_AT _); [|done].
  destruct (has col_DURATION _); [|done].
  destruct (has col_SHIFT_ID (drop_column _ _)) eqn:Hs; [|done].
  intros [= <- <-]. cbn.
  split; [done|]. split.
  { intros Hnil. apply Hne. rewrite Hnil. done. }
  split; [by apply has_true|]. done.
Qed.

(** On a log with a row the script fails where the loader fails; where the
    loader succeeds, all that can still fail is the lookup of [SHIFT_ID]
    in [df_final] at line 101. *)
Lemma script_nonempty (df : DataFrame) :
  rows df ≠ [] →
  match Load_shifts_final kind df with
  | Raise (KeyError c) => script kind df = Fail (Key c)
  | Ok out =>
      if has col_SHIFT_ID (columns out)
      then ∃ rep, script kind df = Done (out, rep)
      else script kind df = Fail (Key col_SHIFT_ID)
  end.
Proof.
  intros Hne.
  unfold script, Load_shifts_final, require, bind, and_then, of_Result.
  destruct (has col_CLAIMED_AT _); [|done].
  destruct (has col_CANCELED_AT _); [|done].
  destruct (has col_SHIFT_ID (add_column _ _)); [|done].
  assert (Z.of_nat (nunique_SHIFT_ID (add_CLAIMED (rows df))) ≠ 0%Z) as Ht.
  { intros H. apply Hne.
    assert (nunique_SHIFT_ID (add_CLAIMED (rows df)) = 0%nat) as H0 by lia.
    apply nunique_zero in H0. unfold add_CLAIMED in H0.
    by apply fmap_nil_inv in H0. }
  rewrite !percentage_Done by done.
  destruct (has col_SHIFT_START_AT _); [|done].
  destruct (has col_DURATION _); [|done].
  cbn [columns].
  destruct (has col_SHIFT_ID (drop_column _ _)); [|done].
  by eexists.
Qed.

Lemma cohort_SHIFT_ID_column (df out : DataFrame) :
  Load_shifts_final kind df = Ok out →
  has col_SHIFT_ID (columns out) = true ↔ rows out ≠ [].
Proof.
  intros Hok.
  destruct (cohort_columns kind df out Hok) as (_ & _ & Hval & Hin).
  rewrite has_true. split.
  - intros Hc%Hval Hnil. by rewrite Hnil in Hc.
  - intros Hne. apply Hin.
    + left. unfold required_columns. rewrite !elem_of_cons. tauto.
    + destruct (rows out); done.
Qed.

Lemma cohort_of_nonempty_log (df out : DataFrame) :
  Load_shifts_final kind df = Ok out → rows out ≠ [] → rows df ≠ [].
Proof.
  intros (_ & _ & _ & _ & _ & ncns & _ & Hrows & _)%Load_shifts_final_Ok
    Hne Hnil.
  apply Hne. rewrite Hrows, Hnil. unfold filter_excluded. cbn.
  by destruct (has _ _).
Qed.

(** X1.  Lines 8, 9, 15 and 73: when one of the five columns the script
    reads without asking is missing, and the ones read before it are
    there, the script stops with the [KeyError] of that column, provided
    the log has a row or the column is one of the three read before the
    percentages of line 45. *)
Theorem missing_column_KeyError (df : DataFrame) (c : Column)
    (pre post : list Column) :
  required_columns = pre ++ c :: post →
  (∀ c', c' ∈ pre → c' ∈ columns df) →
  c ∉ columns df →
  rows df ≠ [] ∨ c ∈ [col_CLAIMED_AT; col_CANCELED_AT; col_SHIFT_ID] →
  script kind df = Fail (Key c).
Proof.
  intros Hreq Hpre Hc Hcase.
  assert (Load_shifts_final kind df = Raise (KeyError c)) as Hload.
  { apply (proj2 (Load_shifts_final_KeyError kind df)). eauto. }
  destruct (decide (rows df = [])) as [Hnil|Hne].
  - destruct Hcase as [?|Hin]; [done|].
    assert (∀ c0, c0 ≠ col_CLAIMED →
              has c0 (add_column col_CLAIMED (columns df))
              = has c0 (columns df)) as Hadd.
    { intros c0 H0. by apply has_add_CLAIMED. }
    apply has_false in Hc.
    unfold Load_shifts_final, script, require, bind, and_then, of_Result
      in *.
    rewrite !Hadd in * by done.
    rewrite !elem_of_cons in Hin.
    destruct Hin as [->|[->|[->|Hin]]]; [| | |by apply elem_of_nil in Hin].
    + by rewrite Hc.
    + rewrite Hc in *. by destruct (has col_CLAIMED_AT _).
    + rewrite Hc in *. destruct (has col_CLAIMED_AT _); [|done].
      by destruct (has col_CANCELED_AT _).
  - pose proof (script_nonempty df Hne) as H.
    by rewrite Hload in H.
Qed.

(** X7.  Lines 45-47: an empty log stops the script at line 45 with a
    [ZeroDivisionError], and nothing else does: the three percentages
    divide by the number of shifts of the log. *)
Theorem empty_log_ZeroDivisionError (df : DataFrame) :
  script kind df = Fail ZeroDivision ↔
  rows df = [] ∧ col_CLAIMED_AT ∈ columns df ∧
  col_CANCELED_AT ∈ columns df ∧ col_SHIFT_ID ∈ columns df.
Proof.
  destruct (decide (rows df = [])) as [Hnil|Hne].
  - unfold script, require, and_then, of_Result. rewrite Hnil.
    rewrite <- !has_true.
    assert (has col_SHIFT_ID (add_column col_CLAIMED (columns df))
            = has col_SHIFT_ID (columns df)) as ->.
    { destruct (has col_SHIFT_ID (columns df)) eqn:E.
      - apply has_true, elem_of_add_column. right. by apply has_true.
      - apply has_false. rewrite elem_of_add_column.
        apply has_false in E. intros [?|?]; done. }
    destruct (has col_CLAIMED_AT _); [|split; [done|intros (? & ? & ? & ?); done]].
    destruct (has col_CANCELED_AT _); [|split; [done|intros (? & ? & ? & ?); done]].
    destruct (has col_SHIFT_ID _); [|split; [done|intros (? & ? & ? & ?); done]].
    done.
  - pose proof (script_nonempty df Hne) as H.
    split; [|tauto]. intros Hz. rewrite Hz in H.
    destruct (Load_shifts_final kind df) as [out|[c]]; [|done].
    destruct (has col_SHIFT_ID (columns out)); [|done].
    by destruct H.
Qed.

(** X8.  The script runs to its end exactly when the loader succeeds with
    a cohort that has a row, and [df_final] is then the frame the loader
    returns. *)
Theorem script_completes (df out : DataFrame) :
  (∃ rep, script kind df = Done (out, rep)) ↔
  Load_shifts_final kind df = Ok out ∧ rows out ≠ [].
Proof.
  split.
  - intros [rep (Hok & _ & Hs & _)%script_Done]. split; [done|].
    by apply (cohort_SHIFT_ID_column df out Hok), has_true.
  - intros [Hok Hne].
    pose proof (script_nonempty df (cohort_of_nonempty_log df out Hok Hne))
      as H.
    rewrite Hok in H.
    by rewrite (proj2 (cohort_SHIFT_ID_column df out Hok) Hne) in H.
Qed.

(** X9.  Lines 94-101: when every shift of a log is excluded, the cohort
    is empty and has lost all its columns, and the script stops at line 101
    with the [KeyError] of [SHIFT_ID]. *)
Theorem all_excluded_KeyError (df out : DataFrame) :
  Load_shifts_final kind df = Ok out →
  rows df ≠ [] →
  rows out = [] →
  script kind df = Fail (Key col_SHIFT_ID).
Proof.
  intros Hok Hne Hnil.
  pose proof (script_nonempty df Hne) as H. rewrite Hok in H.
  destruct (has col_SHIFT_ID (columns out)) eqn:E; [|done].
  by apply (cohort_SHIFT_ID_column df out Hok) in E.
Qed.

(** X10.  Lines 15-47: the shifts of the log split into those whose first
    claimer worked, those whose first claimer did not, and those never
    claimed; the last are the shifts none of whose events has a
    [CLAIMED_AT], and the three percentages add up to 100. *)
Theorem statistics_partition (df out : DataFrame) (rep : Report) :
  script kind df = Done (out, rep) →
  (num_first_claims_worked rep + num_first_claims_not_worked rep
   = first_claimers_total rep)%Z ∧
  (first_claimers_total rep + num_never_claimed rep = total_shifts rep)%Z ∧
  num_never_claimed rep
  = Z.of_nat
      (size (list_to_set (SHIFT_ID <$> rows df)
             ∖ list_to_set
                 (SHIFT_ID <$> filter (λ e, is_Some (CLAIMED_AT e)) (rows df))
             : gset Z)) ∧
  (0 < total_shifts rep)%Z ∧
  ((percentages rep).1.1 + (percentages rep).1.2 + (percentages rep).2
   == 100)%Q.
Proof.
  intros (_ & Hne & _ & Ht & Hc & Hw & Hn & Hv & Hp & _)%script_Done.
  set (l := add_CLAIMED (rows df)) in *.
  set (cols := add_column col_CLAIMED (columns df)) in *.
  set (claimed := list_to_set (SHIFT_ID <$> claimed_df l) : gset Z) in *.
  assert (claimed
          = list_to_set
              (SHIFT_ID <$> filter (λ e, is_Some (CLAIMED_AT e)) (rows df)))
    as Hclaimed.
  { apply set_eq. intros s. unfold claimed.
    rewrite !elem_of_list_to_set, !list_elem_of_fmap. split.
    - intros (e & -> & [He Hc']%elem_of_claimed_df).
      apply elem_of_add_CLAIMED in He as (e0 & -> & He0).
      exists e0. split; [done|]. by apply list_elem_of_filter.
    - intros (e & -> & [Hc' He]%list_elem_of_filter).
      exists (set_CLAIMED (Some (notnull (CLAIMED_AT e))) e).
      split; [done|]. apply elem_of_claimed_df. split; [|done].
      apply elem_of_add_CLAIMED. eauto. }
  assert (claimed ⊆ list_to_set (SHIFT_ID <$> rows df)) as Hsub.
  { rewrite Hclaimed. intros s.
    rewrite !elem_of_list_to_set, !list_elem_of_fmap.
    intros (e & -> & [_ He]%list_elem_of_filter). eauto. }
  assert (first_claimers_total rep = Z.of_nat (size claimed)) as Hc'.
  { by rewrite Hc. }
  assert (total_shifts rep
          = Z.of_nat (size (list_to_set (SHIFT_ID <$> rows df) : gset Z)))
    as Ht'.
  { rewrite Ht. unfold nunique_SHIFT_ID, l. by rewrite SHIFT_ID_add_CLAIMED. }
  assert (0 < total_shifts rep)%Z as Hpos.
  { rewrite Ht.
    assert (nunique_SHIFT_ID l ≠ 0%nat); [|lia].
    intros H0%nunique_zero. apply Hne. unfold l, add_CLAIMED in H0.
    by apply fmap_nil_inv in H0. }
  assert (num_first_claims_worked rep + num_first_claims_not_worked rep
          = first_claimers_total rep)%Z as Hsum.
  { rewrite Hw, Hn, Hc', count_partition by apply first_claims_verified.
    by rewrite length_first_claims. }
  assert (first_claimers_total rep + num_never_claimed rep
          = total_shifts rep)%Z as Hall.
  { rewrite Hv, Hc', Ht. lia. }
  split; [done|]. split; [done|]. split; [|split; [done|]].
  - rewrite <- Hclaimed, size_difference by done.
    apply subseteq_size in Hsub. rewrite Hv. fold claimed.
    unfold nunique_SHIFT_ID, l. rewrite SHIFT_ID_add_CLAIMED. lia.
  - rewrite Hp. cbn [fst snd].
    assert (inject_Z (total_shifts rep)
            == inject_Z (num_first_claims_worked rep)
               + inject_Z (num_first_claims_not_worked rep)
               + inject_Z (num_never_claimed rep)) as Hq.
    { rewrite <- !inject_Z_plus. by rewrite Hsum, Hall. }
    assert (¬ inject_Z (total_shifts rep) == 0) as Hnz.
    { intros H0. unfold Qeq in H0. cbn in H0. lia. }
    rewrite Hq in Hnz |- *. field. exact Hnz.
Qed.

Lemma elem_of_cohort_SHIFT_ID (df out : DataFrame) (s : Z) :
  Load_shifts_final kind df = Ok out →
  s ∈ SHIFT_ID <$> rows out ↔
  (∃ e, e ∈ rows df ∧ SHIFT_ID e = s) ∧
  s ∉ excluded_shift_ids kind (add_column col_CLAIMED (columns df))
        (add_CLAIMED (rows df)).
Proof.
  intros (_ & _ & _ & _ & _ & ncns & _ & Hrows & _)%Load_shifts_final_Ok.
  rewrite Hrows, <- list_fmap_compose, list_elem_of_fmap. split.
  - intros (e & -> & [He Hex]%elem_of_filter_excluded).
    assert (SHIFT_ID (finish ncns e) = SHIFT_ID e) as Hs
      by by destruct ncns.
    cbn. rewrite Hs. split; [|done].
    apply elem_of_add_CLAIMED in He as (e0 & -> & He0). eauto.
  - intros [(e & He & <-) Hex].
    exists (set_CLAIMED (Some (notnull (CLAIMED_AT e))) e). split.
    + by destruct ncns.
    + apply elem_of_filter_excluded. split; [|done].
      apply elem_of_add_CLAIMED. eauto.
Qed.

(** X11.  Lines 81-113: the shifts of [df_final] split into those with a
    record in [first_claims_final], counted as worked or not worked, and
    those never claimed; the latter are the shifts of the cohort none of
    whose events in the log has a [CLAIMED_AT]. *)
Theorem final_statistics_partition (df out : DataFrame) (rep : Report) :
  script kind df = Done (out, rep) →
  final_shift_ids rep = list_to_set (SHIFT_ID <$> rows out) ∧
  (Z.of_nat (size (final_shift_ids rep))
   = num_first_claims_worked_final rep
     + num_first_claims_not_worked_final rep
     + Z.of_nat (size (never_claimed_in_final rep)))%Z ∧
  (∀ s, s ∈ never_claimed_in_final rep ↔
        s ∈ final_shift_ids rep ∧
        ∀ e, e ∈ rows df → SHIFT_ID e = s → CLAIMED_AT e = None).
Proof.
  intros (Hok & _ & _ & _ & _ & _ & _ & _ & _ & Hf & Hw & Hn & Hv)%script_Done.
  set (l := add_CLAIMED (rows df)) in *.
  set (cols := add_column col_CLAIMED (columns df)) in *.
  set (kept1 := add_SHIFT_END_AT (filter_excluded kind cols l)) in *.
  set (F := list_to_set (SHIFT_ID <$> rows out) : gset Z) in *.
  set (O := list_to_set
              (SHIFT_ID <$> filter (λ e, CLAIMED e = Some true) l) : gset Z)
    in *.
  assert (∀ s, s ∈ O ↔
               ∃ e, e ∈ rows df ∧ SHIFT_ID e = s ∧ is_Some (CLAIMED_AT e))
    as HO.
  { intros s. unfold O. rewrite elem_of_list_to_set, list_elem_of_fmap.
    rewrite <- claimed_shift. unfold claimed_df. fold l.
    split; [intros (e & -> & He)|intros (e & He & <-)]; eauto. }
  assert (∀ s, s ∈ F ↔
               (∃ e, e ∈ rows df ∧ SHIFT_ID e = s) ∧
               s ∉ excluded_shift_ids kind cols l) as HF.
  { intros s. unfold F. rewrite elem_of_list_to_set.
    by apply elem_of_cohort_SHIFT_ID. }
  assert ((list_to_set (SHIFT_ID <$> claimed_df kept1) : gset Z) = F ∩ O)
    as Hclaimed.
  { apply set_eq. intros s.
    rewrite elem_of_intersection, HF, HO, elem_of_list_to_set,
      list_elem_of_fmap.
    split.
    - intros (e & -> & [Hc He]%list_elem_of_filter).
      unfold kept1, add_SHIFT_END_AT in He.
      apply list_elem_of_fmap in He as (e1 & -> & He1).
      apply elem_of_filter_excluded in He1 as [He1 Hex].
      pose proof (add_CLAIMED_flag _ _ He1) as Hflag.
      apply elem_of_add_CLAIMED in He1 as (e0 & -> & He0).
      cbn in *. split; [split; [eauto|done]|].
      exists e0. split; [done|]. split; [done|].
      apply notnull_is_Some. congruence.
    - intros [[_ Hex] (e & He & <- & Hc)].
      exists (set_SHIFT_END_AT
                (shift_end_minutes
                   (set_CLAIMED (Some (notnull (CLAIMED_AT e))) e))
                (set_CLAIMED (Some (notnull (CLAIMED_AT e))) e)).
      split; [done|]. apply list_elem_of_filter. split.
      + cbn. apply notnull_is_Some in Hc. by rewrite Hc.
      + unfold kept1, add_SHIFT_END_AT. apply list_elem_of_fmap.
        eexists. split; [done|]. apply elem_of_filter_excluded.
        split; [|done]. apply elem_of_add_CLAIMED. eauto. }
  split; [done|]. split.
  - pose proof (count_partition _
                  (first_claims_verified kind (place_SHIFT_END_AT cols) kept1))
      as Hp.
    rewrite length_first_claims, Hclaimed in Hp.
    assert (size F = (size (F ∩ O) + size (F ∖ O))%nat) as Hsz.
    { rewrite <- size_union;
        [|by intros s [_ H1]%elem_of_intersection [_ H2]%elem_of_difference].
      f_equal. apply set_eq. intros s.
      rewrite elem_of_union, elem_of_difference, elem_of_intersection.
      destruct (decide (s ∈ O)); tauto. }
    rewrite Hw, Hn, Hv, Hf. lia.
  - intros s. rewrite Hv, Hf, elem_of_difference, HO.
    split; intros [HsF Hno]; (split; [done|]).
    + intros e He Hs. destruct (CLAIMED_AT e) eqn:Ec; [|done].
      exfalso. apply Hno. exists e. rewrite Ec. eauto.
    + intros (e & He & Hs & Hc). rewrite (Hno e He Hs) in Hc.
      by destruct Hc.
Qed.

(** A frame sorted on a key that no row lacks, seen as a sorted list of
    rows. *)
Lemma sorted_by_key {A} (f : A → option Z) (l : list A) :
  Forall (λ x, is_Some (f x)) l →
  StronglySorted Z.le (omap f l) →
  StronglySorted (λ a b, (default 0 (f a) ≤ default 0 (f b))%Z) l.
Proof.
  intros Hall. rewrite (omap_present f 0%Z l Hall).
  clear Hall. induction l as [|x l IH]; intros Hs; [constructor|].
  cbn in Hs. apply StronglySorted_inv in Hs as [Hs Hx].
  constructor; [by apply IH|].
  rewrite Forall_fmap in Hx. done.
Qed.

(** Line 73 on one row. *)
Let h (e : Event) : Event := set_SHIFT_END_AT (shift_end_minutes e) e.

(** The claim rows of a shift that stays are the same in [df_final] as in
    the log, end times apart. *)
Lemma group_claimed_kept (cols : list Column) (l : list Event) (s : Z) :
  s ∉ excluded_shift_ids kind cols l →
  group s (claimed_df (add_SHIFT_END_AT (filter_excluded kind cols l)))
  = h <$> group s (claimed_df l).
Proof.
  intros Hs. unfold group, claimed_df, add_SHIFT_END_AT.
  rewrite filter_excluded_eq. fold h.
  rewrite !(filter_fmap_respect _ h) by done. f_equal.
  rewrite !list_filter_filter. apply list_filter_iff.
  intros e. split; [tauto|]. intros [<- ?]. done.
Qed.

Lemma claimed_df_kept_present (cols : list Column) (l : list Event) :
  Forall (λ e, is_Some (CLAIMED_AT e))
    (claimed_df
       (add_SHIFT_END_AT (filter_excluded kind cols (add_CLAIMED l)))).
Proof.
  apply Forall_forall. intros e [Hc He]%list_elem_of_filter.
  apply list_elem_of_fmap in He as (e1 & -> & [He1 _]%elem_of_filter_excluded).
  cbn in *. rewrite (add_CLAIMED_flag _ _ He1) in Hc.
  apply notnull_is_Some. congruence.
Qed.

(** With distinct claim times, the claim rows of a shift that stays come
    out of the second sort in the order the first sort gave them. *)
Lemma group_sorted_again (cols : list Column) (l : list Event) (s : Z) :
  distinct_claim_times l →
  s ∉ excluded_shift_ids kind cols (add_CLAIMED l) →
  group s
    (claimed_df_sorted kind
       (add_SHIFT_END_AT (filter_excluded kind cols (add_CLAIMED l))))
  = h <$> group s (claimed_df_sorted kind (add_CLAIMED l)).
Proof.
  intros Hd Hs. symmetry.
  apply (StronglySorted_unique_strong
           (λ a b, (default 0 (CLAIMED_AT a) ≤ default 0 (CLAIMED_AT b))%Z)).
  - intros x1 x2 Hx1 Hx2 H12 H21.
    apply list_elem_of_fmap in Hx1 as (e1 & -> & [Hs1 He1]%elem_of_group).
    apply elem_of_claimed_df_sorted, elem_of_claimed_df in He1 as [He1 Hc1].
    apply elem_of_add_CLAIMED in He1 as (r1 & -> & Hr1).
    apply elem_of_group in Hx2 as [Hs2 Hx2].
    apply elem_of_claimed_df_sorted in Hx2.
    pose proof (claimed_df_kept_present cols l) as Hall.
    rewrite Forall_forall in Hall. specialize (Hall _ Hx2) as Hc2.
    apply list_elem_of_filter in Hx2 as [_ Hx2].
    apply list_elem_of_fmap in Hx2
      as (e2 & -> & [He2 _]%elem_of_filter_excluded).
    apply elem_of_add_CLAIMED in He2 as (r2 & -> & Hr2).
    cbn in *. destruct Hc1 as [t1 Ht1], Hc2 as [t2 Ht2].
    assert (r1 = r2) as ->; [|done].
    apply Hd; [done|done|congruence|by eexists|].
    rewrite Ht1, Ht2 in *. cbn in *. f_equal. lia.
  - apply (StronglySorted_fmap h
             (λ a b, (default 0 (CLAIMED_AT a) ≤ default 0 (CLAIMED_AT b))%Z));
      [done|].
    apply StronglySorted_filter, sorted_by_key.
    + apply claimed_df_sorted_present.
    + apply claimed_df_sorted_ascending.
  - apply StronglySorted_filter, sorted_by_key.
    + apply Forall_forall. intros e He%elem_of_claimed_df_sorted.
      pose proof (claimed_df_kept_present cols l) as Hall.
      rewrite Forall_forall in Hall. by apply Hall.
    + apply sort_values_sorted, claimed_df_kept_present.
  - unfold claimed_df_sorted, group.
    rewrite !sort_values_perm.
    fold (group s (claimed_df (add_CLAIMED l))).
    fold (group s (claimed_df (add_SHIFT_END_AT
            (filter_excluded kind cols (add_CLAIMED l))))).
    by rewrite group_claimed_kept.
Qed.

Lemma has_place_SHIFT_END_AT (c : Column) (cols : list Column) :
  c ≠ col_SHIFT_END_AT → has c (place_SHIFT_END_AT cols) = has c cols.
Proof.
  intros Hc. destruct (has c cols) eqn:E.
  - apply has_true, elem_of_place_SHIFT_END_AT. right. by apply has_true.
  - apply has_false. rewrite elem_of_place_SHIFT_END_AT.
    apply has_false in E. intros [?|?]; done.
Qed.

(** X12.  Lines 80-88 and 107, the check that all first claimers in
    [df_final] worked: when no two different claim events of a shift carry
    the same [CLAIMED_AT], no record of [first_claims_final] is unverified,
    and the script prints 0 shifts whose first claimer did not work. *)
Theorem first_claimers_in_cohort_worked (df out : DataFrame)
    (rep : Report) :
  script kind df = Done (out, rep) →
  distinct_claim_times (rows df) →
  num_first_claims_not_worked_final rep = 0%Z.
Proof.
  intros (_ & _ & _ & _ & _ & _ & _ & _ & _ & _ & _ & Hn & _)%script_Done Hd.
  set (l := add_CLAIMED (rows df)) in *.
  set (cols := add_column col_CLAIMED (columns df)) in *.
  rewrite Hn. unfold count_not_worked. rewrite filter_none; [done|].
  apply Forall_forall.
  intros r (raw & Hraw & ->)%elem_of_first_claims. cbn [IS_VERIFIED set_IS_VERIFIED].
  intros [= Hw].
  apply elem_of_groupby_first in Hraw as [(e & He & Hs) Hraw].
  set (s := SHIFT_ID raw) in *.
  apply elem_of_claimed_df_sorted in He.
  pose proof He as Hc.
  apply list_elem_of_filter in He as [_ He].
  apply list_elem_of_fmap in He as (e1 & -> & [He1 Hex]%elem_of_filter_excluded).
  cbn in Hs. rewrite Hs in Hex.
  assert (∃ e0, e0 ∈ rows df ∧ SHIFT_ID e0 = s ∧ is_Some (CLAIMED_AT e0))
    as Hclaimed.
  { pose proof (claimed_df_kept_present cols (rows df)) as Hall.
    rewrite Forall_forall in Hall. specialize (Hall _ Hc). cbn in Hall.
    apply elem_of_add_CLAIMED in He1 as (e0 & -> & He0). eauto. }
  (* the record of the shift in the first pass is verified *)
  set (raw1 := first_of_group s (group s (claimed_df_sorted kind l))).
  assert (worked cols raw1 = true) as Hw1.
  { destruct (worked cols raw1) eqn:E; [done|]. exfalso. apply Hex.
    unfold excluded_shift_ids, first_claims_not_worked_shift_ids.
    apply elem_of_union_r, elem_of_list_to_set, list_elem_of_fmap.
    exists (set_IS_VERIFIED (Some false) raw1). split; [done|].
    apply list_elem_of_filter. split; [done|].
    apply elem_of_first_claims. exists raw1. rewrite E. split; [|done].
    apply elem_of_groupby_first. split; [|done].
    apply claimed_shift in Hclaimed as (e0 & He0 & Hs0).
    exists e0. split; [|done]. by apply elem_of_claimed_df_sorted. }
  unfold worked in Hw, Hw1.
  rewrite has_place_SHIFT_END_AT in Hw by done.
  destruct (has col_IS_VERIFIED cols); [|done].
  rewrite Hraw in Hw. unfold raw1 in Hw1.
  unfold first_of_group in Hw, Hw1. cbn [IS_VERIFIED] in Hw, Hw1.
  pose proof (group_sorted_again cols (rows df) s Hd Hex) as Hg.
  fold l in Hg. fold s in Hw. rewrite Hg in Hw.
  unfold first_notna in Hw, Hw1.
  rewrite omap_fmap_respect in Hw by done. congruence.
Qed.

End script.

Lemma NoDup_fmap_eq {A B} (f : A → B) (l : list A) (x y : A) :
  NoDup (f <$> l) → x ∈ l → y ∈ l → f x = f y → x = y.
Proof.
  induction l as [|z l IH]; intros Hnd Hx Hy Hf;
    [by apply elem_of_nil in Hx|].
  cbn in Hnd. apply NoDup_cons in Hnd as [Hz Hnd].
  apply elem_of_cons in Hx as [->|Hx], Hy as [->|Hy]; [done| | |by apply IH].
  - exfalso. apply Hz. rewrite Hf. apply list_elem_of_fmap. eauto.
  - exfalso. apply Hz. rewrite <- Hf. apply list_elem_of_fmap. eauto.
Qed.

(** Claim events are told apart by shift and time when no pair of shift
    and time occurs twice among them. *)
Lemma distinct_claim_times_NoDup (l : list Event) :
  NoDup ((λ e, (SHIFT_ID e, CLAIMED_AT e))
           <$> filter (λ e, is_Some (CLAIMED_AT e)) l) →
  distinct_claim_times l.
Proof.
  intros Hnd e1 e2 H1 H2 Hs Hc Ht.
  apply (NoDup_fmap_eq _ _ e1 e2 Hnd).
  - by apply list_elem_of_filter.
  - apply list_elem_of_filter. split; [by rewrite <- Ht|done].
  - by rewrite Hs, Ht.
Qed.

Lemma sample_script_run :
  script mergesort sample_log = Done (sample_cohort, sample_report).
Proof. vm_compute. reflexivity. Qed.

Lemma missing_column_KeyError_witness :
  required_columns
    = ([col_CLAIMED_AT; col_CANCELED_AT; col_SHIFT_ID; col_SHIFT_START_AT]
         ++ col_DURATION :: []) ∧
  (col_DURATION ∉ columns no_duration_log) ∧
  rows no_duration_log ≠ [] ∧
  script mergesort no_duration_log = Fail (Key col_DURATION).
Proof.
  assert (col_DURATION ∉ columns no_duration_log) as Hc.
  { apply (bool_decide_unpack _). vm_compute. reflexivity. }
  split; [reflexivity|]. split; [exact Hc|]. split; [done|].
  apply (missing_column_KeyError mergesort no_duration_log col_DURATION
           [col_CLAIMED_AT; col_CANCELED_AT; col_SHIFT_ID;
            col_SHIFT_START_AT] []).
  - reflexivity.
  - intros c' Hc'. apply (bool_decide_unpack _).
    repeat (apply elem_of_cons in Hc' as [->|Hc']; [vm_compute; reflexivity|]).
    by apply elem_of_nil in Hc'.
  - exact Hc.
  - left. done.
Defined.

Lemma all_excluded_KeyError_witness :
  script mergesort canceled_log = Fail (Key col_SHIFT_ID).
Proof.
  apply (all_excluded_KeyError mergesort canceled_log (mkFrame [] [])).
  - vm_compute. reflexivity.
  - done.
  - done.
Defined.

Lemma statistics_partition_witness :
  script mergesort sample_log = Done (sample_cohort, sample_report) ∧
  (num_first_claims_worked sample_report
   + num_first_claims_not_worked sample_report
   = first_claimers_total sample_report)%Z ∧
  (first_claimers_total sample_report + num_never_claimed sample_report
   = total_shifts sample_report)%Z ∧
  num_never_claimed sample_report
  = Z.of_nat
      (size (list_to_set (SHIFT_ID <$> rows sample_log)
             ∖ list_to_set
                 (SHIFT_ID <$> filter (λ e, is_Some (CLAIMED_AT e))
                                 (rows sample_log))
             : gset Z)) ∧
  (0 < total_shifts sample_report)%Z ∧
  ((percentages sample_report).1.1 + (percentages sample_report).1.2
   + (percentages sample_report).2 == 100)%Q.
Proof.
  split; [vm_compute; reflexivity|].
  apply (statistics_partition mergesort sample_log sample_cohort
           sample_report).
  vm_compute. reflexivity.
Defined.

Lemma final_statistics_partition_witness :
  script mergesort sample_log = Done (sample_cohort, sample_report) ∧
  final_shift_ids sample_report
  = list_to_set (SHIFT_ID <$> rows sample_cohort) ∧
  (Z.of_nat (size (final_shift_ids sample_report))
   = num_first_claims_worked_final sample_report
     + num_first_claims_not_worked_final sample_report
     + Z.of_nat (size (never_claimed_in_final sample_report)))%Z ∧
  (∀ s, s ∈ never_claimed_in_final sample_report ↔
        s ∈ final_shift_ids sample_report ∧
        ∀ e, e ∈ rows sample_log → SHIFT_ID e = s → CLAIMED_AT e = None).
Proof.
  split; [vm_compute; reflexivity|].
  apply (final_statistics_partition mergesort sample_log sample_cohort
           sample_report).
  vm_compute. reflexivity.
Defined.

Lemma first_claimers_in_cohort_worked_witness :
  script mergesort sample_log = Done (sample_cohort, sample_report) ∧
  distinct_claim_times (rows sample_log) ∧
  num_first_claims_not_worked_final sample_report = 0%Z.
Proof.
  assert (distinct_claim_times (rows sample_log)) as Hd.
  { apply distinct_claim_times_NoDup. by apply (bool_decide_unpack _). }
  split; [vm_compute; reflexivity|]. split; [exact Hd|].
  apply (first_claimers_in_cohort_worked mergesort sample_log sample_cohort
           sample_report); [|exact Hd].
  vm_compute. reflexivity.
Defined.

End StatisticsSpec.

(** ** Report 5: bars on the clock *)

Module ClockSpec.
Import Frame Examples Scenarios Plot5Clock.
Local Open Scope Z_scope.

Lemma inject_Z_sub (a b : Z) : (inject_Z (a - b) == inject_Z a - inject_Z b)%Q.
Proof.
  unfold Z.sub. rewrite inject_Z_plus, inject_Z_opp. reflexivity.
Qed.

Lemma clock_seconds (t : Timestamp) :
  3600 * dt_hour t + 60 * dt_minute t + dt_second t = second_of_day t.
Proof.
  unfold dt_hour, dt_minute, dt_second, second_of_day, ns_per_hour,
    ns_per_minute, ns_per_second.
  Z.to_euclidean_division_equations. lia.
Qed.

Lemma to_fractional_hour_seconds (t : Timestamp) :
  (to_fractional_hour t == inject_Z (second_of_day t) / 3600)%Q.
Proof.
  rewrite <- clock_seconds. unfold to_fractional_hour.
  rewrite !inject_Z_plus, !inject_Z_mult. field.
Qed.

Lemma second_of_day_range (t : Timestamp) : 0 ≤ second_of_day t < 86400.
Proof. unfold second_of_day. apply Z.mod_pos_bound. done. Qed.

Lemma to_fractional_hour_bounds (t : Timestamp) :
  (0 <= to_fractional_hour t)%Q ∧ (to_fractional_hour t < 24)%Q.
Proof.
  pose proof (second_of_day_range t) as [H0 H1].
  rewrite to_fractional_hour_seconds. split.
  - apply Qle_shift_div_l; [done|]. rewrite Qmult_0_l.
    change 0%Q with (inject_Z 0). by rewrite <- Zle_Qle.
  - apply Qlt_shift_div_r; [done|].
    change (24 * 3600)%Q with (inject_Z 86400). by rewrite <- Zlt_Qlt.
Qed.

(** X13.  Lines 20-21: the fractional hour is the time of day in hours,
    whole seconds counted: it lies in [0, 24), and two timestamps get the
    same one exactly when they show the same second of the day. *)
Theorem to_fractional_hour_range (t : Timestamp) :
  (0 <= to_fractional_hour t)%Q ∧ (to_fractional_hour t < 24)%Q ∧
  ∀ t', (to_fractional_hour t == to_fractional_hour t')%Q ↔
        second_of_day t = second_of_day t'.
Proof.
  destruct (to_fractional_hour_bounds t) as [H0 H1].
  split; [done|split; [done|]].
  intros t'. rewrite !to_fractional_hour_seconds. split.
  - intros H. apply inject_Z_injective.
    assert (inject_Z (second_of_day t)
            == inject_Z (second_of_day t) / 3600 * 3600)%Q as ->
      by (field).
    rewrite H. field.
  - intros ->. done.
Qed.

Lemma to_fractional_hour_le (t t' : Timestamp) :
  (to_fractional_hour t <= to_fractional_hour t')%Q ↔
  second_of_day t ≤ second_of_day t'.
Proof.
  rewrite !to_fractional_hour_seconds. rewrite Zle_Qle. split.
  - intros H. apply (Qmult_le_r _ _ (/ 3600)%Q); [done|]. exact H.
  - intros H. apply (Qmult_le_r _ _ (/ 3600)%Q) in H; [|done]. exact H.
Qed.

(** X14.  Lines 50-53 and 105-106: after the adjustment the end of a bar
    lies to the right of its start, by at most 24 hours. *)
Theorem END_HOUR_after_START_HOUR (e : Event) (st en : Q) :
  START_HOUR e = Some st →
  END_HOUR e = Some en →
  (st < en)%Q ∧ (en <= st + 24)%Q.
Proof.
  unfold END_HOUR. intros Hst. rewrite Hst.
  unfold START_HOUR in Hst.
  destruct (SHIFT_START_AT e) as [s|]; [|done].
  destruct (SHIFT_END_AT e) as [t|]; [|done].
  cbn in *. injection Hst as <-. intros [= <-].
  destruct (to_fractional_hour_bounds s) as [Hs0 Hs1].
  destruct (to_fractional_hour_bounds t) as [Ht0 Ht1].
  destruct (Qle_bool _ _) eqn:E.
  - apply Qle_bool_iff in E. split.
    + apply Qlt_le_trans with 24%Q; [done|].
      rewrite <- (Qplus_0_l 24) at 1. by apply Qplus_le_l.
    + by apply Qplus_le_l.
  - assert (to_fractional_hour s < to_fractional_hour t)%Q as Hlt.
    { apply Qnot_le_lt. intros H%Qle_bool_iff. congruence. }
    split; [done|].
    apply Qlt_le_weak, Qlt_le_trans with 24%Q; [done|].
    rewrite <- (Qplus_0_l 24) at 1. by apply Qplus_le_l.
Qed.

Lemma clock_advance_le (a b : Z) :
  b mod 86400 ≤ a mod 86400 →
  b mod 86400 - a mod 86400 + 86400
  = if decide ((b - a) mod 86400 = 0) then 86400 else (b - a) mod 86400.
Proof.
  rewrite (Zminus_mod b a).
  pose proof (Z.mod_pos_bound a 86400 eq_refl).
  pose proof (Z.mod_pos_bound b 86400 eq_refl).
  generalize dependent (a mod 86400). generalize dependent (b mod 86400).
  intros m1 ? m2 ? ?.
  destruct (decide _); Z.to_euclidean_division_equations; lia.
Qed.

Lemma clock_advance_gt (a b : Z) :
  a mod 86400 < b mod 86400 →
  b mod 86400 - a mod 86400 = (b - a) mod 86400 ∧ (b - a) mod 86400 ≠ 0.
Proof.
  rewrite (Zminus_mod b a).
  pose proof (Z.mod_pos_bound a 86400 eq_refl).
  pose proof (Z.mod_pos_bound b 86400 eq_refl).
  generalize dependent (a mod 86400). generalize dependent (b mod 86400).
  intros m1 ? m2 ? ?.
  Z.to_euclidean_division_equations. lia.
Qed.

(** X15.  Lines 49-53: for a shift that starts and ends on whole seconds,
    the length of the bar is the length of the shift taken modulo 24 hours,
    with a full day in place of 0.  So a shift of up to 24 hours gets a bar
    of its own length, a shift of no length at all is drawn as a full day,
    and a longer shift is drawn shorter than it is. *)
Theorem bar_length_is_duration (e : Event) (s t : Timestamp) :
  SHIFT_START_AT e = Some s →
  SHIFT_END_AT e = Some t →
  (ns_per_second | s) → (ns_per_second | t) →
  ∃ st en,
    START_HOUR e = Some st ∧ END_HOUR e = Some en ∧
    (en - st ==
     if decide (seconds_on_clock s t = 0%Z) then 24
     else inject_Z (seconds_on_clock s t) / 3600)%Q ∧
    (s < t ≤ s + 24 * ns_per_hour →
     (en - st == inject_Z (t - s) / inject_Z ns_per_hour)%Q).
Proof.
  intros Hs Ht [a Ha] [b Hb].
  unfold END_HOUR, START_HOUR. rewrite Hs, Ht. cbn.
  eexists _, _. split; [done|]. split; [done|].
  assert (second_of_day s = a mod 86400) as Hsa.
  { unfold second_of_day. rewrite Ha. by rewrite Z.div_mul. }
  assert (second_of_day t = b mod 86400) as Htb.
  { unfold second_of_day. rewrite Hb. by rewrite Z.div_mul. }
  assert ((t - s) / ns_per_second = b - a) as Hdiff.
  { replace (t - s) with ((b - a) * ns_per_second) by lia.
    by rewrite Z.div_mul. }
  unfold seconds_on_clock. rewrite Hdiff. set (r := (b - a) mod 86400).
  assert ((if Qle_bool (to_fractional_hour t) (to_fractional_hour s)
           then to_fractional_hour t + 24 else to_fractional_hour t)
          - to_fractional_hour s
          == if decide (r = 0%Z) then 24 else inject_Z r / 3600)%Q as en_st.
  { destruct (Qle_bool _ _) eqn:E.
    - apply Qle_bool_iff, to_fractional_hour_le in E.
      rewrite !to_fractional_hour_seconds.
      assert (second_of_day t - second_of_day s + 86400
              = if decide (r = 0) then 86400 else r) as Hz.
      { rewrite Hsa, Htb in *. by apply clock_advance_le. }
      destruct (decide (r = 0)).
      + assert (second_of_day t = second_of_day s) as -> by lia.
        field.
      + rewrite <- Hz, inject_Z_plus, inject_Z_sub. field.
    - assert (second_of_day s < second_of_day t) as Hlt.
      { apply Z.lt_nge. intros H%to_fractional_hour_le%Qle_bool_iff.
        congruence. }
      rewrite !to_fractional_hour_seconds.
      assert (second_of_day t - second_of_day s = r ∧ r ≠ 0) as [Hz Hr].
      { rewrite Hsa, Htb in *. by apply clock_advance_gt. }
      rewrite decide_False by done.
      rewrite <- Hz, inject_Z_sub. field. }
  split; [exact en_st|].
  intros Hrange. rewrite en_st.
  assert (0 < b - a ≤ 86400) as Hba.
  { unfold ns_per_hour, ns_per_second in *. lia. }
  assert (inject_Z (t - s) / inject_Z ns_per_hour
          == inject_Z (b - a) / 3600)%Q as Hq.
  { replace (t - s) with ((b - a) * ns_per_second) by lia.
    rewrite inject_Z_mult. unfold ns_per_second, ns_per_hour.
    change (inject_Z 3600000000000)
      with (inject_Z (3600 * 1000000000)).
    rewrite inject_Z_mult. field. }
  rewrite Hq. destruct (decide (r = 0)) as [Hr|Hr].
  - assert (b - a = 86400) as ->
      by (unfold r in Hr; Z.to_euclidean_division_equations; lia).
    reflexivity.
  - assert (r = b - a) as ->
      by (unfold r in *; Z.to_euclidean_division_equations; lia).
    reflexivity.
Qed.

Lemma hours_of_day (m : Z) : 0 ≤ m < 24 → m ∈ seqZ 0 24.
Proof. intros H. apply elem_of_seqZ. lia. Qed.

Lemma labels_of_day_distinct :
  Forall (λ a, Forall (λ b, ∀ x y : bool,
            hour_label_12hr a +:+ (if x then "*" else "")
            = hour_label_12hr b +:+ (if y then "*" else "") →
            a = b ∧ x = y) (seqZ 0 24)) (seqZ 0 24).
Proof. apply (bool_decide_unpack _). vm_compute. done. Qed.

(** X16.  Lines 24-33 and 81: the label of an hour depends on the hour of
    the day only and tells the 24 hours of a day apart; with the star that
    marks the hours from 24 on, a tick label tells apart the hours of two
    successive days. *)
Theorem hour_labels_distinct (h1 h2 : Z) :
  (hour_label_12hr h1 = hour_label_12hr h2 ↔ h1 mod 24 = h2 mod 24) ∧
  (tick_label h1 = tick_label h2 ↔
   h1 mod 24 = h2 mod 24 ∧ (24 ≤ h1 ↔ 24 ≤ h2)).
Proof.
  assert (∀ h, hour_label_12hr h = hour_label_12hr (h mod 24)) as Hmod.
  { intros h. unfold hour_label_12hr. by rewrite Z.mod_mod. }
  pose proof labels_of_day_distinct as Hd.
  rewrite Forall_forall in Hd.
  assert (∀ (x y : bool),
            hour_label_12hr h1 +:+ (if x then "*" else "")
            = hour_label_12hr h2 +:+ (if y then "*" else "") →
            h1 mod 24 = h2 mod 24 ∧ x = y) as Hinj.
  { intros x y. rewrite (Hmod h1), (Hmod h2).
    specialize (Hd (h1 mod 24) (hours_of_day _ (Z.mod_pos_bound h1 24 eq_refl))).
    rewrite Forall_forall in Hd.
    apply (Hd (h2 mod 24) (hours_of_day _ (Z.mod_pos_bound h2 24 eq_refl))). }
  split; split.
  - intros H. apply (Hinj false false).
    by rewrite H.
  - intros H. by rewrite (Hmod h1), (Hmod h2), H.
  - unfold tick_label. intros H.
    destruct (decide (24 ≤ h1)) as [H1|H1], (decide (24 ≤ h2)) as [H2|H2].
    + apply (Hinj true true) in H as [Hm _]. tauto.
    + by apply (Hinj true false) in H as [_ Hb].
    + by apply (Hinj false true) in H as [_ Hb].
    + apply (Hinj false false) in H as [Hm _]. tauto.
  - intros [H Hs]. unfold tick_label. rewrite (Hmod h1), (Hmod h2), H.
    destruct (decide (24 ≤ h1)), (decide (24 ≤ h2)); tauto.
Qed.

Lemma END_HOUR_after_START_HOUR_witness :
  ∃ st en,
    START_HOUR night_shift = Some st ∧ END_HOUR night_shift = Some en ∧
    (st < en)%Q ∧ (en <= st + 24)%Q.
Proof.
  eexists _, _. split; [reflexivity|]. split; [reflexivity|].
  apply (END_HOUR_after_START_HOUR night_shift); reflexivity.
Defined.

Lemma bar_length_is_duration_witness :
  ∃ st en,
    START_HOUR night_shift = Some st ∧ END_HOUR night_shift = Some en ∧
    (en - st ==
     if decide (seconds_on_clock (at_hour 18) (at_hour 26) = 0%Z) then 24
     else inject_Z (seconds_on_clock (at_hour 18) (at_hour 26)) / 3600)%Q ∧
    (at_hour 18 < at_hour 26 ≤ at_hour 18 + 24 * ns_per_hour →
     (en - st
      == inject_Z (at_hour 26 - at_hour 18) / inject_Z ns_per_hour)%Q).
Proof.
  apply (bar_length_is_duration night_shift (at_hour 18) (at_hour 26)).
  - reflexivity.
  - reflexivity.
  - exists (at_hour 18 / ns_per_second). vm_compute. reflexivity.
  - exists (at_hour 26 / ns_per_second). vm_compute. reflexivity.
Defined.

End ClockSpec.

(** ** What the reports print and draw *)

Module ReportSpec.
Import Frame FrameFacts Loader LoaderFacts Kinds Examples ResolverSpec
  AggregateFacts GuardSpec BucketSpec Tables7 Plot1bSummary.

Lemma zip_fmap_same {A B C} (f : A → B) (g : A → C) (l : list A) :
  zip (f <$> l) (g <$> l) = (λ x, (f x, g x)) <$> l.
Proof. induction l as [|x l IH]; [done|]. cbn. by rewrite IH. Qed.

Lemma bucket_right_edge (k : nat) :
  k < 30 → bucket_right k = (24 * (Z.of_nat k + 1))%Z.
Proof.
  intros Hk. unfold bucket_right, Plot7a.hour_bins.
  rewrite list_lookup_fmap, lookup_seq_lt by lia.
  cbn. unfold id. lia.
Qed.

(** X17.  Report 7a line 36 and report 7b lines 23 and 125: the two
    reports name their bars differently.  In 7a the bar with label [d] is
    the bucket of index [d - 1], the latencies from [24 (d - 1)] up to
    [24 d] hours; in 7b the bar with label [d] is the bucket of index [d],
    the latencies from [24 d] up to [24 (d + 1)] hours. *)
Theorem day_labels_of_the_two_reports (l : list Event) :
  (∀ d k p, (d, (k, p)) ∈ table_7a l → d = pretty (Z.of_nat k + 1)%Z) ∧
  (∀ d k k' c u x, (d, ((k, c), (k', u)), x) ∈ table_7b l →
                   k' = k ∧ d = pretty (Z.of_nat k) ∧ 1 ≤ k ≤ 29 ∧
                   x = (c - u)%Q).
Proof.
  split.
  - intros d k p. unfold table_7a, bucket_labels, Plot7a.percent_claimed,
      Plot7a.claimed_counts.
    rewrite <- list_fmap_compose, zip_fmap_same, list_elem_of_fmap.
    intros (k' & [= -> <- _] & [Hk _]%elem_of_valid_buckets).
    rewrite bucket_right_edge by done. f_equal.
    rewrite Z.mul_comm, Z.div_mul by lia. reflexivity.
  - intros d k k' c u x. unfold table_7b, Plot7b.claimed_pm_avg,
      Plot7b.unclaimed_pm_avg, labels_29.
    rewrite full_bins_days, !take_ge by (by rewrite length_fmap, length_seq).
    rewrite !zip_fmap_same, <- list_fmap_compose, list_elem_of_fmap.
    intros (i & Heq & Hi%elem_of_seq). cbn in Heq.
    injection Heq as -> -> -> -> -> ->.
    split; [done|]. split; [done|]. split; [lia|done].
Qed.

Lemma nunique_mono (l1 l2 : list Event) :
  (∀ e, e ∈ l1 → e ∈ l2) → nunique_SHIFT_ID l1 ≤ nunique_SHIFT_ID l2.
Proof.
  intros H. unfold nunique_SHIFT_ID. apply subseteq_size. intros s.
  rewrite !elem_of_list_to_set, !list_elem_of_fmap.
  intros (e & -> & He). eauto.
Qed.

(** X18.  Report 7a, lines 24-33: a percentage is reported only for a
    bucket with at least 50 distinct shifts, so nothing is divided by zero,
    and it lies between 0 and 100, the limits of the chart. *)
Theorem percent_claimed_bounds (l : list Event) (k : nat) (p : Q) :
  (k, p) ∈ Plot7a.percent_claimed l →
  50 ≤ nunique_SHIFT_ID (Plot7a.bucket_rows k (Plot7a.df l)) ∧
  (0 <= p)%Q ∧ (p <= 100)%Q.
Proof.
  unfold Plot7a.percent_claimed, Plot7a.claimed_counts.
  rewrite <- list_fmap_compose, list_elem_of_fmap.
  intros (k' & [= -> ->] & [_ Hk]%elem_of_valid_buckets). cbn.
  split; [done|].
  set (t := nunique_SHIFT_ID (Plot7a.bucket_rows k' (Plot7a.df l))) in *.
  set (c := nunique_SHIFT_ID
              (Plot7a.bucket_rows k' (claimed_rows (Plot7a.df l)))).
  assert (c ≤ t) as Hct.
  { apply nunique_mono. intros e.
    unfold Plot7a.bucket_rows, claimed_rows.
    rewrite !list_elem_of_filter. tauto. }
  assert (0 < inject_Z (Z.of_nat t))%Q as Ht.
  { change 0%Q with (inject_Z 0). rewrite <- Zlt_Qlt. lia. }
  split.
  - apply Qmult_le_0_compat; [|done].
    apply Qle_shift_div_l; [done|]. rewrite Qmult_0_l.
    change 0%Q with (inject_Z 0). rewrite <- Zle_Qle. lia.
  - rewrite <- (Qmult_1_l 100) at 2. apply Qmult_le_compat_r; [|done].
    apply Qle_shift_div_r; [done|]. rewrite Qmult_1_l.
    rewrite <- Zle_Qle. lia.
Qed.

(** X19.  Report 1b, lines 82-84: the two percentages of the summary add
    up to 100, and are both taken as 0 when there are no hours at all. *)
Theorem hours_percentages (l : list Event) :
  (claimed_pct l + unclaimed_pct l
   == if Qeq_bool (total_hours l) 0 then 0 else 100)%Q ∧
  ((total_hours l == 0)%Q → claimed_pct l = 0%Q ∧ unclaimed_pct l = 0%Q).
Proof.
  split.
  2:{ intros H%Qeq_bool_iff. unfold claimed_pct, unclaimed_pct.
      by rewrite H. }
  unfold claimed_pct, unclaimed_pct.
  destruct (Qeq_bool (total_hours l) 0) eqn:E; [reflexivity|].
  assert (¬ total_hours l == 0)%Q as Hne.
  { intros H%Qeq_bool_iff. congruence. }
  unfold total_hours in *. field. exact Hne.
Qed.

Lemma pct_margin_antitone (c p p' : Q) :
  (0 < c)%Q → (p <= p')%Q → (pct_margin c p' <= pct_margin c p)%Q.
Proof.
  intros Hc Hp. unfold pct_margin.
  apply Qmult_le_compat_r; [|done].
  apply Qle_shift_div_l; [done|].
  assert ((c - p') / c * c == c - p')%Q as Heq
    by (field; by apply Qnot_eq_sym, Qlt_not_eq).
  rewrite Heq. unfold Qminus. apply Qplus_le_r. by apply Qopp_le_compat.
Qed.

Lemma pct_margin_negative (c p : Q) :
  (0 < c)%Q → (pct_margin c p < 0)%Q ↔ (c < p)%Q.
Proof.
  intros Hc. unfold pct_margin.
  assert ((c - p) / c * 100 == (c - p) * (100 / c))%Q as Heq
    by (field; by apply Qnot_eq_sym, Qlt_not_eq).
  rewrite Heq.
  assert (0 < 100 / c)%Q as Hpos.
  { apply Qlt_shift_div_l; [done|]. by rewrite Qmult_0_l. }
  split.
  - intros H. apply Qnot_le_lt. intros Hle.
    apply (Qlt_not_le _ _ H). apply Qmult_le_0_compat.
    + unfold Qminus. rewrite <- (Qplus_opp_r p). by apply Qplus_le_l.
    + by apply Qlt_le_weak.
  - intros H.
    rewrite <- (Qmult_0_l (100 / c)). apply Qmult_lt_r; [done|].
    unfold Qminus. rewrite <- (Qplus_opp_r p). by apply Qplus_lt_l.
Qed.

(** X20.  Report 4b, lines 25-38: a claimed row that the report keeps has
    a negative margin, and lands in the red half of the chart, exactly
    when it pays more than it charges.  The margin given to an unclaimed
    shift is the lowest of the margins of the offers the report keeps for
    it, the unclaimed events of the shift with a positive [CHARGE_RATE]: it
    is no greater than the margin at the pay rate of any of them, and it is
    the margin at the pay rate of one of them.  Offers on claimed events or
    on events without a positive charge rate do not count. *)
Theorem margin_sign_and_worst_case (l : list Event) :
  (∀ e p, e ∈ l → CLAIMED e = Some true → positive_charge e = true →
          PAY_RATE e = Some p →
          ∃ c, CHARGE_RATE e = Some c ∧
               pct_margin_cells (CHARGE_RATE e) (PAY_RATE e)
               = Some (pct_margin c p) ∧
               ((pct_margin c p < 0)%Q ↔ (c < p)%Q)) ∧
  (∀ r e p, r ∈ Plot4b.unclaimed_summary l →
            e ∈ l → CLAIMED e ≠ Some true → positive_charge e = true →
            SHIFT_ID e = r.1.1 → PAY_RATE e = Some p →
            ∃ c m, CHARGE_RATE r.2 = Some c ∧
                   pct_margin_cells (CHARGE_RATE r.2) r.1.2 = Some m ∧
                   (m <= pct_margin c p)%Q) ∧
  (∀ r m, r ∈ Plot4b.unclaimed_summary l →
          pct_margin_cells (CHARGE_RATE r.2) r.1.2 = Some m →
          ∃ e p c, e ∈ l ∧ CLAIMED e ≠ Some true ∧
                   positive_charge e = true ∧ SHIFT_ID e = r.1.1 ∧
                   PAY_RATE e = Some p ∧ CHARGE_RATE r.2 = Some c ∧
                   m = pct_margin c p).
Proof.
  split; [|split].
  - intros e p He Hcl Hpos Hp.
    apply positive_charge_true in Hpos as (c & Hc & Hpos).
    exists c. rewrite Hc, Hp. split; [done|]. split; [done|].
    by apply pct_margin_negative.
  - intros [[s m] meta] e p (H1 & H2 & Hk)%elem_of_merge He Hcl Hpos Hs Hp.
    cbn in *. subst s.
    apply elem_of_drop_duplicates in H2 as [H2 _].
    destruct (positive_in_df (λ e, CLAIMED e ≠ Some true) l meta H2)
      as (c & Hc & Hcpos).
    apply elem_of_groupby_max_PAY_RATE in H1 as [_ ->].
    assert (Some p ∈ PAY_RATE <$> group (SHIFT_ID e)
                       (unclaimed_rows (Plot4b.df l))) as Hin.
    { apply list_elem_of_fmap. exists e. split; [done|].
      apply elem_of_group. split; [done|].
      apply elem_of_unclaimed_rows. split; [done|].
      unfold Plot4b.df. by apply list_elem_of_filter. }
    rewrite Hs in Hin.
    destruct (max_skipna _) as [pm|] eqn:Em.
    + apply max_skipna_Some in Em as [_ Hub].
      exists c, (pct_margin c pm). rewrite Hc. split; [done|].
      split; [done|]. apply pct_margin_antitone; [done|].
      by apply Hub.
    + by apply (max_skipna_None _ p) in Em.
  - intros [[s m0] meta] m (H1 & H2 & Hk)%elem_of_merge Hm. cbn in *.
    apply elem_of_groupby_max_PAY_RATE in H1 as [_ ->].
    destruct (CHARGE_RATE meta) as [c|] eqn:Hc; [|done].
    destruct (max_skipna _) as [pm|] eqn:Em; [|done].
    cbn in Hm. simplify_eq.
    apply max_skipna_Some in Em as [Hin _].
    apply list_elem_of_fmap in Hin as (e & Hp & [Hs He]%elem_of_group).
    apply elem_of_unclaimed_rows in He as [Hcl He].
    unfold Plot4b.df in He. apply list_elem_of_filter in He as [Hpos He].
    exists e, pm, c. done.
Qed.

Lemma percent_claimed_bounds_witness :
  (0, (3000 # 60)%Q) ∈ Plot7a.percent_claimed (rows crowd_cohort) ∧
  50 ≤ nunique_SHIFT_ID
         (Plot7a.bucket_rows 0 (Plot7a.df (rows crowd_cohort))) ∧
  (0 <= 3000 # 60)%Q ∧ (3000 # 60 <= 100)%Q.
Proof.
  assert ((0, (3000 # 60)%Q) ∈ Plot7a.percent_claimed (rows crowd_cohort))
    as Hin.
  { assert (Plot7a.percent_claimed (rows crowd_cohort)
            = [(0, (3000 # 60)%Q)]) as -> by (vm_compute; reflexivity).
    apply list_elem_of_here. }
  split; [exact Hin|].
  exact (percent_claimed_bounds (rows crowd_cohort) 0 (3000 # 60)%Q Hin).
Defined.

End ReportSpec.
